(** * pdb_eda: CCP4 density maps, blob clustering and symmetry atoms

    A shallow embedding of [ccp4.py] (header decoding, the density grid,
    the crs <-> xyz conversions, the sphere enumeration and the blob
    clustering) and of [DensityAnalysis._calcSymmetryAtoms] from
    [pdb_eda/densityAnalysis.py], followed by the properties of the
    specification that concern them.

    Conventions of the embedding.
    - Python [int] is [Z]; Python [float] and [numpy.float64] are the
      kernel's binary64 numbers ([PrimFloat.float]), whose operations round
      exactly as IEEE 754 prescribes.
    - An exception is a value of [exn]; a computation that may raise
      returns a [result].
    - A Python list that a callee mutates is passed in and handed back
      (state passing).
    - [print] and [warnings.warn] are not modelled. *)

From Stdlib Require Import ZArith QArith Floats Uint63 List Lia Bool.
From Stdlib.Strings Require Import Byte.
From stdpp Require Import base option list gmap sets relations.
From Equations Require Import Equations.
Import ListNotations.

#[local] Open Scope Z_scope.
#[local] Set Warnings "-clear-no-such-hyp".

(** ** The Python runtime *)

Module Py.

Inductive exn : Type :=
| ZeroDivisionError
| IndexError
| ValueError
| OverflowError
| AssertionError
| StructError.

Inductive result (A : Type) : Type :=
| Ok (a : A)
| Raise (e : exn).
#[global] Arguments Ok {A} a.
#[global] Arguments Raise {A} e.

#[global] Instance result_ret : MRet result := @Ok.
#[global] Instance result_bind : MBind result :=
  λ A B f m, match m with Ok a => f a | Raise e => Raise e end.
#[global] Instance result_fmap : FMap result :=
  λ A B f m, match m with Ok a => Ok (f a) | Raise e => Raise e end.

Definition is_ok {A} (r : result A) : bool :=
  match r with Ok _ => true | Raise _ => false end.

(** [assert b] *)
Definition py_assert (b : bool) : result unit :=
  if b then Ok tt else Raise AssertionError.

(** [for x in l: body], the body threading a state and possibly raising. *)
Fixpoint for_each {A S} (l : list A) (body : A → S → result S) (s : S)
  : result S :=
  match l with
  | [] => Ok s
  | x :: l' => s' ← body x s; for_each l' body s'
  end.

(** [range(lo, hi)] *)
Definition range (lo hi : Z) : list Z :=
  map (λ k, lo + Z.of_nat k) (seq 0 (Z.to_nat (hi - lo))).

(** *** Sequences *)

(** [l[i]] on a list or tuple: a negative index counts from the end. *)
Definition getitem {A} (l : list A) (i : Z) : result A :=
  let n := Z.of_nat (length l) in
  let j := if i <? 0 then i + n else i in
  if (0 <=? j) && (j <? n) then
    match l !! Z.to_nat j with
    | Some x => Ok x
    | None => Raise IndexError
    end
  else Raise IndexError.

(** [l[start:stop]] *)
Definition slice {A} (l : list A) (start stop : Z) : list A :=
  let n := Z.of_nat (length l) in
  let clamp k := if k <? 0 then Z.max (k + n) 0 else Z.min k n in
  let a := clamp start in
  let b := clamp stop in
  take (Z.to_nat (b - a)) (drop (Z.to_nat a) l).

(** [l[start:]] *)
Definition slice_from {A} (l : list A) (start : Z) : list A :=
  slice l start (Z.of_nat (length l)).

(** Lists and tuples of exactly three elements ([ncrs], [crsStart], a
    crs or xyz coordinate, [gridLength], ...). *)
Record vec3 (A : Type) : Type := V3 { v3_0 : A; v3_1 : A; v3_2 : A }.
#[global] Arguments V3 {A} _ _ _.
#[global] Arguments v3_0 {A} _.
#[global] Arguments v3_1 {A} _.
#[global] Arguments v3_2 {A} _.

Definition v3_list {A} (v : vec3 A) : list A := [v3_0 v; v3_1 v; v3_2 v].

Definition v3_map {A B} (f : A → B) (v : vec3 A) : vec3 B :=
  V3 (f (v3_0 v)) (f (v3_1 v)) (f (v3_2 v)).

(** [v[i]] *)
Definition v3_getitem {A} (v : vec3 A) (i : Z) : result A :=
  if (i =? 0) || (i =? -3) then Ok (v3_0 v)
  else if (i =? 1) || (i =? -2) then Ok (v3_1 v)
  else if (i =? 2) || (i =? -1) then Ok (v3_2 v)
  else Raise IndexError.

(** [v[i] = x] *)
Definition v3_setitem {A} (v : vec3 A) (i : Z) (x : A) : result (vec3 A) :=
  if (i =? 0) || (i =? -3) then Ok (V3 x (v3_1 v) (v3_2 v))
  else if (i =? 1) || (i =? -2) then Ok (V3 (v3_0 v) x (v3_2 v))
  else if (i =? 2) || (i =? -1) then Ok (V3 (v3_0 v) (v3_1 v) x)
  else Raise IndexError.

(** [[f(i) for i in range(3)]], evaluated left to right. *)
Definition v3_tabulate {A} (f : Z → result A) : result (vec3 A) :=
  a ← f 0; b ← f 1; c ← f 2; Ok (V3 a b c).

(** *** Numbers *)

(** What the embedding needs of a floating-point format.  The methods
    that only add, multiply, divide and truncate are written against
    this interface, so that they can be read both in binary64 and in
    exact arithmetic. *)
Class FloatArith (F : Type) : Type := {
  f_of_Z : Z → F;
  f_add : F → F → F;
  f_sub : F → F → F;
  f_mul : F → F → F;
  f_div : F → F → F;
  f_is_zero : F → bool;
  f_trunc : F → result Z
}.

(** A Python number as the code meets them: an [int], a [float], or a
    [numpy.float64] scalar (an element of an array, or the result of a
    numpy function).  The last two hold the same values but divide
    differently: [float] raises on a zero divisor, numpy warns and
    returns an infinity or a NaN. *)
Inductive pynum (F : Type) : Type :=
| PyInt (z : Z)
| PyFloat (x : F)
| NpFloat (x : F).
#[global] Arguments PyInt {F} z.
#[global] Arguments PyFloat {F} x.
#[global] Arguments NpFloat {F} x.

Definition to_float_with {F} (conv : Z → F) (a : pynum F) : F :=
  match a with
  | PyInt z => conv z
  | PyFloat x | NpFloat x => x
  end.

Section Tower.
Context {F : Type} `{FloatArith F}.

Definition to_float (a : pynum F) : F := to_float_with f_of_Z a.

Definition is_np (a : pynum F) : bool :=
  match a with NpFloat _ => true | _ => false end.

(** The type of the result of a float operation on [a] and [b]. *)
Definition wrap (a b : pynum F) (x : F) : pynum F :=
  if is_np a || is_np b then NpFloat x else PyFloat x.

Definition py_add (a b : pynum F) : pynum F :=
  match a, b with
  | PyInt x, PyInt y => PyInt (x + y)
  | _, _ => wrap a b (f_add (to_float a) (to_float b))
  end.

Definition py_sub (a b : pynum F) : pynum F :=
  match a, b with
  | PyInt x, PyInt y => PyInt (x - y)
  | _, _ => wrap a b (f_sub (to_float a) (to_float b))
  end.

Definition py_mul (a b : pynum F) : pynum F :=
  match a, b with
  | PyInt x, PyInt y => PyInt (x * y)
  | _, _ => wrap a b (f_mul (to_float a) (to_float b))
  end.

Definition py_is_zero (a : pynum F) : bool :=
  match a with
  | PyInt z => z =? 0
  | PyFloat x | NpFloat x => f_is_zero x
  end.

(** [a / b].  With a numpy scalar on either side the division is
    numpy's and never raises.  Otherwise Python raises on a zero
    divisor; the quotient of two ints is the float nearest to it,
    which is the quotient of the two converted operands as long as
    both are below 2^53 in absolute value. *)
Definition py_truediv (a b : pynum F) : result (pynum F) :=
  if is_np a || is_np b then Ok (NpFloat (f_div (to_float a) (to_float b)))
  else if py_is_zero b then Raise ZeroDivisionError
  else Ok (PyFloat (f_div (to_float a) (to_float b))).

(** [int(a)]: truncation towards zero; NaN and the infinities raise. *)
Definition py_int (a : pynum F) : result Z :=
  match a with
  | PyInt z => Ok z
  | PyFloat x | NpFloat x => f_trunc x
  end.
End Tower.

End Py.
Import Py.

(** ** binary64 *)

Module F64.

(** The float nearest to an integer (ties to even). *)
Definition of_Z (z : Z) : float :=
  SF2Prim (binary_normalize prec emax z 0 false).

(** [int(x)] for a float [x]. *)
Definition trunc (x : float) : result Z :=
  match Prim2SF x with
  | S754_nan => Raise ValueError
  | S754_infinity _ => Raise OverflowError
  | S754_zero _ => Ok 0
  | S754_finite s m e =>
      let mag := if 0 <=? e then Z.shiftl (Zpos m) e
                 else Z.shiftr (Zpos m) (- e) in
      Ok (if s then - mag else mag)
  end.

(** [numpy.ceil(x)] *)
Definition ceil (x : float) : float :=
  match Prim2SF x with
  | S754_finite s m e =>
      if 0 <=? e then x
      else
        let q := Z.shiftr (Zpos m) (- e) in
        let exact := Zpos m =? Z.shiftl q (- e) in
        if s then (if q =? 0 then neg_zero else (- of_Z q)%float)
        else of_Z (if exact then q else q + 1)
  | _ => x
  end.

(** [a < b] and [a == b] on Python numbers.  An int is compared to a
    float through its conversion, which is exact below 2^53. *)
Definition lt (a b : pynum float) : bool :=
  match a, b with
  | PyInt x, PyInt y => x <? y
  | _, _ => (to_float_with of_Z a <? to_float_with of_Z b)%float
  end.

Definition eq (a b : pynum float) : bool :=
  match a, b with
  | PyInt x, PyInt y => x =? y
  | _, _ => (to_float_with of_Z a =? to_float_with of_Z b)%float
  end.

#[global] Instance arith : FloatArith float := {
  f_of_Z := of_Z;
  f_add := PrimFloat.add;
  f_sub := PrimFloat.sub;
  f_mul := PrimFloat.mul;
  f_div := PrimFloat.div;
  f_is_zero := PrimFloat.is_zero;
  f_trunc := trunc
}.

End F64.

(** ** Exact arithmetic

    The rationals, with one more element for what is not a finite
    number: the second reading of [FloatArith], in which no operation
    rounds. *)

Module Exact.

Inductive xreal : Type :=
| Fin (q : Q)
| NotFinite.

Definition lift2 (f : Q → Q → Q) (a b : xreal) : xreal :=
  match a, b with
  | Fin x, Fin y => Fin (f x y)
  | _, _ => NotFinite
  end.

Definition div (a b : xreal) : xreal :=
  match a, b with
  | Fin x, Fin y => if Qeq_bool y 0 then NotFinite else Fin (Qdiv x y)
  | _, _ => NotFinite
  end.

Definition is_zero (a : xreal) : bool :=
  match a with
  | Fin x => Qeq_bool x 0
  | NotFinite => false
  end.

(** Truncation towards zero. *)
Definition trunc (a : xreal) : result Z :=
  match a with
  | Fin x => Ok (Z.quot (Qnum x) (Zpos (Qden x)))
  | NotFinite => Raise ValueError
  end.

#[global] Instance arith : FloatArith xreal := {
  f_of_Z := λ z, Fin (inject_Z z);
  f_add := lift2 Qplus;
  f_sub := lift2 Qminus;
  f_mul := lift2 Qmult;
  f_div := div;
  f_is_zero := is_zero;
  f_trunc := trunc
}.

(** A number that is not zero, and a Python number that is finite. *)
Definition nonzero (a : xreal) : Prop :=
  match a with
  | Fin x => ¬ Qeq x 0
  | NotFinite => False
  end.

Definition finite (a : pynum xreal) : Prop :=
  match a with
  | PyInt _ | PyFloat (Fin _) | NpFloat (Fin _) => True
  | _ => False
  end.

End Exact.

(** ** What the embedding takes from numpy and from CPython

    [numpy.cos], [numpy.sin] and [numpy.dot] round as the platform's
    libraries do, and the order in which a [set] is iterated is that of
    its hash table.  The embedding takes them as given and every statement
    below holds whatever they are. *)

Record Runtime : Type := {
  np_cos : float → float;
  np_sin : float → float;
  (** [numpy.dot] of a 3x3 matrix (a list of rows) and a vector *)
  np_dot : vec3 (vec3 float) → vec3 float → vec3 float;
  (** the order of [for x in s] over a set of ints *)
  set_iter : gset nat → list nat;
  set_iter_perm : ∀ s, set_iter s ≡ₚ elements s
}.

(** [numpy.pi] *)
Definition np_pi : float := 0x1.921fb54442d18p+1%float.

(** ** [struct.unpack] *)

Module Struct.

Inductive endian : Type := Little | Big.

(** The format characters the module uses: [i], [f] and [c]. *)
Inductive fmt : Type := Fi | Ff | Fc.

(** An unpacked value. *)
Inductive hval : Type :=
| HInt (z : Z)
| HFloat (x : float)
| HChar (b : byte).

Definition fmt_size (c : fmt) : nat :=
  match c with Fi | Ff => 4%nat | Fc => 1%nat end.

Definition calcsize (f : list fmt) : nat :=
  foldr (λ c n, (fmt_size c + n)%nat) 0%nat f.

(** [int.from_bytes(bs, byteorder='little')] *)
Definition from_bytes_little (bs : list byte) : Z :=
  foldr (λ b acc, Z.of_N (Byte.to_N b) + 256 * acc) 0 bs.

Definition word (e : endian) (bs : list byte) : Z :=
  from_bytes_little (match e with Little => bs | Big => rev bs end).

(** A 32-bit word read as a two's complement integer. *)
Definition int32 (w : Z) : Z :=
  if w <? 2 ^ 31 then w else w - 2 ^ 32.

(** A 32-bit word read as an IEEE 754 binary32 number; every binary32
    number is a binary64 number, so the conversion is exact. *)
Definition float32 (w : Z) : float :=
  let s := Z.testbit w 31 in
  let e := Z.land (Z.shiftr w 23) 255 in
  let m := Z.land w (2 ^ 23 - 1) in
  if e =? 255 then
    (if m =? 0 then (if s then neg_infinity else infinity) else nan)
  else if e =? 0 then
    (if m =? 0 then (if s then neg_zero else zero)
     else SF2Prim (S754_finite s (Z.to_pos m) (-149)))
  else SF2Prim (S754_finite s (Z.to_pos (m + 2 ^ 23)) (e - 150)).

Definition decode (e : endian) (c : fmt) (bs : list byte) : hval :=
  match c with
  | Fi => HInt (int32 (word e bs))
  | Ff => HFloat (float32 (word e bs))
  | Fc => HChar (match bs with b :: _ => b | [] => x00 end)
  end.

Fixpoint unpack_fields (e : endian) (f : list fmt) (bs : list byte)
  : list hval :=
  match f with
  | [] => []
  | c :: f' =>
      decode e c (take (fmt_size c) bs)
        :: unpack_fields e f' (drop (fmt_size c) bs)
  end.

(** [struct.unpack(fmt, bs)]: the buffer must have exactly the size the
    format calls for.  With [<] or [>] there is no padding. *)
Definition unpack (e : endian) (f : list fmt) (bs : list byte)
  : result (list hval) :=
  if decide (length bs = calcsize f) then Ok (unpack_fields e f bs)
  else Raise StructError.

(** [headerTuple[k]] where the code expects an int, a float.  The header
    format puts the right type in every slot the code reads; on a tuple
    of another making the model raises [ValueError]. *)
Definition get_int (t : list hval) (k : Z) : result Z :=
  v ← getitem t k;
  match v with HInt z => Ok z | _ => Raise ValueError end.

Definition get_float (t : list hval) (k : Z) : result float :=
  v ← getitem t k;
  match v with HFloat x => Ok x | _ => Raise ValueError end.

Definition get_char (t : list hval) (k : Z) : result byte :=
  v ← getitem t k;
  match v with HChar b => Ok b | _ => Raise ValueError end.

(** [headerTuple[k:k+3]] *)
Definition get_int3 (t : list hval) (k : Z) : result (vec3 Z) :=
  a ← get_int t k; b ← get_int t (k + 1); c ← get_int t (k + 2);
  Ok (V3 a b c).

Definition get_float3 (t : list hval) (k : Z) : result (vec3 float) :=
  a ← get_float t k; b ← get_float t (k + 1); c ← get_float t (k + 2);
  Ok (V3 a b c).

(** [headerTuple[k:k+n]], floats *)
Definition get_floats (t : list hval) (k : Z) (n : nat)
  : result (list float) :=
  mapM (λ j, get_float t (k + Z.of_nat j)) (seq 0 n).

Definition get_chars (t : list hval) (k : Z) (n : nat)
  : result (list byte) :=
  mapM (λ j, get_char t (k + Z.of_nat j)) (seq 0 n).

End Struct.
Import Struct.

(** ** [class DensityHeader] *)

Module DensityHeader.

(** The attributes of a header object.  [F] is the type of its floats:
    [float] everywhere but in the statement about exact arithmetic.
    [nintervaLZ] is the attribute [parse] creates when it repairs the Z
    interval count (the capital L is the source's); it is absent until
    then. *)
Record t (F : Type) : Type := Build {
  ncrs : vec3 Z;
  mode : Z;
  endian : Struct.endian;
  crsStart : vec3 Z;
  nintervalX : Z;
  nintervalY : Z;
  nintervalZ : Z;
  xlength : F;
  ylength : F;
  zlength : F;
  alpha : F;
  beta : F;
  gamma : F;
  col2xyz : Z;
  row2xyz : Z;
  sec2xyz : Z;
  densityMin : F;
  densityMax : F;
  densityMean : F;
  spaceGroup : Z;
  symmetryBytes : Z;
  skewFlag : Z;
  skewMat : list F;
  skewTrans : list F;
  futureUse : list F;
  originEM : vec3 F;
  mapChar : list byte;
  machineStamp : Z;
  rmsd : F;
  nLabel : Z;
  labels : list byte;
  mapSize : Z;
  xyzInterval : vec3 Z;
  xyzLength : vec3 F;
  gridLength : vec3 F;
  map2xyz : vec3 Z;
  map2crs : vec3 Z;
  unitVolume : F;
  origin : vec3 (pynum F);
  nintervaLZ : option Z
}.
#[global] Arguments Build {F}.
#[global] Arguments ncrs {F} _.
#[global] Arguments mode {F} _.
#[global] Arguments endian {F} _.
#[global] Arguments crsStart {F} _.
#[global] Arguments nintervalX {F} _.
#[global] Arguments nintervalY {F} _.
#[global] Arguments nintervalZ {F} _.
#[global] Arguments xlength {F} _.
#[global] Arguments ylength {F} _.
#[global] Arguments zlength {F} _.
#[global] Arguments alpha {F} _.
#[global] Arguments beta {F} _.
#[global] Arguments gamma {F} _.
#[global] Arguments col2xyz {F} _.
#[global] Arguments row2xyz {F} _.
#[global] Arguments sec2xyz {F} _.
#[global] Arguments densityMin {F} _.
#[global] Arguments densityMax {F} _.
#[global] Arguments densityMean {F} _.
#[global] Arguments spaceGroup {F} _.
#[global] Arguments symmetryBytes {F} _.
#[global] Arguments skewFlag {F} _.
#[global] Arguments skewMat {F} _.
#[global] Arguments skewTrans {F} _.
#[global] Arguments futureUse {F} _.
#[global] Arguments originEM {F} _.
#[global] Arguments mapChar {F} _.
#[global] Arguments machineStamp {F} _.
#[global] Arguments rmsd {F} _.
#[global] Arguments nLabel {F} _.
#[global] Arguments labels {F} _.
#[global] Arguments mapSize {F} _.
#[global] Arguments xyzInterval {F} _.
#[global] Arguments xyzLength {F} _.
#[global] Arguments gridLength {F} _.
#[global] Arguments map2xyz {F} _.
#[global] Arguments map2crs {F} _.
#[global] Arguments unitVolume {F} _.
#[global] Arguments origin {F} _.
#[global] Arguments nintervaLZ {F} _.

(** The header with the attributes that are assigned after the first
    pass of [__init__] replaced: [self.nintervalX = nx] and so on. *)
Definition assign {F} (h : t F) (nx ny : Z) (nLZ : option Z)
    (col row sec : Z) (o : vec3 (pynum F)) : t F :=
  {| ncrs := ncrs h; mode := mode h; endian := endian h;
     crsStart := crsStart h;
     nintervalX := nx; nintervalY := ny; nintervalZ := nintervalZ h;
     xlength := xlength h; ylength := ylength h; zlength := zlength h;
     alpha := alpha h; beta := beta h; gamma := gamma h;
     col2xyz := col; row2xyz := row; sec2xyz := sec;
     densityMin := densityMin h; densityMax := densityMax h;
     densityMean := densityMean h;
     spaceGroup := spaceGroup h; symmetryBytes := symmetryBytes h;
     skewFlag := skewFlag h;
     skewMat := skewMat h; skewTrans := skewTrans h;
     futureUse := futureUse h; originEM := originEM h;
     mapChar := mapChar h; machineStamp := machineStamp h;
     rmsd := rmsd h; nLabel := nLabel h; labels := labels h;
     mapSize := mapSize h; xyzInterval := xyzInterval h;
     xyzLength := xyzLength h; gridLength := gridLength h;
     map2xyz := map2xyz h; map2crs := map2crs h;
     unitVolume := unitVolume h; origin := o; nintervaLZ := nLZ |}.

Definition set_origin {F} (h : t F) (o : vec3 (pynum F)) : t F :=
  assign h (nintervalX h) (nintervalY h) (nintervaLZ h)
    (col2xyz h) (row2xyz h) (sec2xyz h) o.

Definition set_nintervalX {F} (h : t F) (n : Z) : t F :=
  assign h n (nintervalY h) (nintervaLZ h)
    (col2xyz h) (row2xyz h) (sec2xyz h) (origin h).

Definition set_nintervalY {F} (h : t F) (n : Z) : t F :=
  assign h (nintervalX h) n (nintervaLZ h)
    (col2xyz h) (row2xyz h) (sec2xyz h) (origin h).

Definition set_nintervaLZ {F} (h : t F) (n : Z) : t F :=
  assign h (nintervalX h) (nintervalY h) (Some n)
    (col2xyz h) (row2xyz h) (sec2xyz h) (origin h).

Definition set_2xyz {F} (h : t F) (col row sec : Z) : t F :=
  assign h (nintervalX h) (nintervalY h) (nintervaLZ h)
    col row sec (origin h).

(** *** The conversions between crs and xyz coordinates *)

Section Coordinates.
Context {F : Type} `{FloatArith F}.

(** [xyz2crsCoord(self, xyzCoord)] *)
Definition xyz2crsCoord (self : t F) (xyzCoord : vec3 (pynum F))
  : result (vec3 Z) :=
  crsGridPos ← v3_tabulate (λ i,
    x ← v3_getitem xyzCoord i;
    o ← v3_getitem (origin self) i;
    g ← v3_getitem (gridLength self) i;
    q ← py_truediv (py_sub x o) (PyFloat g);
    py_int q);
  a ← v3_getitem crsGridPos (v3_2 (map2crs self));
  b ← v3_getitem crsGridPos (v3_1 (map2crs self));
  c ← v3_getitem crsGridPos (v3_0 (map2crs self));
  Ok (V3 a b c).

(** [crs2xyzCoord(self, crsCoord)] *)
Definition crs2xyzCoord (self : t F) (crsCoord : vec3 (pynum F))
  : result (vec3 (pynum F)) :=
  let crsGridPos := V3 (v3_2 crsCoord) (v3_1 crsCoord) (v3_0 crsCoord) in
  v3_tabulate (λ i,
    m ← v3_getitem (map2xyz self) i;
    p ← v3_getitem crsGridPos m;
    n ← py_int p;
    g ← v3_getitem (gridLength self) i;
    o ← v3_getitem (origin self) i;
    Ok (py_add (py_mul (PyInt n) (PyFloat g)) o)).
End Coordinates.

(** *** Construction *)

(** [x / n] for a float [x] and an int [n]. *)
Definition float_div_int (x : float) (n : Z) : result float :=
  q ← py_truediv (PyFloat x) (PyInt n); Ok (to_float q).

(** [n / m] for two ints. *)
Definition int_div_int (n m : Z) : result float :=
  q ← py_truediv (F:=float) (PyInt n) (PyInt m); Ok (to_float q).

(** [numpy.pi / 180 * a] *)
Definition radians (a : float) : float := (np_pi / 180 * a)%float.

(** [1 - cos(alpha)**2 - cos(beta)**2 - cos(gamma)**2
     + 2*cos(alpha)*cos(beta)*cos(gamma)] under the square root; numpy
    squares a scalar by multiplying it with itself. *)
Definition cell_factor (rt : Runtime) (a b g : float) : float :=
  let ca := np_cos rt a in
  let cb := np_cos rt b in
  let cg := np_cos rt g in
  PrimFloat.sqrt (1 - ca * ca - cb * cb - cg * cg + 2 * ca * cb * cg)%float.

(** [_calculateOrigin(self)].  It reads every attribute but [origin],
    which [__init__] assigns from its result.  The second origin the
    method computes is only printed: it is left out, and so are the two
    [print] calls. *)
Definition _calculateOrigin (rt : Runtime) (self : t float)
  : result (vec3 (pynum float)) :=
  let a := radians (alpha self) in
  let b := radians (beta self) in
  let g := radians (gamma self) in
  let orthoMat :=
    V3 (V3 (xlength self)
           (ylength self * np_cos rt b)%float
           (zlength self * np_cos rt b)%float)
       (V3 0%float
           (ylength self * np_sin rt b)%float
           (zlength self * (np_cos rt a - np_cos rt b * np_cos rt g)
              / np_sin rt g)%float)
       (V3 0%float
           0%float
           (zlength self * cell_factor rt a b g / np_sin rt g)%float) in
  all_zero ←
    (f3 ← getitem (futureUse self) (-3);
     if negb (f3 =? 0)%float then Ok false else
     f2 ← getitem (futureUse self) (-2);
     if negb (f2 =? 0)%float then Ok false else
     f1 ← getitem (futureUse self) (-1);
     Ok (f1 =? 0)%float);
  if all_zero : bool then
    s0 ← v3_getitem (crsStart self) (v3_0 (map2xyz self));
    x ← int_div_int s0 (nintervalX self);
    s1 ← v3_getitem (crsStart self) (v3_1 (map2xyz self));
    y ← int_div_int s1 (nintervalY self);
    s2 ← v3_getitem (crsStart self) (v3_2 (map2xyz self));
    z ← int_div_int s2 (nintervalZ self);
    Ok (v3_map NpFloat (np_dot rt orthoMat (V3 x y z)))
  else
    Ok (v3_map PyFloat (originEM self)).

(** [indices = [0, 0, 0]; indices[self.col2xyz - 1] = 0;
    indices[self.row2xyz - 1] = 1; indices[self.sec2xyz - 1] = 2]: the
    list that becomes [map2xyz]. *)
Definition axis_indices (col2xyz row2xyz sec2xyz : Z) : result (vec3 Z) :=
  let indices := V3 0 0 0 in
  indices ← v3_setitem indices (col2xyz - 1) 0;
  indices ← v3_setitem indices (row2xyz - 1) 1;
  indices ← v3_setitem indices (sec2xyz - 1) 2;
  Ok indices.

(** [__init__(self, headerTuple, labels, endian)] *)
Definition __init__ (rt : Runtime) (headerTuple : list hval)
    (labels : list byte) (endian : Struct.endian) : result (t float) :=
  ncrs ← get_int3 headerTuple 0;
  mode ← get_int headerTuple 3;
  crsStart ← get_int3 headerTuple 4;
  nintervalX ← get_int headerTuple 7;
  nintervalY ← get_int headerTuple 8;
  nintervalZ ← get_int headerTuple 9;
  xlength ← get_float headerTuple 10;
  ylength ← get_float headerTuple 11;
  zlength ← get_float headerTuple 12;
  alpha ← get_float headerTuple 13;
  beta ← get_float headerTuple 14;
  gamma ← get_float headerTuple 15;
  col2xyz ← get_int headerTuple 16;
  row2xyz ← get_int headerTuple 17;
  sec2xyz ← get_int headerTuple 18;
  densityMin ← get_float headerTuple 19;
  densityMax ← get_float headerTuple 20;
  densityMean ← get_float headerTuple 21;
  spaceGroup ← get_int headerTuple 22;
  symmetryBytes ← get_int headerTuple 23;
  skewFlag ← get_int headerTuple 24;
  skewMat ← get_floats headerTuple 25 9;
  skewTrans ← get_floats headerTuple 34 3;
  futureUse ← get_floats headerTuple 37 12;
  originEM ← get_float3 headerTuple 49;
  mapChar ← get_chars headerTuple 52 4;
  machineStamp ← get_int headerTuple 56;
  rmsd ← get_float headerTuple 57;
  nLabel ← get_int headerTuple 58;
  let mapSize := v3_0 ncrs * v3_1 ncrs * v3_2 ncrs * 4 in
  let xyzInterval := V3 nintervalX nintervalY nintervalZ in
  let xyzLength := V3 xlength ylength zlength in
  gx ← float_div_int xlength nintervalX;
  gy ← float_div_int ylength nintervalY;
  gz ← float_div_int zlength nintervalZ;
  let gridLength := V3 gx gy gz in
  map2xyz ← axis_indices col2xyz row2xyz sec2xyz;
  let map2crs := V3 (col2xyz - 1) (row2xyz - 1) (sec2xyz - 1) in
  let a := radians alpha in
  let b := radians beta in
  let g := radians gamma in
  v ← float_div_int (xlength * ylength * zlength)%float nintervalX;
  v ← float_div_int v nintervalY;
  v ← float_div_int v nintervalZ;
  let unitVolume := (v * cell_factor rt a b g)%float in
  let self :=
    {| ncrs := ncrs; mode := mode; endian := endian;
       crsStart := crsStart;
       nintervalX := nintervalX; nintervalY := nintervalY;
       nintervalZ := nintervalZ;
       xlength := xlength; ylength := ylength; zlength := zlength;
       alpha := alpha; beta := beta; gamma := gamma;
       col2xyz := col2xyz; row2xyz := row2xyz; sec2xyz := sec2xyz;
       densityMin := densityMin; densityMax := densityMax;
       densityMean := densityMean;
       spaceGroup := spaceGroup; symmetryBytes := symmetryBytes;
       skewFlag := skewFlag;
       skewMat := skewMat; skewTrans := skewTrans;
       futureUse := futureUse; originEM := originEM;
       mapChar := mapChar; machineStamp := machineStamp;
       rmsd := rmsd; nLabel := nLabel; labels := labels;
       mapSize := mapSize; xyzInterval := xyzInterval;
       xyzLength := xyzLength; gridLength := gridLength;
       map2xyz := map2xyz; map2crs := map2crs;
       unitVolume := unitVolume;
       (* not assigned yet, and not read by [_calculateOrigin] *)
       origin := V3 (PyInt 0) (PyInt 0) (PyInt 0);
       nintervaLZ := None |} in
  o ← _calculateOrigin rt self;
  Ok (set_origin self o).

(** [10 * 'i' + 6 * 'f' + 3 * 'i' + 3 * 'f' + 3 * 'i' + 27 * 'f'
     + 4 * 'c' + 'ifi'] *)
Definition headerFormat : list fmt :=
  replicate 10 Fi ++ replicate 6 Ff ++ replicate 3 Fi ++ replicate 3 Ff
    ++ replicate 3 Fi ++ replicate 27 Ff ++ replicate 4 Fc ++ [Fi; Ff; Fi].

(** The test for endianness at the head of [fromFileHeader]. *)
Definition detect_endian (fileHeader : list byte) : Struct.endian :=
  let mode := from_bytes_little (slice fileHeader 12 16) in
  if (0 <=? mode) && (mode <=? 6) then Little else Big.

(** [labels.replace(b' ', b'')] of [fileHeader[224:]] *)
Definition header_labels (fileHeader : list byte) : list byte :=
  List.filter (λ b, negb (Byte.eqb b " "%byte)) (slice_from fileHeader 224).

(** [fromFileHeader(cls, fileHeader)] *)
Definition fromFileHeader (rt : Runtime) (fileHeader : list byte)
  : result (t float) :=
  let endian := detect_endian fileHeader in
  headerTuple ← unpack endian headerFormat (slice fileHeader 0 224);
  let labels := header_labels fileHeader in
  __init__ rt headerTuple labels endian.

End DensityHeader.

(** ** [class DensityMatrix] *)

Module DensityMatrix.

(** [self.density] is [numpy.array(density).reshape(ncrs[2], ncrs[1],
    ncrs[0])]: the same numbers as [densityArray], in row-major order,
    seen through [shape]. *)
Record t : Type := Build {
  header : DensityHeader.t float;
  origin : vec3 (pynum float);
  densityArray : list float;
  shape : vec3 Z
}.

(** The shape [reshape(d0, d1, d2)] gives an array of [size] elements:
    the dimensions must multiply to [size]; one of them may be [-1], and
    is then worked out from the others. *)
Definition np_reshape (size : Z) (d : vec3 Z) : result (vec3 Z) :=
  let '(V3 d0 d1 d2) := d in
  let infer (rest : Z) : option Z :=
    if (0 <? rest) && (size mod rest =? 0) then Some (size / rest)
    else None in
  let fixed := (0 <=? d0) && (0 <=? d1) && (0 <=? d2) in
  if fixed then
    (if d0 * d1 * d2 =? size then Ok d else Raise ValueError)
  else if (d0 =? -1) && (0 <=? d1) && (0 <=? d2) then
    match infer (d1 * d2) with
    | Some k => Ok (V3 k d1 d2) | None => Raise ValueError end
  else if (0 <=? d0) && (d1 =? -1) && (0 <=? d2) then
    match infer (d0 * d2) with
    | Some k => Ok (V3 d0 k d2) | None => Raise ValueError end
  else if (0 <=? d0) && (0 <=? d1) && (d2 =? -1) then
    match infer (d0 * d1) with
    | Some k => Ok (V3 d0 d1 k) | None => Raise ValueError end
  else Raise ValueError.

(** [__init__(self, header, origin, density)] *)
Definition __init__ (header : DensityHeader.t float)
    (origin : vec3 (pynum float)) (density : list float) : result t :=
  let ncrs := DensityHeader.ncrs header in
  shape ← np_reshape (Z.of_nat (length density))
             (V3 (v3_2 ncrs) (v3_1 ncrs) (v3_0 ncrs));
  Ok {| header := header; origin := origin;
        densityArray := density; shape := shape |}.

(** An index into an axis of [n] elements, numpy's way. *)
Definition np_index (n i : Z) : result Z :=
  if (0 <=? i) && (i <? n) then Ok i
  else if (- n <=? i) && (i <? 0) then Ok (i + n)
  else Raise IndexError.

(** [self.density[i0, i1, i2]] *)
Definition density_at (self : t) (i0 i1 i2 : Z) : result float :=
  let '(V3 s0 s1 s2) := shape self in
  j0 ← np_index s0 i0;
  j1 ← np_index s1 i1;
  j2 ← np_index s2 i2;
  match densityArray self !! Z.to_nat ((j0 * s1 + j1) * s2 + j2) with
  | Some x => Ok x
  | None => Raise IndexError
  end.

(** One turn of the loop of [validCRS], on the axis read by [get] and
    written by [set].  The result is whether the loop goes on ([False]
    is the method's [return False]), and the coordinate list as the
    turn leaves it.

    [n = np.floor(crsCoord[ind] / crsInterval)] followed by
    [crsCoord[ind] -= int(n * crsInterval)] is computed here on
    integers; the floats of the source give the same numbers as long as
    they stay below 2^53. *)
Definition validCRS_axis (self : t)
    (get : vec3 Z → Z) (set : vec3 Z → Z → vec3 Z)
    (crsCoord : vec3 Z) : result bool * vec3 Z :=
  let h := header self in
  match v3_getitem (DensityHeader.xyzInterval h)
                   (get (DensityHeader.map2crs h)) with
  | Raise e => (Raise e, crsCoord)
  | Ok crsInterval =>
      let outside :=
        (get crsCoord <? 0)
        || (get (DensityHeader.ncrs h) <? get crsCoord) in
      if outside && (crsInterval =? 0) then
        (Raise ZeroDivisionError, crsCoord)
      else
        let crsCoord :=
          if outside then
            let n := get crsCoord / crsInterval in
            set crsCoord (get crsCoord - n * crsInterval)
          else crsCoord in
        (Ok (negb ((get (DensityHeader.ncrs h) <? get crsCoord)
                   && (get crsCoord <? crsInterval))),
         crsCoord)
  end.

Definition set0 (v : vec3 Z) (x : Z) : vec3 Z := V3 x (v3_1 v) (v3_2 v).
Definition set1 (v : vec3 Z) (x : Z) : vec3 Z := V3 (v3_0 v) x (v3_2 v).
Definition set2 (v : vec3 Z) (x : Z) : vec3 Z := V3 (v3_0 v) (v3_1 v) x.

(** [validCRS(self, crsCoord)]: the answer, and [crsCoord] as the call
    leaves it. *)
Definition validCRS (self : t) (crsCoord : vec3 Z)
  : result bool * vec3 Z :=
  match validCRS_axis self v3_0 set0 crsCoord with
  | (Ok true, crsCoord) =>
      match validCRS_axis self v3_1 set1 crsCoord with
      | (Ok true, crsCoord) => validCRS_axis self v3_2 set2 crsCoord
      | r => r
      end
  | r => r
  end.

(** [getPointDensityFromCrs(self, crsCoord)]: the density, and
    [crsCoord] as the call leaves it. *)
Definition getPointDensityFromCrs (self : t) (crsCoord : vec3 Z)
  : result (pynum float) * vec3 Z :=
  match validCRS self crsCoord with
  | (Raise e, crsCoord) => (Raise e, crsCoord)
  | (Ok false, crsCoord) => (Ok (PyInt 0), crsCoord)
  | (Ok true, crsCoord) =>
      (NpFloat <$> density_at self
                     (v3_0 crsCoord) (v3_1 crsCoord) (v3_2 crsCoord),
       crsCoord)
  end.

(** [getPointDensityFromXyz(self, xyzCoord)] *)
Definition getPointDensityFromXyz (self : t) (xyzCoord : vec3 (pynum float))
  : result (pynum float) :=
  crsCoord ← DensityHeader.xyz2crsCoord (header self) xyzCoord;
  fst (getPointDensityFromCrs self crsCoord).

(** *** The sphere around a point *)

(** [cInd ** 2 / crsRadius[0] ** 2 + rInd ** 2 / crsRadius[1] ** 2
     + sInd ** 2 / crsRadius[2] ** 2 < 1] *)
Definition in_ellipsoid (crsRadius : vec3 Z) (cInd rInd sInd : Z)
  : result bool :=
  a ← py_truediv (F:=float) (PyInt (cInd ^ 2)) (PyInt (v3_0 crsRadius ^ 2));
  b ← py_truediv (F:=float) (PyInt (rInd ^ 2)) (PyInt (v3_1 crsRadius ^ 2));
  c ← py_truediv (F:=float) (PyInt (sInd ^ 2)) (PyInt (v3_2 crsRadius ^ 2));
  Ok (F64.lt (py_add (py_add a b) c) (PyInt 1)).

(** [0 < densityCutoff < self.getPointDensityFromCrs(crs)
     or self.getPointDensityFromCrs(crs) < densityCutoff < 0
     or densityCutoff == 0], with [crs] as the lookups leave it.  The
    first chain calls the lookup only when [0 < densityCutoff]; the
    second calls it before it compares. *)
Definition meets_cutoff (self : t) (densityCutoff : pynum float)
    (crs : vec3 Z) : result bool * vec3 Z :=
  let first :=
    if F64.lt (PyInt 0) densityCutoff then
      let '(d, crs) := getPointDensityFromCrs self crs in
      (F64.lt densityCutoff <$> d, crs)
    else (Ok false, crs) in
  match first with
  | (Ok false, crs) =>
      let '(d, crs) := getPointDensityFromCrs self crs in
      ((λ d, (F64.lt d densityCutoff && F64.lt densityCutoff (PyInt 0))
             || F64.eq densityCutoff (PyInt 0)) <$> d,
       crs)
  | r => r
  end.

(** The body of the innermost loop of [getSphereCrsFromXyz]. *)
Definition sphere_body (self : t) (crsCoord crsRadius : vec3 Z)
    (densityCutoff : pynum float) (cInd rInd sInd : Z)
    (crsCoordList : list (vec3 Z)) : result (list (vec3 Z)) :=
  inside ← in_ellipsoid crsRadius cInd rInd sInd;
  if inside : bool then
    let crs := V3 (v3_0 crsCoord + cInd) (v3_1 crsCoord + rInd)
                  (v3_2 crsCoord + sInd) in
    match meets_cutoff self densityCutoff crs with
    | (Raise e, _) => Raise e
    | (Ok true, crs) => Ok (crsCoordList ++ [crs])
    | (Ok false, _) => Ok crsCoordList
    end
  else Ok crsCoordList.

(** The three nested loops. *)
Definition sphere_loops (self : t) (crsCoord crsRadius : vec3 Z)
    (densityCutoff : pynum float) : result (list (vec3 Z)) :=
  let '(V3 r0 r1 r2) := crsRadius in
  for_each (range (- r0) (r0 + 1)) (λ cInd,
    for_each (range (- r1) (r1 + 1)) (λ rInd,
      for_each (range (- r2) (r2 + 1)) (λ sInd,
        sphere_body self crsCoord crsRadius densityCutoff cInd rInd sInd)))
    [].

(** [xyzRadius] and [crsRadius] *)
Definition sphere_radius (self : t) (radius : pynum float)
  : result (vec3 Z) :=
  let h := header self in
  xyzRadius ← v3_tabulate (λ i,
    g ← v3_getitem (DensityHeader.gridLength h) i;
    q ← py_truediv radius (PyFloat g);
    Ok (F64.ceil (to_float q)));
  x0 ← v3_getitem xyzRadius (v3_0 (DensityHeader.map2crs h));
  x1 ← v3_getitem xyzRadius (v3_1 (DensityHeader.map2crs h));
  x2 ← v3_getitem xyzRadius (v3_2 (DensityHeader.map2crs h));
  r0 ← F64.trunc x0;
  r1 ← F64.trunc x1;
  r2 ← F64.trunc x2;
  Ok (V3 r0 r1 r2).

(** [getSphereCrsFromXyz(self, xyzCoord, radius, densityCutoff=0)] *)
Definition getSphereCrsFromXyz (self : t) (xyzCoord : vec3 (pynum float))
    (radius densityCutoff : pynum float) : result (list (vec3 Z)) :=
  crsCoord ← DensityHeader.xyz2crsCoord (header self) xyzCoord;
  crsRadius ← sphere_radius self radius;
  sphere_loops self crsCoord crsRadius densityCutoff.

(** [getTotalDensityFromXyz(self, xyzCoord, radius, densityCutoff=0)] *)
Definition getTotalDensityFromXyz (self : t) (xyzCoord : vec3 (pynum float))
    (radius densityCutoff : pynum float) : result (pynum float) :=
  crsCoordList ← getSphereCrsFromXyz self xyzCoord radius densityCutoff;
  for_each crsCoordList (λ crs totalDensity,
    d ← fst (getPointDensityFromCrs self crs);
    Ok (py_add totalDensity d)) (PyInt 0).

(** *** Blobs *)

(** The test of the set comprehension in [findAberrantBlubs]:
    [-1 <= y[0] - x[0] <= 1 and -1 <= y[1] - x[1] <= 1
     and -1 <= y[2] - x[2] <= 1]. *)
Definition adjacent (y x : vec3 Z) : bool :=
  (-1 <=? v3_0 y - v3_0 x) && (v3_0 y - v3_0 x <=? 1)
  && (-1 <=? v3_1 y - v3_1 x) && (v3_1 y - v3_1 x <=? 1)
  && (-1 <=? v3_2 y - v3_2 x) && (v3_2 y - v3_2 x <=? 1).

(** The same test on two indices of [crsCoordList].  The sets of the
    method hold indices below [len(crsCoordList)] only. *)
Definition adjacent_at (crsCoordList : list (vec3 Z)) (y x : nat) : bool :=
  match crsCoordList !! y, crsCoordList !! x with
  | Some cy, Some cx => adjacent cy cx
  | _, _ => false
  end.

(** [{x for x in range(len(crsCoordList)) for y in diffSet if ...}] *)
Definition adjacentSet (crsCoordList : list (vec3 Z)) (diffSet : gset nat)
  : gset nat :=
  list_to_set
    (List.filter
       (λ x, existsb (λ y, adjacent_at crsCoordList y x) (elements diffSet))
       (seq 0 (length crsCoordList))).

(** [range(len(crsCoordList))] as a set: what bounds the [while] loop. *)
Definition indices (crsCoordList : list (vec3 Z)) : gset nat :=
  list_to_set (seq 0 (length crsCoordList)).

(** The [while True] loop, entered with [oldSet] and [newSet]; its
    result is [newSet] at the [break].  Every turn that does not break
    adds an index of [crsCoordList] to [newSet], so the loop ends. *)
Equations grow (crsCoordList : list (vec3 Z)) (oldSet newSet : gset nat)
  : gset nat by wf (size (indices crsCoordList ∖ newSet)) lt :=
  grow crsCoordList oldSet newSet with decide
      (newSet = newSet ∪ adjacentSet crsCoordList (newSet ∖ oldSet)) => {
    | left _ => newSet ∪ adjacentSet crsCoordList (newSet ∖ oldSet)
    | right Hne =>
        grow crsCoordList newSet
          (newSet ∪ adjacentSet crsCoordList (newSet ∖ oldSet))
  }.
Next Obligation.
  set (adj := adjacentSet crsCoordList (newSet ∖ oldSet)) in *.
  assert (adj ⊆ indices crsCoordList) as Hadj.
  { intros x. unfold adj, adjacentSet, indices.
    rewrite !elem_of_list_to_set, !list_elem_of_In, filter_In. tauto. }
  apply subset_size. split; [set_solver|].
  intros Hsub. apply Hne. apply set_eq. intros x.
  split; [set_solver|]. intros Hx.
  destruct (decide (x ∈ newSet)) as [|Hn]; [done|].
  assert (x ∈ indices crsCoordList ∖ newSet) as Hd by set_solver.
  apply Hsub in Hd. set_solver.
Qed.

(** One turn of [for ind in range(len(crsCoordList))], on the pair
    [(usedIndex, adjSetList)]. *)
Definition cluster_step (crsCoordList : list (vec3 Z))
    (st : gset nat * list (gset nat)) (ind : nat)
  : gset nat * list (gset nat) :=
  let '(usedIndex, adjSetList) := st in
  if decide (ind ∈ usedIndex) then st
  else
    let newSet := grow crsCoordList ∅ {[ind]} in
    (usedIndex ∪ newSet, adjSetList ++ [newSet]).

(** [adjSetList] at the end of the first loop of [findAberrantBlubs]. *)
Definition cluster (crsCoordList : list (vec3 Z)) : list (gset nat) :=
  snd (foldl (cluster_step crsCoordList) (∅, [])
         (seq 0 (length crsCoordList))).

(** An element of [blobs]: the dict with the keys [centroid],
    [total_density] and [volume]. *)
Record blob : Type := Blob {
  centroid : vec3 (pynum float);
  total_density : pynum float;
  volume : float
}.

(** One turn of [for point in ...]: on [(totalDensity, weights)].  The
    lookup may change [point] before the weights read it. *)
Definition accumulate (self : t) (point : vec3 Z)
    (st : pynum float * vec3 (pynum float))
  : result (pynum float * vec3 (pynum float)) :=
  let '(totalDensity, weights) := st in
  match getPointDensityFromCrs self point with
  | (Raise e, _) => Raise e
  | (Ok density, point) =>
      Ok (py_add totalDensity density,
          V3 (py_add (v3_0 weights) (py_mul density (PyInt (v3_0 point))))
             (py_add (v3_1 weights) (py_mul density (PyInt (v3_1 point))))
             (py_add (v3_2 weights) (py_mul density (PyInt (v3_2 point)))))
  end.

(** [[weight / totalDensity for weight in weights]] *)
Definition centroidGrid (weights : vec3 (pynum float))
    (totalDensity : pynum float) : result (vec3 (pynum float)) :=
  a ← py_truediv (v3_0 weights) totalDensity;
  b ← py_truediv (v3_1 weights) totalDensity;
  c ← py_truediv (v3_2 weights) totalDensity;
  Ok (V3 a b c).

(** [[crsCoordList[x] for x in adjacentSet]] *)
Definition points_of (rt : Runtime) (crsCoordList : list (vec3 Z))
    (adjacentSet : gset nat) : result (list (vec3 Z)) :=
  mapM (λ x, match crsCoordList !! x with
             | Some p => Ok p
             | None => Raise IndexError
             end) (set_iter rt adjacentSet).

(** The body of [for adjacentSet in adjSetList]: the blob appended. *)
Definition blob_of (rt : Runtime) (self : t)
    (crsCoordList : list (vec3 Z)) (adjacentSet : gset nat) : result blob :=
  points ← points_of rt crsCoordList adjacentSet;
  '(totalDensity, weights) ←
    for_each points (accumulate self)
      (PyInt 0, V3 (PyInt 0) (PyInt 0) (PyInt 0));
  g ← centroidGrid weights totalDensity;
  c ← DensityHeader.crs2xyzCoord (header self) g;
  Ok {| centroid := c;
        total_density := totalDensity;
        volume := (DensityHeader.unitVolume (header self)
                   * F64.of_Z (Z.of_nat (size adjacentSet)))%float |}.

(** [findAberrantBlubs(self, xyzCoord, radius, densityCutoff=0)] *)
Definition findAberrantBlubs (rt : Runtime) (self : t)
    (xyzCoord : vec3 (pynum float)) (radius densityCutoff : pynum float)
  : result (list blob) :=
  crsCoordList ← getSphereCrsFromXyz self xyzCoord radius densityCutoff;
  let adjSetList := cluster crsCoordList in
  mapM (blob_of rt self crsCoordList) adjSetList.

End DensityMatrix.

(** ** [parse] *)

(** [struct.unpack(endian + numBytes * 'f', mapData)] *)
Definition unpack_floats (e : Struct.endian) (n : nat) (bs : list byte)
  : result (list float) :=
  t ← unpack e (replicate n Ff) bs;
  mapM (λ v, match v with HFloat x => Ok x | _ => Raise ValueError end) t.

(** [parse(handle, verbose=False)], [handle] being the bytes still to be
    read.  In Python [&] and [|] bind tighter than the comparisons, and a
    chain [a == b > c] is [a == b and b > c]; the conditions are written
    out as Python reads them.  The statistics of the densities are only
    printed and are left out. *)
Definition parse (rt : Runtime) (handle : list byte)
  : result DensityMatrix.t :=
  header ← DensityHeader.fromFileHeader rt (take 1024 handle);
  let endian := DensityHeader.endian header in
  let dataBuffer := drop 1024 handle in
  let len := Z.of_nat (length dataBuffer) in
  let symmetryBytes := DensityHeader.symmetryBytes header in
  let mapSize := DensityHeader.mapSize header in
  _ ← (if negb (len =? symmetryBytes + mapSize) then
         _ ← py_assert ((symmetryBytes =? Z.lor 0 len)
                        && negb (Z.lor 0 len =? mapSize));
         _ ← py_assert ((mapSize =? Z.lor 0 len)
                        && negb (Z.lor 0 len =? symmetryBytes));
         _ ← py_assert (symmetryBytes + mapSize <? len);
         py_assert (len <? symmetryBytes + mapSize)
       else Ok tt);
  _ ← py_assert (negb (DensityHeader.xlength header =? 0)%float
                 || negb (DensityHeader.ylength header =? 0)%float
                 || negb (DensityHeader.zlength header =? 0)%float);
  let ncrs := DensityHeader.ncrs header in
  let header :=
    if (DensityHeader.nintervalX header =? Z.land 0 (v3_0 ncrs))
       && (0 <? Z.land 0 (v3_0 ncrs))
    then DensityHeader.set_nintervalX header (v3_0 ncrs - 1) else header in
  let header :=
    if (DensityHeader.nintervalY header =? Z.land 0 (v3_1 ncrs))
       && (0 <? Z.land 0 (v3_1 ncrs))
    then DensityHeader.set_nintervalY header (v3_1 ncrs - 1) else header in
  let header :=
    if (DensityHeader.nintervalZ header =? Z.land 0 (v3_2 ncrs))
       && (0 <? Z.land 0 (v3_2 ncrs))
    then DensityHeader.set_nintervaLZ header (v3_2 ncrs - 1) else header in
  let header :=
    if (DensityHeader.col2xyz header
          =? Z.land 0 (DensityHeader.row2xyz header))
       && (Z.land 0 (DensityHeader.row2xyz header)
             =? Z.land 0 (DensityHeader.sec2xyz header))
       && (Z.land 0 (DensityHeader.sec2xyz header) =? 0)
    then DensityHeader.set_2xyz header 1 2 3 else header in
  let mapData := slice dataBuffer symmetryBytes len in
  let numBytes := Z.of_nat (length mapData) / 4 in
  densities ← unpack_floats endian (Z.to_nat numBytes) mapData;
  let origin := DensityHeader.origin header in
  DensityMatrix.__init__ header origin densities.

(** ** [DensityAnalysis._calcSymmetryAtoms] *)

Module DensityAnalysis.

(** What the method reads of [densityObj.header].  The density object is
    one of the package's own [ccp4] module, whose header carries the
    orthogonalization matrix as an attribute; the method is stated over
    any header that offers these three. *)
Record header : Type := Header {
  ncrs : vec3 Z;
  crs2xyzCoord : vec3 Z → result (vec3 float);
  orthoMat : vec3 (vec3 float)
}.

(** An element of [pdbObj.header.rotationMats]: [rMat[:, 0:3]] and
    [rMat[:, 3]]. *)
Record rotationMat : Type := RotationMat {
  rot : vec3 (vec3 float);
  trans : vec3 float
}.

(** An atom of the result: the [symAtom] built for a symmetry copy, or,
    under the identity, the atom of [biopdbObj] itself with its new
    [symmetry] attribute.  [atom] is the position of the source atom in
    [biopdbObj.get_atoms()]. *)
Record symAtom : Type := SymAtom {
  atom : nat;
  coord : vec3 float;
  symmetry : list Z
}.

(** [sorted(l)] on floats: a stable sort by [<] (what Python computes
    when no element is a NaN). *)
Fixpoint insert_sorted (x : float) (l : list float) : list float :=
  match l with
  | [] => [x]
  | y :: l' => if (x <? y)%float then x :: l else y :: insert_sorted x l'
  end.

Definition sorted (l : list float) : list float :=
  foldl (λ acc x, insert_sorted x acc) [] l.

(** The circumscribed box of the grid: [(xs, ys, zs)]. *)
Definition densityBox (h : header)
  : result (list float * list float * list float) :=
  let n := ncrs h in
  orginalDensityBox ←
    mapM (crs2xyzCoord h)
      (c ← [0; v3_0 n - 1]; r ← [0; v3_1 n - 1]; s ← [0; v3_2 n - 1];
       [V3 c r s]);
  Ok (sorted (v3_0 <$> orginalDensityBox),
      sorted (v3_1 <$> orginalDensityBox),
      sorted (v3_2 <$> orginalDensityBox)).

(** [xs[0] - 5 <= x.coord[0] <= xs[-1] + 5 and ...], given the two ends
    of each of [xs], [ys] and [zs]. *)
Definition inRange (lo hi : vec3 float) (c : vec3 float) : bool :=
  (v3_0 lo - 5 <=? v3_0 c)%float && (v3_0 c <=? v3_0 hi + 5)%float
  && (v3_1 lo - 5 <=? v3_1 c)%float && (v3_1 c <=? v3_1 hi + 5)%float
  && (v3_2 lo - 5 <=? v3_2 c)%float && (v3_2 c <=? v3_2 hi + 5)%float.

Definition v3_add (a b : vec3 float) : vec3 float :=
  V3 (v3_0 a + v3_0 b)%float (v3_1 a + v3_1 b)%float (v3_2 a + v3_2 b)%float.

(** [np.dot(rMat[:, 0:3], x.coord) + rMat[:, 3] + otMat] *)
Definition transform (rt : Runtime) (rMat : rotationMat) (otMat : vec3 float)
    (x : vec3 float) : vec3 float :=
  v3_add (v3_add (np_dot rt (rot rMat) x) (trans rMat)) otMat.

(** The body of the four nested loops: the atoms it appends to
    [allAtoms]. *)
Definition cellAtoms (rt : Runtime) (h : header) (lo hi : vec3 float)
    (atoms : list (vec3 float)) (i j k : Z) (r : nat) (rMat : rotationMat)
  : list symAtom :=
  if (i =? 0) && (j =? 0) && (k =? 0) && (Z.of_nat r =? 0) then
    imap (λ a x, {| atom := a; coord := x;
                    symmetry := [i; j; k; Z.of_nat r] |}) atoms
  else
    let otMat := np_dot rt (orthoMat h) (v3_map F64.of_Z (V3 i j k)) in
    let moved :=
      imap (λ a x, {| atom := a; coord := transform rt rMat otMat x;
                      symmetry := [i; j; k; Z.of_nat r] |}) atoms in
    List.filter (λ x, inRange lo hi (coord x)) moved.

(** [xs[0]], [ys[0]], [zs[0]] and [xs[-1]], [ys[-1]], [zs[-1]]: the two
    corners of the box.  The method reads them in the test of each atom;
    the three lists hold the eight corners of the grid, so the reads
    never fail and are done here once. *)
Definition box_ends (h : header) : result (vec3 float * vec3 float) :=
  '(xs, ys, zs) ← densityBox h;
  x0 ← getitem xs 0; x1 ← getitem xs (-1);
  y0 ← getitem ys 0; y1 ← getitem ys (-1);
  z0 ← getitem zs 0; z1 ← getitem zs (-1);
  Ok (V3 x0 y0 z0, V3 x1 y1 z1).

(** The four nested loops: [allAtoms] when they end. *)
Definition allCells (rt : Runtime) (h : header) (lo hi : vec3 float)
    (rotationMats : list rotationMat) (atoms : list (vec3 float))
  : list symAtom :=
  i ← [-1; 0; 1]; j ← [-1; 0; 1]; k ← [-1; 0; 1];
  '(r, rMat) ← imap pair rotationMats;
  cellAtoms rt h lo hi atoms i j k r rMat.

(** [_calcSymmetryAtoms]: the list assigned to [self._symmetryAtoms],
    computed afresh. *)
Definition _calcSymmetryAtoms (rt : Runtime) (h : header)
    (rotationMats : list rotationMat) (atoms : list (vec3 float))
  : result (list symAtom) :=
  '(lo, hi) ← box_ends h;
  Ok (allCells rt h lo hi rotationMats atoms).

(** [self._symmetryOnlyAtoms] *)
Definition symmetryOnlyAtoms (allAtoms : list symAtom) : list symAtom :=
  List.filter (λ a, negb (bool_decide (symmetry a = [0; 0; 0; 0]))) allAtoms.

End DensityAnalysis.

(** ** Maps used in the examples *)

Module Examples.

Definition byte_of (z : Z) : byte :=
  default x00 (Byte.of_N (Z.to_N (z mod 256))).

(** A 32-bit word in little-endian order. *)
Definition le32 (w : Z) : list byte :=
  [byte_of w; byte_of (w / 2 ^ 8); byte_of (w / 2 ^ 16); byte_of (w / 2 ^ 24)].

(** binary32 words: 1.0, 10.0 and 90.0 *)
Definition f32_1 : Z := 0x3f800000.
Definition f32_10 : Z := 0x41200000.
Definition f32_90 : Z := 0x42b40000.

(** The 1024 bytes of a little-endian header (mode 2) with the given grid
    extents, interval counts, cell edges (binary32 words), axis triple
    and last reserved word; the angles are 90 degrees, the start indices
    and every other field are zero, the labels are blank. *)
Definition header_bytes (ncrs nint cell axes : vec3 Z) (reserved : Z)
  : list byte :=
  mjoin (le32 <$>
    (v3_list ncrs ++ [2] ++ [0; 0; 0] ++ v3_list nint
     ++ v3_list cell ++ [f32_90; f32_90; f32_90]
     ++ v3_list axes ++ replicate 29 0 ++ [reserved]
     ++ [0; 0; 0] ++ [0x2050414d] ++ [0; 0; 0]))
  ++ replicate 800 " "%byte.

(** The header object of a map with orthogonal axes in the order x, y, z
    and an explicit origin record [originEM] (the last reserved word is
    not zero): the attributes as [DensityHeader.__init__] computes them,
    but for [unitVolume], which takes numpy's cosine and that no method
    below reads before the blob aggregates. *)
Definition grid_header (ncrs nint : vec3 Z) (cell originEM : vec3 float)
  : DensityHeader.t float :=
  {| DensityHeader.ncrs := ncrs;
     DensityHeader.mode := 2;
     DensityHeader.endian := Little;
     DensityHeader.crsStart := V3 0 0 0;
     DensityHeader.nintervalX := v3_0 nint;
     DensityHeader.nintervalY := v3_1 nint;
     DensityHeader.nintervalZ := v3_2 nint;
     DensityHeader.xlength := v3_0 cell;
     DensityHeader.ylength := v3_1 cell;
     DensityHeader.zlength := v3_2 cell;
     DensityHeader.alpha := 90%float;
     DensityHeader.beta := 90%float;
     DensityHeader.gamma := 90%float;
     DensityHeader.col2xyz := 1;
     DensityHeader.row2xyz := 2;
     DensityHeader.sec2xyz := 3;
     DensityHeader.densityMin := 0%float;
     DensityHeader.densityMax := 0%float;
     DensityHeader.densityMean := 0%float;
     DensityHeader.spaceGroup := 0;
     DensityHeader.symmetryBytes := 0;
     DensityHeader.skewFlag := 0;
     DensityHeader.skewMat := replicate 9 0%float;
     DensityHeader.skewTrans := replicate 3 0%float;
     DensityHeader.futureUse := replicate 11 0%float ++ [1%float];
     DensityHeader.originEM := originEM;
     DensityHeader.mapChar := ["M"; "A"; "P"; " "]%byte;
     DensityHeader.machineStamp := 0;
     DensityHeader.rmsd := 0%float;
     DensityHeader.nLabel := 0;
     DensityHeader.labels := [];
     DensityHeader.mapSize := v3_0 ncrs * v3_1 ncrs * v3_2 ncrs * 4;
     DensityHeader.xyzInterval := nint;
     DensityHeader.xyzLength := cell;
     DensityHeader.gridLength :=
       V3 (v3_0 cell / F64.of_Z (v3_0 nint))%float
          (v3_1 cell / F64.of_Z (v3_1 nint))%float
          (v3_2 cell / F64.of_Z (v3_2 nint))%float;
     DensityHeader.map2xyz := V3 0 1 2;
     DensityHeader.map2crs := V3 0 1 2;
     DensityHeader.unitVolume := 1%float;
     DensityHeader.origin := v3_map PyFloat originEM;
     DensityHeader.nintervaLZ := None |}.

(** A density object over [grid_header]. *)
Definition grid (ncrs nint : vec3 Z) (cell originEM : vec3 float)
    (density : list float) : DensityMatrix.t :=
  let h := grid_header ncrs nint cell originEM in
  {| DensityMatrix.header := h;
     DensityMatrix.origin := DensityHeader.origin h;
     DensityMatrix.densityArray := density;
     DensityMatrix.shape := V3 (v3_2 ncrs) (v3_1 ncrs) (v3_0 ncrs) |}.

(** A 2 x 2 x 2 map, [n] intervals along each axis of a cell of edge
    [n], so that the grid spacing is 1, with the origin at 0. *)
Definition cube2 (n : Z) (density : list float) : DensityMatrix.t :=
  grid (V3 2 2 2) (V3 n n n) (v3_map F64.of_Z (V3 n n n)) (V3 0 0 0)%float
       density.

(** A header for the symmetry atoms: a grid of 2 x 2 x 2 points with
    unit spacing and origin 0, in a cubic cell of edge 10. *)
Definition unit_grid : DensityAnalysis.header :=
  {| DensityAnalysis.ncrs := V3 2 2 2;
     DensityAnalysis.crs2xyzCoord := λ c, Ok (v3_map F64.of_Z c);
     DensityAnalysis.orthoMat :=
       (V3 (V3 10 0 0) (V3 0 10 0) (V3 0 0 10))%float |}.

(** The identity operator. *)
Definition identityMat : DensityAnalysis.rotationMat :=
  {| DensityAnalysis.rot := (V3 (V3 1 0 0) (V3 0 1 0) (V3 0 0 1))%float;
     DensityAnalysis.trans := (V3 0 0 0)%float |}.

End Examples.

(** ** The vocabulary of the statements *)

(** The attributes the methods of the grid read. *)
Definition grid_attributes (h : DensityHeader.t float) :=
  (DensityHeader.ncrs h, DensityHeader.xyzInterval h,
   DensityHeader.gridLength h, DensityHeader.map2xyz h,
   DensityHeader.map2crs h, DensityHeader.origin h).

(** A map of 2 x 2 x 2 voxels whose header has no interval count along
    X: 1024 bytes of header and 32 bytes of densities. *)
Definition file_zero_interval : list byte :=
  Examples.header_bytes (V3 2 2 2) (V3 0 2 2)
    (V3 Examples.f32_1 Examples.f32_1 Examples.f32_1) (V3 1 2 3) 0
  ++ replicate 32 x00.

(** A map of one voxel whose axis triple is (0, 1, 2): only the first of
    the three raw values is zero. *)
Definition file_axes_012 : list byte :=
  Examples.header_bytes (V3 1 1 1) (V3 1 1 1)
    (V3 Examples.f32_1 Examples.f32_1 Examples.f32_1) (V3 0 1 2) 0
  ++ replicate 4 x00.

Definition axis_triple (h : DensityHeader.t float) : Z * Z * Z :=
  (DensityHeader.col2xyz h, DensityHeader.row2xyz h, DensityHeader.sec2xyz h).

(** What [validCRS] does to one component: outside [0, ncrs] it becomes
    its residue modulo the interval count. *)
Definition normalized (ncrs crsInterval x : Z) : Z :=
  if (x <? 0) || (ncrs <? x) then x mod crsInterval else x.

(** Whether the loop of [validCRS] returns [False] on a component. *)
Definition no_data (ncrs crsInterval x : Z) : bool :=
  (ncrs <? x) && (x <? crsInterval).

(** The header of a cubic cell of edge 10 divided into 15 intervals along
    each axis, read in exact arithmetic. *)
Definition exact_header : DensityHeader.t Exact.xreal :=
  let q (a b : Z) := Exact.Fin (Qmake a (Z.to_pos b)) in
  {| DensityHeader.ncrs := V3 16 16 16;
     DensityHeader.mode := 2;
     DensityHeader.endian := Little;
     DensityHeader.crsStart := V3 0 0 0;
     DensityHeader.nintervalX := 15;
     DensityHeader.nintervalY := 15;
     DensityHeader.nintervalZ := 15;
     DensityHeader.xlength := q 10 1;
     DensityHeader.ylength := q 10 1;
     DensityHeader.zlength := q 10 1;
     DensityHeader.alpha := q 90 1;
     DensityHeader.beta := q 90 1;
     DensityHeader.gamma := q 90 1;
     DensityHeader.col2xyz := 1;
     DensityHeader.row2xyz := 2;
     DensityHeader.sec2xyz := 3;
     DensityHeader.densityMin := q 0 1;
     DensityHeader.densityMax := q 0 1;
     DensityHeader.densityMean := q 0 1;
     DensityHeader.spaceGroup := 0;
     DensityHeader.symmetryBytes := 0;
     DensityHeader.skewFlag := 0;
     DensityHeader.skewMat := replicate 9 (q 0 1);
     DensityHeader.skewTrans := replicate 3 (q 0 1);
     DensityHeader.futureUse := replicate 11 (q 0 1) ++ [q 1 1];
     DensityHeader.originEM := V3 (q 0 1) (q 0 1) (q 0 1);
     DensityHeader.mapChar := ["M"; "A"; "P"; " "]%byte;
     DensityHeader.machineStamp := 0;
     DensityHeader.rmsd := q 0 1;
     DensityHeader.nLabel := 0;
     DensityHeader.labels := [];
     DensityHeader.mapSize := 16384;
     DensityHeader.xyzInterval := V3 15 15 15;
     DensityHeader.xyzLength := V3 (q 10 1) (q 10 1) (q 10 1);
     DensityHeader.gridLength := V3 (q 10 15) (q 10 15) (q 10 15);
     DensityHeader.map2xyz := V3 0 1 2;
     DensityHeader.map2crs := V3 0 1 2;
     DensityHeader.unitVolume := q 1000 3375;
     DensityHeader.origin :=
       V3 (PyFloat (q 0 1)) (PyFloat (q 0 1)) (PyFloat (q 0 1));
     DensityHeader.nintervaLZ := None |}.

(** Two indices of the coordinate list are neighbours when their
    coordinates differ by at most 1 on every axis; two indices are
    connected when a chain of neighbours leads from one to the other. *)
Definition neighbours (crsCoordList : list (vec3 Z)) (x y : nat) : Prop :=
  DensityMatrix.adjacent_at crsCoordList x y = true.

Definition connected (crsCoordList : list (vec3 Z)) : relation nat :=
  rtc (neighbours crsCoordList).

(** What the [while] loop keeps true, [seed] being the index it started
    from: everything in [newSet] is connected to the seed, and the
    neighbours of everything in [oldSet] are in [newSet]. *)
Definition grow_inv (l : list (vec3 Z)) (seed : nat) (oldSet newSet : gset nat)
  : Prop :=
  seed ∈ newSet
  ∧ oldSet ⊆ newSet
  ∧ (∀ x, x ∈ newSet → connected l seed x)
  ∧ (∀ x y, x ∈ oldSet → neighbours l x y → y ∈ newSet).

(** What the outer loop keeps true once it has gone through the indices
    below [k]: [usedIndex] is the union of the sets found so far, each of
    which is the connected component of some index; no two of them meet;
    and every index below [k] is used. *)
Definition cluster_inv (l : list (vec3 Z)) (k : nat)
    (st : gset nat * list (gset nat)) : Prop :=
  (∀ x, x ∈ st.1 ↔ ∃ S, S ∈ st.2 ∧ x ∈ S)
  ∧ (∀ S, S ∈ st.2 →
       ∃ seed, (seed < length l)%nat ∧ ∀ y, y ∈ S ↔ connected l seed y)
  ∧ (∀ i j S T, st.2 !! i = Some S → st.2 !! j = Some T → i ≠ j → S ## T)
  ∧ (∀ x, (x < k)%nat → x ∈ st.1).

(** A result of the sphere enumeration that is a list, or else the error
    of a density lookup at some coordinate. *)
Definition raised_by_lookup {A} (self : DensityMatrix.t) (r : result A)
  : Prop :=
  (∃ a, r = Ok a)
  ∨ ∃ crs e, (DensityMatrix.getPointDensityFromCrs self crs).1 = Raise e
             ∧ r = Raise e.

(** The running total and weights of a blob are ints while every density
    met is the int 0 of a coordinate without data, and numpy floats from
    the first density read in the array on. *)
Definition same_kind (st : pynum float * vec3 (pynum float)) : Prop :=
  (∃ t a b c, st = (PyInt t, V3 (PyInt a) (PyInt b) (PyInt c)))
  ∨ (∃ t a b c, st = (NpFloat t, V3 (NpFloat a) (NpFloat b) (NpFloat c))).

(** The state in which the loop over the points of a blob starts. *)
Definition blob_start : pynum float * vec3 (pynum float) :=
  (PyInt 0, V3 (PyInt 0) (PyInt 0) (PyInt 0)).

(** ** The vocabulary of the further properties *)

(** One turn of the loop of [validCRS] seen from the component it reads:
    the answer of the turn and the component as the turn leaves it, given
    the result of the lookup of the interval count, the extent [ncrs] of
    the axis and the component [x]. *)
Definition validCRS_component (interval : result Z) (ncrs x : Z)
  : result bool * Z :=
  match interval with
  | Raise e => (Raise e, x)
  | Ok crsInterval =>
      let outside := (x <? 0) || (ncrs <? x) in
      if outside && (crsInterval =? 0) then (Raise ZeroDivisionError, x)
      else
        let x' := if outside then x - x / crsInterval * crsInterval else x in
        (Ok (negb ((ncrs <? x') && (x' <? crsInterval))), x')
  end.

(** The interval count [validCRS] reads for the axis [ind] of a crs
    coordinate. *)
Definition crsInterval (self : DensityMatrix.t) (get : vec3 Z → Z)
  : result Z :=
  v3_getitem (DensityHeader.xyzInterval (DensityMatrix.header self))
             (get (DensityHeader.map2crs (DensityMatrix.header self))).

(** A component outside the range [0, ncrs] that [validCRS] leaves
    alone. *)
Definition outside (ncrs x : Z) : Prop := x < 0 ∨ ncrs < x.

(** Two runs of the sphere enumeration that end alike: with the same
    error, or with lists the first of which is a sublist of the second. *)
Definition sublist_or_same_error {A} (r r0 : result (list A)) : Prop :=
  match r, r0 with
  | Ok l, Ok l0 => sublist l l0
  | Raise e, Raise e0 => e = e0
  | _, _ => False
  end.

(** A coordinate list on which a lookup returns a density and that the
    lookup leaves as it is. *)
Definition settled (self : DensityMatrix.t) (crs : vec3 Z) : Prop :=
  ∃ d, DensityMatrix.getPointDensityFromCrs self crs = (Ok d, crs).

(** A value of the type a format character calls for: what
    [struct.unpack] puts in the slot of the character. *)
Definition typed (c : fmt) (v : hval) : Prop :=
  match c, v with
  | Fi, HInt _ | Ff, HFloat _ | Fc, HChar _ => True
  | _, _ => False
  end.

(** An index a list of three elements accepts. *)
Definition index3 (i : Z) : Prop := -3 ≤ i ≤ 2.

(** What holds of the attributes of every header object the constructor
    returns, and that the methods of the grid rely on: the interval
    counts are not zero, [xyzInterval] lists them, [map2crs] holds
    indices of a list of three elements, [map2xyz] holds 0, 1 or 2, and
    [mapSize] is four bytes for each point of the grid. *)
Definition constructed {F} (h : DensityHeader.t F) : Prop :=
  DensityHeader.xyzInterval h
  = V3 (DensityHeader.nintervalX h) (DensityHeader.nintervalY h)
       (DensityHeader.nintervalZ h)
  ∧ DensityHeader.nintervalX h ≠ 0
  ∧ DensityHeader.nintervalY h ≠ 0
  ∧ DensityHeader.nintervalZ h ≠ 0
  ∧ index3 (v3_0 (DensityHeader.map2crs h))
  ∧ index3 (v3_1 (DensityHeader.map2crs h))
  ∧ index3 (v3_2 (DensityHeader.map2crs h))
  ∧ 0 ≤ v3_0 (DensityHeader.map2xyz h) ≤ 2
  ∧ 0 ≤ v3_1 (DensityHeader.map2xyz h) ≤ 2
  ∧ 0 ≤ v3_2 (DensityHeader.map2xyz h) ≤ 2
  ∧ DensityHeader.mapSize h
    = v3_0 (DensityHeader.ncrs h) * v3_1 (DensityHeader.ncrs h)
      * v3_2 (DensityHeader.ncrs h) * 4.

(** A 32-bit word in big-endian order. *)
Definition be32 (w : Z) : list byte := rev (Examples.le32 w).

(** ** Tactics *)

(** From [x ← m; k = Ok y]: [m] returned, and the rest follows. *)
Ltac bind_inv H :=
  repeat lazymatch type of H with
  | mbind _ ?m = Ok _ =>
      let E := fresh "E" in
      destruct m eqn:E; cbn [mbind result_bind] in H; [|discriminate H]
  end.

(** A tuple typed by a format, as the list of its values. *)
Ltac tuple_skeleton Ht :=
  repeat lazymatch type of Ht with
  | Forall2 typed (_ :: _) _ =>
      let v := fresh "v" in
      let t := fresh "t" in
      let Hv := fresh "Hv" in
      apply Forall2_cons_inv_l in Ht as (v & t & Hv & Ht & ->);
      destruct v; try (exfalso; exact Hv); clear Hv
  | Forall2 typed [] _ => apply Forall2_nil_inv_l in Ht as ->
  end.

(** The reads of a tuple given as the list of its values. *)
Ltac read_tuple :=
  repeat match goal with
  | |- context [get_int3 ?t ?k] =>
      let v := eval vm_compute in (get_int3 t k) in
      change (get_int3 t k) with v
  | |- context [get_int ?t ?k] =>
      let v := eval vm_compute in (get_int t k) in
      change (get_int t k) with v
  | |- context [get_float3 ?t ?k] =>
      let v := eval vm_compute in (get_float3 t k) in
      change (get_float3 t k) with v
  | |- context [get_float ?t ?k] =>
      let v := eval vm_compute in (get_float t k) in
      change (get_float t k) with v
  | |- context [get_floats ?t ?k ?n] =>
      let v := eval vm_compute in (get_floats t k n) in
      change (get_floats t k n) with v
  | |- context [get_chars ?t ?k ?n] =>
      let v := eval vm_compute in (get_chars t k n) in
      change (get_chars t k n) with v
  end.

(** ** The grouping loops of [DensityAnalysis.aggregateCloud]

    The loops that group the clouds of a residue, and then those of the
    chains, by overlap.  [ccp4_utils.testOverlap] is not part of the
    sources: the loops are stated over any function that gives, for two
    positions of the pool, the number stored in the matrix.  What
    [merge] does to the clouds is not modelled; the embedding keeps the
    set of positions merged into each cloud of the result. *)

Module AggregateCloud.

(** [overlap = np.zeros((n, n))], then
    [overlap[i][j] = overlap[j][i] = testOverlap(pool[i], pool[j])] for
    [i < j]. *)
Definition overlapMatrix (n : nat) (testOverlap : nat → nat → float)
  : list (list float) :=
  (λ i, (λ j, if (i <? j)%nat then testOverlap i j
              else if (j <? i)%nat then testOverlap j i
              else 0%float) <$> seq 0 n) <$> seq 0 n.

(** [if o] on a float of the matrix: anything but a zero. *)
Definition truthy (o : float) : bool := negb (o =? 0)%float.

(** [{index for index, o in enumerate(row) if o}] *)
Definition row_set (row : list float) : gset nat :=
  list_to_set
    (List.filter
       (λ index, match row !! index with
                 | Some o => truthy o
                 | None => false
                 end)
       (seq 0 (length row))).

(** The same for the row [overlap[i]].  The sets of the loops hold
    positions of the pool only. *)
Definition row_of (overlap : list (list float)) (i : nat) : gset nat :=
  row_set (default [] (overlap !! i)).

(** [{index for oldIndex in newCluster
            for index, o in enumerate(overlap[oldIndex])
            if index not in currCluster and o}] *)
Definition frontier (overlap : list (list float))
    (newCluster currCluster : gset nat) : gset nat :=
  ⋃ (row_of overlap <$> elements newCluster) ∖ currCluster.

(** Every position a row names: what bounds the [while] loop. *)
Definition named (overlap : list (list float)) : gset nat :=
  ⋃ (row_set <$> overlap).

(** The [while len(newCluster)] loop, entered with [newCluster] and
    [currCluster]; its result is [currCluster] when it ends.  A turn
    either adds a position to [currCluster] or leaves [newCluster]
    empty, so the loop ends. *)
Equations expand (overlap : list (list float))
    (newCluster currCluster : gset nat) : gset nat
    by wf (2 * size (named overlap ∖ currCluster)
           + 1 `min` size newCluster)%nat lt :=
  expand overlap newCluster currCluster with decide
      (size newCluster = 0%nat) => {
    | left _ => currCluster
    | right Hne =>
        expand overlap (frontier overlap newCluster currCluster)
          (currCluster ∪ frontier overlap newCluster currCluster)
  }.
Next Obligation.
  set (new := frontier overlap newCluster currCluster).
  assert (Hsub : new ⊆ named overlap ∖ currCluster).
  { intros x. unfold new, frontier, named.
    rewrite !elem_of_difference, !elem_of_union_list.
    intros [(S & HS & Hx) Hn]. split; [|done].
    apply list_elem_of_fmap in HS as (i & -> & _). unfold row_of in Hx.
    destruct (overlap !! i) as [row|] eqn:Hrow; cbn in Hx; [|set_solver].
    exists (row_set row). split; [|done].
    apply list_elem_of_fmap. exists row. split; [done|].
    by eapply list_elem_of_lookup_2. }
  destruct (size newCluster) as [|m]; [done|].
  destruct (decide (size new = 0%nat)) as [Hz|Hnz].
  - rewrite Hz. apply size_empty_inv in Hz.
    assert (currCluster ∪ new = currCluster) as -> by set_solver. lia.
  - assert (named overlap ∖ (currCluster ∪ new)
            ⊂ named overlap ∖ currCluster) as Hlt.
    { split; [set_solver|]. intros Hback.
      apply Hnz, size_empty_iff, elem_of_equiv_empty. intros x Hx.
      specialize (Hsub x Hx). apply Hback in Hsub. set_solver. }
    apply subset_size in Hlt. destruct (size new); lia.
Qed.

(** One turn of [for startingIndex in range(len(pool))], on the pair of
    [usedIdx] and the list of the sets merged so far. *)
Definition cluster_step (overlap : list (list float))
    (st : gset nat * list (gset nat)) (startingIndex : nat)
  : gset nat * list (gset nat) :=
  let '(usedIdx, merged) := st in
  if decide (startingIndex ∈ usedIdx) then st
  else
    let newCluster := row_of overlap startingIndex in
    let currCluster := {[startingIndex]} ∪ newCluster in
    let currCluster := expand overlap newCluster currCluster in
    (usedIdx ∪ currCluster, merged ++ [currCluster]).

(** The sets of positions merged into the clouds of the result, in the
    order of the result. *)
Definition clusters (n : nat) (testOverlap : nat → nat → float)
  : list (gset nat) :=
  snd (foldl (cluster_step (overlapMatrix n testOverlap)) (∅, []) (seq 0 n)).

End AggregateCloud.

(** Two positions of the pool overlap when the matrix holds something
    other than zero for them, and are linked when a chain of overlaps
    leads from one to the other. *)
Definition overlapping (n : nat) (testOverlap : nat → nat → float)
    (i j : nat) : Prop :=
  (i < n)%nat ∧ (j < n)%nat ∧ i ≠ j
  ∧ AggregateCloud.truthy (testOverlap (i `min` j)%nat (i `max` j)%nat)
    = true.

Definition linked (n : nat) (testOverlap : nat → nat → float)
  : relation nat :=
  rtc (overlapping n testOverlap).

(** What the [while] loop of the grouping keeps true, [start] being the
    position it started from: everything in [currCluster] is linked to
    it, and the positions that overlap one of [currCluster] not in
    [newCluster] are in [currCluster]. *)
Definition expand_inv (n : nat) (testOverlap : nat → nat → float)
    (start : nat) (newCluster currCluster : gset nat) : Prop :=
  start ∈ currCluster
  ∧ (∀ x, x ∈ currCluster → linked n testOverlap start x)
  ∧ (∀ x y, x ∈ currCluster → x ∉ newCluster →
       overlapping n testOverlap x y → y ∈ currCluster).

(** What the outer loop of the grouping keeps true once it has gone
    through the positions below [k]. *)
Definition grouping_inv (n : nat) (testOverlap : nat → nat → float)
    (k : nat) (st : gset nat * list (gset nat)) : Prop :=
  (∀ x, x ∈ st.1 ↔ ∃ S, S ∈ st.2 ∧ x ∈ S)
  ∧ (∀ S, S ∈ st.2 →
       ∃ start, (start < n)%nat ∧ ∀ y, y ∈ S ↔ linked n testOverlap start y)
  ∧ (∀ i j S T, st.2 !! i = Some S → st.2 !! j = Some T → i ≠ j → S ## T)
  ∧ (∀ x, (x < k)%nat → x ∈ st.1).

(** * Properties *)

(** ** The examples are headers the constructor builds *)

Lemma grid_header_decoded (rt : Runtime) :
  grid_attributes
    <$> DensityHeader.fromFileHeader rt
          (Examples.header_bytes (V3 16 16 16) (V3 15 15 15)
             (V3 Examples.f32_10 Examples.f32_10 Examples.f32_10)
             (V3 1 2 3) Examples.f32_1)
  = Ok (grid_attributes
          (Examples.grid_header (V3 16 16 16) (V3 15 15 15)
             (V3 10 10 10)%float (V3 0 0 0)%float)).
Proof. vm_compute. reflexivity. Qed.

Lemma cube2_header_decoded (rt : Runtime) :
  grid_attributes
    <$> DensityHeader.fromFileHeader rt
          (Examples.header_bytes (V3 2 2 2) (V3 4 4 4)
             (V3 0x40800000 0x40800000 0x40800000)
             (V3 1 2 3) Examples.f32_1)
  = Ok (grid_attributes (DensityMatrix.header (Examples.cube2 4 [])))
  ∧ grid_attributes
      <$> DensityHeader.fromFileHeader rt
            (Examples.header_bytes (V3 2 2 2) (V3 5 5 5)
               (V3 0x40a00000 0x40a00000 0x40a00000)
               (V3 1 2 3) Examples.f32_1)
    = Ok (grid_attributes (DensityMatrix.header (Examples.cube2 5 [])))
  ∧ grid_attributes
      <$> DensityHeader.fromFileHeader rt
            (Examples.header_bytes (V3 2 2 2) (V3 4 4 1)
               (V3 0x40800000 0x40800000 0x40800000)
               (V3 1 2 3) Examples.f32_1)
    = Ok (grid_attributes
            (Examples.grid_header (V3 2 2 2) (V3 4 4 1)
               (V3 4 4 4)%float (V3 0 0 0)%float)).
Proof. repeat split; vm_compute; reflexivity. Qed.

(** ** Header decoding (C8) *)

Lemma calcsize_headerFormat :
  calcsize DensityHeader.headerFormat = 224%nat.
Proof. reflexivity. Qed.

(** C8, the counterexample: the first 224 bytes of a header are fewer
    than 1024 bytes, and [fromFileHeader] decodes them without an
    error. *)
Lemma fromFileHeader_accepts_224_bytes :
  let buf :=
    take 224 (Examples.header_bytes (V3 2 2 2) (V3 4 4 4)
                (V3 Examples.f32_1 Examples.f32_1 Examples.f32_1)
                (V3 1 2 3) Examples.f32_1) in
  (length buf < 1024)%nat
  ∧ ∀ rt, is_ok (DensityHeader.fromFileHeader rt buf) = true.
Proof.
  split.
  - vm_compute. lia.
  - intros rt. vm_compute. reflexivity.
Qed.

Lemma slice_0_224 {A} (l : list A) :
  slice l 0 224 = take (Z.to_nat (Z.min 224 (Z.of_nat (length l)))) l.
Proof.
  unfold slice. cbn -[Z.of_nat Z.min Z.max Z.to_nat].
  rewrite (Z.min_l 0) by lia. rewrite Z.sub_0_r. reflexivity.
Qed.

Lemma header_labels_drop (fileHeader : list byte) :
  (224 ≤ length fileHeader)%nat →
  DensityHeader.header_labels fileHeader
  = List.filter (λ b, negb (Byte.eqb b " "%byte)) (drop 224 fileHeader).
Proof.
  intros Hlen. unfold DensityHeader.header_labels, slice_from, slice.
  cbn -[Z.of_nat Z.min Z.max Z.to_nat].
  destruct (Z.ltb_spec (Z.of_nat (length fileHeader)) 0) as [Hneg|_]; [lia|].
  rewrite Z.min_id, (Z.min_l 224) by lia.
  rewrite take_ge; [reflexivity|]. rewrite length_drop. lia.
Qed.

Lemma unpack_fields_length (e : Struct.endian) (f : list fmt) (bs : list byte) :
  length (unpack_fields e f bs) = length f.
Proof.
  revert bs. induction f as [|c f IH]; intros bs; cbn; [reflexivity|].
  f_equal. apply IH.
Qed.

(** C8, as amended: header decoding fails, with the error of
    [struct.unpack], whenever fewer than 224 bytes are supplied, and no
    length is compared with 1024; from a buffer of at least 224 bytes the
    structured portion is unpacked into its 59 values, the labels are the
    remaining bytes without their spaces, and the result is that of the
    constructor on these. *)
Theorem fromFileHeader_length (rt : Runtime) (fileHeader : list byte) :
  ((length fileHeader < 224)%nat →
     DensityHeader.fromFileHeader rt fileHeader = Raise StructError)
  ∧ ((224 ≤ length fileHeader)%nat →
     ∃ headerTuple,
       unpack (DensityHeader.detect_endian fileHeader)
              DensityHeader.headerFormat (take 224 fileHeader)
         = Ok headerTuple
       ∧ length headerTuple = 59%nat
       ∧ DensityHeader.fromFileHeader rt fileHeader
         = DensityHeader.__init__ rt headerTuple
             (List.filter (λ b, negb (Byte.eqb b " "%byte))
                          (drop 224 fileHeader))
             (DensityHeader.detect_endian fileHeader)).
Proof.
  split; intros Hlen.
  - unfold DensityHeader.fromFileHeader, unpack.
    rewrite calcsize_headerFormat.
    destruct (decide _) as [Heq|_]; [|reflexivity].
    rewrite slice_0_224, length_take in Heq. lia.
  - exists (unpack_fields (DensityHeader.detect_endian fileHeader)
                          DensityHeader.headerFormat (take 224 fileHeader)).
    assert (Ht : slice fileHeader 0 224 = take 224 fileHeader).
    { rewrite slice_0_224. f_equal. lia. }
    assert (Hu : unpack (DensityHeader.detect_endian fileHeader)
                   DensityHeader.headerFormat (take 224 fileHeader)
                 = Ok (unpack_fields (DensityHeader.detect_endian fileHeader)
                         DensityHeader.headerFormat (take 224 fileHeader))).
    { unfold unpack. rewrite calcsize_headerFormat.
      destruct (decide _) as [_|Hne]; [reflexivity|].
      rewrite length_take in Hne. lia. }
    split; [exact Hu|]. split.
    + rewrite unpack_fields_length. reflexivity.
    + unfold DensityHeader.fromFileHeader.
      rewrite Ht, Hu, header_labels_drop by exact Hlen. reflexivity.
Qed.

(** ** The repairs of [parse] (C4, C5) *)

(** The test [header.nintervalX == 0 & header.ncrs[0] > 0] is, in Python,
    [header.nintervalX == (0 & header.ncrs[0]) and (0 & header.ncrs[0]) > 0]:
    it is false whatever the header holds, and so are the tests on Y and
    Z. *)
Lemma interval_test_never_holds (ninterval ncrs : Z) :
  (ninterval =? Z.land 0 ncrs) && (0 <? Z.land 0 ncrs) = false.
Proof. rewrite Z.land_0_l. apply andb_false_r. Qed.

(** The test [header.col2xyz == 0 & header.row2xyz == 0 & header.sec2xyz
    == 0] is [header.col2xyz == 0]. *)
Lemma axis_test_is_col2xyz (col row sec : Z) :
  (col =? Z.land 0 row) && (Z.land 0 row =? Z.land 0 sec)
  && (Z.land 0 sec =? 0)
  = (col =? 0).
Proof. rewrite !Z.land_0_l. cbn. rewrite !andb_true_r. reflexivity. Qed.

(** C4, on the code: a header whose interval count along X is zero, with
    a positive extent on that axis, is not repaired.  The constructor
    divides the cell edge by the interval count before [parse] looks at
    it, and the call ends in [ZeroDivisionError]; the test that guards
    the repair could not hold anyway. *)
Theorem parse_zero_interval_raises (rt : Runtime) :
  parse rt file_zero_interval = Raise ZeroDivisionError
  ∧ DensityHeader.fromFileHeader rt (take 1024 file_zero_interval)
    = Raise ZeroDivisionError
  ∧ ∀ ninterval ncrs : Z,
      (ninterval =? Z.land 0 ncrs) && (0 <? Z.land 0 ncrs) = false.
Proof.
  split; [|split].
  - vm_compute. reflexivity.
  - vm_compute. reflexivity.
  - apply interval_test_never_holds.
Qed.

(** C5, on the code: the header decoded from [file_axes_012] holds the
    triple (0, 1, 2), two of whose values are not zero, and [parse]
    replaces it with (1, 2, 3). *)
Theorem parse_replaces_axes_012 (rt : Runtime) :
  axis_triple <$> DensityHeader.fromFileHeader rt (take 1024 file_axes_012)
  = Ok (0, 1, 2)
  ∧ (axis_triple ∘ DensityMatrix.header) <$> parse rt file_axes_012
    = Ok (1, 2, 3).
Proof. split; vm_compute; reflexivity. Qed.

(** ** Density lookups (C1, C9) *)

(** C1, on the code: in the 2 x 2 x 2 map with 4 intervals along each
    axis, the coordinate [2, 0, 0] has a component equal to [ncrs] on its
    axis.  [validCRS] leaves it as it is and answers [True], and the
    lookup ends in [IndexError] where the claim has it return 0. *)
Theorem getPointDensityFromCrs_at_ncrs :
  let dm := Examples.cube2 4 [1; 2; 3; 4; 5; 6; 7; 8]%float in
  DensityMatrix.validCRS dm (V3 2 0 0) = (Ok true, V3 2 0 0)
  ∧ DensityMatrix.getPointDensityFromCrs dm (V3 2 0 0)
    = (Raise IndexError, V3 2 0 0).
Proof. split; vm_compute; reflexivity. Qed.

(** A coordinate strictly between [ncrs] and the interval count does get
    the answer 0. *)
Example getPointDensityFromCrs_beyond_ncrs :
  DensityMatrix.getPointDensityFromCrs
    (Examples.cube2 4 [1; 2; 3; 4; 5; 6; 7; 8]%float) (V3 (-1) 0 0)
  = (Ok (PyInt 0), V3 3 0 0).
Proof. vm_compute. reflexivity. Qed.

Lemma validCRS_axis_spec (self : DensityMatrix.t)
    (get : vec3 Z → Z) (set : vec3 Z → Z → vec3 Z)
    (crsCoord : vec3 Z) (crsInterval : Z) :
  (∀ v, set v (get v) = v) →
  v3_getitem (DensityHeader.xyzInterval (DensityMatrix.header self))
             (get (DensityHeader.map2crs (DensityMatrix.header self)))
  = Ok crsInterval →
  crsInterval ≠ 0 →
  let n := get (DensityHeader.ncrs (DensityMatrix.header self)) in
  let x := normalized n crsInterval (get crsCoord) in
  (∀ v y, get (set v y) = y) →
  DensityMatrix.validCRS_axis self get set crsCoord
  = (Ok (negb (no_data n crsInterval x)), set crsCoord x).
Proof.
  intros Hid Hi Hnz n x Hgs. unfold DensityMatrix.validCRS_axis.
  rewrite Hi. fold n. unfold x, normalized, no_data.
  destruct ((get crsCoord <? 0) || (n <? get crsCoord)) eqn:Hout; cbn.
  - destruct (Z.eqb_spec crsInterval 0) as [|_]; [done|].
    rewrite Hgs. rewrite Z.mod_eq by done.
    replace (crsInterval * (get crsCoord / crsInterval))
      with (get crsCoord / crsInterval * crsInterval) by lia.
    reflexivity.
  - rewrite Hid. reflexivity.
Qed.




(** ** The round trip between crs and xyz coordinates (C2) *)


Lemma Exact_trunc_integer (q : Q) (n : Z) :
  Qeq q (inject_Z n) → Exact.trunc (Exact.Fin q) = Ok n.
Proof.
  intros Hq. unfold Exact.trunc. f_equal.
  unfold Qeq, inject_Z in Hq. cbn in Hq.
  rewrite Z.mul_1_r in Hq. rewrite Hq.
  apply Z.quot_mul. discriminate.
Qed.

(** One axis of the round trip, in exact arithmetic:
    [int(((n * g + o) - o) / g)] is [n]. *)
Lemma axis_roundtrip_exact (n : Z) (g : Exact.xreal) (o : pynum Exact.xreal) :
  Exact.nonzero g → Exact.finite o →
  (q ← py_truediv
         (py_sub (py_add (py_mul (PyInt n) (PyFloat g)) o) o) (PyFloat g);
   py_int q)
  = Ok n.
Proof.
  destruct g as [g|]; [|done]. intros Hg Ho. cbn in Hg.
  assert (Hz : Qeq_bool g 0 = false).
  { destruct (Qeq_bool g 0) eqn:E; [|done]. by apply Qeq_bool_iff in E. }
  assert (He : ∀ p, Qeq ((inject_Z n * g + p - p) / g) (inject_Z n)).
  { intros p. field. exact Hg. }
  destruct o as [z|[p|]|[p|]]; try done;
    cbn -[Exact.trunc Qplus Qminus Qmult Qdiv inject_Z Qeq_bool];
    rewrite Hz; cbn -[Exact.trunc Qplus Qminus Qmult Qdiv inject_Z Qeq_bool];
    apply Exact_trunc_integer, He.
Qed.

Lemma axis_triple_cases (col row sec : Z) :
  [col; row; sec] ≡ₚ [1; 2; 3] →
  (col, row, sec)
    ∈ [(1, 2, 3); (1, 3, 2); (2, 1, 3); (2, 3, 1); (3, 1, 2); (3, 2, 1)].
Proof.
  intros Hperm.
  assert (H1 : In col [1; 2; 3])
    by (eapply Permutation_in; [exact Hperm | cbn; auto]).
  assert (H2 : In row [1; 2; 3])
    by (eapply Permutation_in; [exact Hperm | cbn; auto]).
  assert (H3 : In sec [1; 2; 3])
    by (eapply Permutation_in; [exact Hperm | cbn; auto]).
  assert (Hnd : List.NoDup [col; row; sec]).
  { eapply Permutation_NoDup; [symmetry; exact Hperm|].
    repeat constructor; cbn; lia. }
  inversion Hnd as [|? ? Hn1 Hnd']; subst.
  inversion Hnd' as [|? ? Hn2 _]; subst.
  cbn in H1, H2, H3, Hn1, Hn2. rewrite !elem_of_cons.
  destruct H1 as [<-|[<-|[<-|[]]]], H2 as [<-|[<-|[<-|[]]]],
           H3 as [<-|[<-|[<-|[]]]];
    try (exfalso; apply Hn1; auto; fail);
    try (exfalso; apply Hn2; auto; fail); auto 10.
Qed.



(** ** Blob clustering (C3) *)

Lemma adjacent_sym (a b : vec3 Z) :
  DensityMatrix.adjacent a b = DensityMatrix.adjacent b a.
Proof.
  unfold DensityMatrix.adjacent.
  apply eq_true_iff_eq. rewrite !andb_true_iff, !Z.leb_le. lia.
Qed.

Lemma neighbours_sym (l : list (vec3 Z)) (x y : nat) :
  neighbours l x y → neighbours l y x.
Proof.
  unfold neighbours, DensityMatrix.adjacent_at.
  destruct (l !! x), (l !! y); try done. by rewrite adjacent_sym.
Qed.

Lemma neighbours_lt (l : list (vec3 Z)) (x y : nat) :
  neighbours l x y → (x < length l)%nat ∧ (y < length l)%nat.
Proof.
  unfold neighbours, DensityMatrix.adjacent_at.
  destruct (l !! x) eqn:Hx, (l !! y) eqn:Hy; try done. intros _.
  split; eapply lookup_lt_Some; eassumption.
Qed.

Lemma connected_sym (l : list (vec3 Z)) (x y : nat) :
  connected l x y → connected l y x.
Proof.
  induction 1 as [|x y z Hxy _ IH]; [apply rtc_refl|].
  eapply rtc_r; [exact IH|]. by apply neighbours_sym.
Qed.

Lemma connected_lt (l : list (vec3 Z)) (x y : nat) :
  connected l x y → (x < length l)%nat → (y < length l)%nat.
Proof.
  induction 1 as [|x y z Hxy _ IH]; [done|]. intros _.
  apply IH. by apply neighbours_lt in Hxy as [_ ?].
Qed.

Lemma elem_of_adjacentSet (l : list (vec3 Z)) (D : gset nat) (x : nat) :
  x ∈ DensityMatrix.adjacentSet l D ↔ ∃ y, y ∈ D ∧ neighbours l y x.
Proof.
  unfold DensityMatrix.adjacentSet.
  rewrite elem_of_list_to_set, list_elem_of_In, filter_In, existsb_exists.
  split.
  - intros [_ (y & Hy & Hadj)]. exists y. split; [|exact Hadj].
    by apply elem_of_elements, list_elem_of_In.
  - intros (y & Hy & Hadj). split.
    + apply in_seq. apply neighbours_lt in Hadj. lia.
    + exists y. split; [|exact Hadj].
      by apply list_elem_of_In, elem_of_elements.
Qed.

Lemma grow_inv_step (l : list (vec3 Z)) (seed : nat) (oldSet newSet : gset nat) :
  grow_inv l seed oldSet newSet →
  grow_inv l seed newSet
    (newSet ∪ DensityMatrix.adjacentSet l (newSet ∖ oldSet)).
Proof.
  intros (Hseed & Hsub & Hconn & Hclosed). repeat split.
  - set_solver.
  - set_solver.
  - intros x [Hx|Hx]%elem_of_union; [by apply Hconn|].
    apply elem_of_adjacentSet in Hx as (y & Hy & Hadj).
    apply (rtc_r seed y x); [apply Hconn; set_solver | exact Hadj].
  - intros x y Hx Hadj. destruct (decide (x ∈ oldSet)) as [Hold|Hnew].
    + apply elem_of_union_l. by eapply Hclosed.
    + apply elem_of_union_r, elem_of_adjacentSet. exists x. set_solver.
Qed.

(** The loop ends with the connected component of the seed. *)
Lemma grow_component (l : list (vec3 Z)) (seed : nat) (oldSet newSet : gset nat) :
  grow_inv l seed oldSet newSet →
  ∀ y, y ∈ DensityMatrix.grow l oldSet newSet ↔ connected l seed y.
Proof.
  funelim (DensityMatrix.grow l oldSet newSet); intros Hinv y.
  - pose proof (grow_inv_step _ _ _ _ Hinv) as (Hseed & _ & Hconn & Hclosed).
    rewrite <- e in *. split; [apply Hconn|].
    revert y. apply rtc_ind_r; [exact Hseed|].
    intros y z _ Hyz Hy. by apply (Hclosed y z).
  - apply H. by apply grow_inv_step.
Qed.

Lemma grow_seed_component (l : list (vec3 Z)) (seed : nat) :
  ∀ y, y ∈ DensityMatrix.grow l ∅ {[seed]} ↔ connected l seed y.
Proof.
  apply grow_component. repeat split.
  - set_solver.
  - set_solver.
  - intros x ->%elem_of_singleton. apply rtc_refl.
  - set_solver.
Qed.

Lemma cluster_inv_step (l : list (vec3 Z)) (k : nat)
    (st : gset nat * list (gset nat)) :
  (k < length l)%nat →
  cluster_inv l k st →
  cluster_inv l (S k) (DensityMatrix.cluster_step l st k).
Proof.
  destruct st as [used acc]. intros Hk (Hused & Hcomp & Hdisj & Hbelow).
  cbn [fst snd] in *. unfold DensityMatrix.cluster_step.
  destruct (decide (k ∈ used)) as [Hin|Hout].
  - repeat split; cbn [fst snd]; try done; try apply Hused.
    intros x Hx. destruct (decide (x = k)) as [->|]; [done|].
    apply Hbelow. lia.
  - pose proof (grow_seed_component l k) as Hnew.
    set (newSet := DensityMatrix.grow l ∅ {[k]}) in *.
    assert (Hfresh : ∀ S, S ∈ acc → S ## newSet).
    { intros S HS x HxS Hxn.
      destruct (Hcomp S HS) as (seed & _ & Hseed).
      apply Hout, Hused. exists S. split; [done|].
      apply Hseed. unfold connected. transitivity x; [by apply Hseed|].
      by apply connected_sym, Hnew. }
    repeat split; cbn [fst snd].
    + intros [Hx|Hx]%elem_of_union.
      * apply Hused in Hx as (S & HS & HxS). exists S. set_solver.
      * exists newSet. set_solver.
    + intros (S & [HS| ->%list_elem_of_singleton]%elem_of_app & HxS).
      * apply elem_of_union_l, Hused. by exists S.
      * by apply elem_of_union_r.
    + intros S [HS| ->%list_elem_of_singleton]%elem_of_app.
      * by apply Hcomp.
      * by exists k.
    + intros i j S T Hi Hj Hij.
      apply lookup_snoc_Some in Hi as [[Hi1 Hi2]|[Hi1 <-]],
            Hj as [[Hj1 Hj2]|[Hj1 <-]].
      * by eapply Hdisj.
      * apply Hfresh. by eapply list_elem_of_lookup_2.
      * symmetry. apply Hfresh. by eapply list_elem_of_lookup_2.
      * lia.
    + intros x Hx. destruct (decide (x = k)) as [->|].
      * apply elem_of_union_r, Hnew, rtc_refl.
      * apply elem_of_union_l, Hbelow. lia.
Qed.

Lemma cluster_inv_loop (l : list (vec3 Z)) (k : nat) :
  (k ≤ length l)%nat →
  cluster_inv l k (foldl (DensityMatrix.cluster_step l) (∅, []) (seq 0 k)).
Proof.
  induction k as [|k IH]; intros Hk.
  - cbn. repeat split; cbn; try set_solver; lia.
  - rewrite seq_S, foldl_app. cbn [foldl Nat.add].
    apply cluster_inv_step; [lia|]. apply IH. lia.
Qed.


Lemma mapM_Ok_length {A B} (f : A → result B) (l : list A) (k : list B) :
  mapM f l = Ok k → length k = length l.
Proof.
  revert k. induction l as [|x l IH]; intros k; cbn.
  - by intros [= <-].
  - destruct (f x); cbn; [|done].
    destruct (mapM f l) as [k'|]; cbn; [|done].
    intros [= <-]. cbn. f_equal. by apply IH.
Qed.

(** When [findAberrantBlubs] returns, it returns one blob for each set of
    the clustering. *)
Lemma findAberrantBlubs_one_blob_per_component (rt : Runtime)
    (self : DensityMatrix.t) (xyzCoord : vec3 (pynum float))
    (radius densityCutoff : pynum float) (blobs : list DensityMatrix.blob) :
  DensityMatrix.findAberrantBlubs rt self xyzCoord radius densityCutoff
    = Ok blobs →
  ∃ crsCoordList,
    DensityMatrix.getSphereCrsFromXyz self xyzCoord radius densityCutoff
      = Ok crsCoordList
    ∧ length blobs = length (DensityMatrix.cluster crsCoordList).
Proof.
  unfold DensityMatrix.findAberrantBlubs.
  destruct (DensityMatrix.getSphereCrsFromXyz _ _ _ _) as [l|]; [|done].
  cbn [mbind result_bind]. intros H%mapM_Ok_length. eauto.
Qed.

(** Coordinates 2 apart on one axis make two blobs; coordinates 1 apart
    on one, two or three axes make one. *)
Example cluster_apart :
  elements <$> DensityMatrix.cluster [V3 0 0 0; V3 2 0 0] = [[0%nat]; [1%nat]].
Proof. vm_compute. reflexivity. Qed.

Example cluster_touching :
  length (DensityMatrix.cluster [V3 0 0 0; V3 1 0 0; V3 2 1 0; V3 3 2 1])
  = 1%nat.
Proof. vm_compute. reflexivity. Qed.

(** ** Symmetry atoms (C7) *)


Lemma cellAtoms_symmetry (rt : Runtime) (h : DensityAnalysis.header)
    (lo hi : vec3 float) (atoms : list (vec3 float)) (i j k : Z) (r : nat)
    (rMat : DensityAnalysis.rotationMat) (a : DensityAnalysis.symAtom) :
  a ∈ DensityAnalysis.cellAtoms rt h lo hi atoms i j k r rMat →
  DensityAnalysis.symmetry a = [i; j; k; Z.of_nat r]
  ∧ (DensityAnalysis.symmetry a ≠ [0; 0; 0; 0] →
     DensityAnalysis.inRange lo hi (DensityAnalysis.coord a) = true).
Proof.
  unfold DensityAnalysis.cellAtoms.
  destruct ((i =? 0) && (j =? 0) && (k =? 0) && (Z.of_nat r =? 0)) eqn:Hid.
  - intros (n & x & -> & _)%elem_of_lookup_imap. cbn. split; [done|].
    rewrite !andb_true_iff, !Z.eqb_eq in Hid.
    destruct Hid as [[[-> ->] ->] ->]. done.
  - intros [(n & x & -> & _)%list_elem_of_In%elem_of_lookup_imap Hin]%list_elem_of_In%filter_In.
    cbn in *. done.
Qed.



(** ** The sphere enumeration (C10) *)

Lemma range_nil (lo hi : Z) : hi ≤ lo → range lo hi = [].
Proof. intros H. unfold range. by replace (Z.to_nat (hi - lo)) with 0%nat by lia. Qed.

Lemma range_cons (lo hi : Z) :
  lo < hi → ∃ rest, range lo hi = lo :: rest.
Proof.
  intros H. unfold range.
  destruct (Z.to_nat (hi - lo)) as [|n] eqn:E; [lia|].
  cbn. rewrite Z.add_0_r. eauto.
Qed.

Lemma for_each_unchanged {A S} (l : list A) (body : A → S → result S) (s : S) :
  (∀ x s', body x s' = Ok s') → for_each l body s = Ok s.
Proof.
  intros Hb. induction l as [|x l IH]; [reflexivity|].
  cbn. rewrite Hb. exact IH.
Qed.

(** With a zero among the cell radii the test of the ellipsoid divides by
    zero, wherever it is evaluated. *)
Lemma in_ellipsoid_zero (crsRadius : vec3 Z) (cInd rInd sInd : Z) :
  v3_0 crsRadius = 0 ∨ v3_1 crsRadius = 0 ∨ v3_2 crsRadius = 0 →
  DensityMatrix.in_ellipsoid crsRadius cInd rInd sInd
  = Raise ZeroDivisionError.
Proof.
  destruct crsRadius as [r0 r1 r2]. cbn [v3_0 v3_1 v3_2].
  unfold DensityMatrix.in_ellipsoid, py_truediv. cbn [v3_0 v3_1 v3_2 is_np orb py_is_zero].
  intros H.
  destruct (Z.eqb_spec (r0 ^ 2) 0) as [|H0]; [reflexivity|].
  cbn [mbind result_bind].
  destruct (Z.eqb_spec (r1 ^ 2) 0) as [|H1]; [reflexivity|].
  cbn [mbind result_bind].
  destruct (Z.eqb_spec (r2 ^ 2) 0) as [|H2]; [reflexivity|].
  exfalso. destruct H as [-> | [-> | ->]]; [apply H0|apply H1|apply H2]; reflexivity.
Qed.

(** With no zero among them it does not raise. *)
Lemma in_ellipsoid_ok (crsRadius : vec3 Z) (cInd rInd sInd : Z) :
  v3_0 crsRadius ≠ 0 → v3_1 crsRadius ≠ 0 → v3_2 crsRadius ≠ 0 →
  ∃ b, DensityMatrix.in_ellipsoid crsRadius cInd rInd sInd = Ok b.
Proof.
  destruct crsRadius as [r0 r1 r2]. cbn [v3_0 v3_1 v3_2]. intros H0 H1 H2.
  unfold DensityMatrix.in_ellipsoid, py_truediv. cbn [v3_0 v3_1 v3_2 is_np orb py_is_zero].
  destruct (Z.eqb_spec (r0 ^ 2) 0) as [E|_]; [nia|].
  destruct (Z.eqb_spec (r1 ^ 2) 0) as [E|_]; [nia|].
  destruct (Z.eqb_spec (r2 ^ 2) 0) as [E|_]; [nia|].
  cbn [mbind result_bind]. eauto.
Qed.

Lemma for_each_from_lookup {A} (self : DensityMatrix.t) (l : list A)
    (body : A → list (vec3 Z) → result (list (vec3 Z))) (s : list (vec3 Z)) :
  (∀ x s', raised_by_lookup self (body x s')) →
  raised_by_lookup self (for_each l body s).
Proof.
  intros Hb. revert s. induction l as [|x l IH]; intros s; [by left; eauto|].
  cbn. destruct (Hb x s) as [[s' Hs]|(crs & e & Hl & Hs)]; rewrite Hs.
  - apply IH.
  - right. eauto.
Qed.

Lemma meets_cutoff_from_lookup (self : DensityMatrix.t)
    (densityCutoff : pynum float) (crs : vec3 Z) :
  (∃ b, (DensityMatrix.meets_cutoff self densityCutoff crs).1 = Ok b)
  ∨ ∃ crs' e,
      (DensityMatrix.getPointDensityFromCrs self crs').1 = Raise e
      ∧ (DensityMatrix.meets_cutoff self densityCutoff crs).1 = Raise e.
Proof.
  unfold DensityMatrix.meets_cutoff.
  destruct (F64.lt (PyInt 0) densityCutoff).
  - destruct (DensityMatrix.getPointDensityFromCrs self crs) as [[d|e] c1] eqn:E1.
    + cbn. destruct (F64.lt densityCutoff d); [left; eauto|].
      destruct (DensityMatrix.getPointDensityFromCrs self c1) as [[d2|e] c2] eqn:E2.
      * left. cbn. eauto.
      * right. exists c1, e. by rewrite E2.
    + right. exists crs, e. by rewrite E1.
  - destruct (DensityMatrix.getPointDensityFromCrs self crs) as [[d|e] c1] eqn:E1.
    + left. cbn. eauto.
    + right. exists crs, e. by rewrite E1.
Qed.

(** C10, the counterexample.  In a 2 x 2 x 2 map with spacings 1, 1 and
    4, the radius -2 has the cell radii -2, -2 and 0: one of them is zero
    and the call returns the empty list, without an error.  In the map
    with spacing 1, the radius 1 has the cell radius 1 on every axis, and
    around the point (0, 0, 2) the call ends in the [IndexError] of the
    density lookup at [2, 0, 0]. *)
Lemma getSphereCrsFromXyz_no_error_and_error :
  let dm := Examples.grid (V3 2 2 2) (V3 4 4 1) (V3 4 4 4)%float
              (V3 0 0 0)%float [1; 2; 3; 4; 5; 6; 7; 8]%float in
  let origin := (V3 (PyFloat 0) (PyFloat 0) (PyFloat 0))%float in
  DensityMatrix.sphere_radius dm (PyFloat (-2)%float) = Ok (V3 (-2) (-2) 0)
  ∧ DensityMatrix.getSphereCrsFromXyz dm origin (PyFloat (-2)%float) (PyInt 0)
    = Ok []
  ∧ DensityMatrix.sphere_radius
      (Examples.cube2 4 [1; 2; 3; 4; 5; 6; 7; 8]%float) (PyInt 1)
    = Ok (V3 1 1 1)
  ∧ DensityMatrix.getSphereCrsFromXyz
      (Examples.cube2 4 [1; 2; 3; 4; 5; 6; 7; 8]%float)
      (V3 (PyFloat 0) (PyFloat 0) (PyFloat 2))%float (PyInt 1) (PyInt 0)
    = Raise IndexError.
Proof. repeat split; vm_compute; reflexivity. Qed.

(** C10, as amended: the test of the ellipsoid divides by the squared
    cell radii without a guard.  When no cell radius is negative and one
    of them is zero (the radius 0, for one), the call raises
    [ZeroDivisionError]; when a cell radius is negative the loops are
    empty and the call returns the empty list; when every cell radius is
    at least 1 the test never divides by zero, the loops end, and the
    call returns a list of coordinates unless a density lookup raises,
    whose error it then passes on. *)
Theorem getSphereCrsFromXyz_radius (self : DensityMatrix.t)
    (xyzCoord : vec3 (pynum float)) (radius densityCutoff : pynum float)
    (crsCoord crsRadius : vec3 Z) :
  DensityHeader.xyz2crsCoord (DensityMatrix.header self) xyzCoord
    = Ok crsCoord →
  DensityMatrix.sphere_radius self radius = Ok crsRadius →
  let r0 := v3_0 crsRadius in
  let r1 := v3_1 crsRadius in
  let r2 := v3_2 crsRadius in
  let call :=
    DensityMatrix.getSphereCrsFromXyz self xyzCoord radius densityCutoff in
  (0 ≤ r0 ∧ 0 ≤ r1 ∧ 0 ≤ r2 → r0 = 0 ∨ r1 = 0 ∨ r2 = 0 →
     call = Raise ZeroDivisionError)
  ∧ (r0 < 0 ∨ r1 < 0 ∨ r2 < 0 → call = Ok [])
  ∧ (1 ≤ r0 ∧ 1 ≤ r1 ∧ 1 ≤ r2 →
       (∀ cInd rInd sInd,
          is_ok (DensityMatrix.in_ellipsoid crsRadius cInd rInd sInd) = true)
       ∧ raised_by_lookup self call).
Proof.
  intros Hcrs Hrad r0 r1 r2 call.
  assert (Hcall : call = DensityMatrix.sphere_loops self crsCoord crsRadius
                           densityCutoff).
  { unfold call, DensityMatrix.getSphereCrsFromXyz. by rewrite Hcrs, Hrad. }
  rewrite Hcall. clear Hcall call Hcrs Hrad xyzCoord radius.
  unfold DensityMatrix.sphere_loops. subst r0 r1 r2.
  destruct crsRadius as [r0 r1 r2]. cbn [v3_0 v3_1 v3_2].
  split; [|split].
  - intros (H0 & H1 & H2) Hz.
    destruct (range_cons (- r0) (r0 + 1)) as [l0 ->]; [lia|].
    destruct (range_cons (- r1) (r1 + 1)) as [l1 ->]; [lia|].
    destruct (range_cons (- r2) (r2 + 1)) as [l2 ->]; [lia|].
    cbn [for_each]. unfold DensityMatrix.sphere_body.
    by rewrite in_ellipsoid_zero.
  - intros Hneg.
    destruct (Z.ltb_spec r0 0) as [H0|H0]; [by rewrite range_nil by lia|].
    apply for_each_unchanged. intros cInd s.
    destruct (Z.ltb_spec r1 0) as [H1|H1]; [by rewrite range_nil by lia|].
    apply for_each_unchanged. intros rInd s'.
    rewrite range_nil by lia. reflexivity.
  - intros (H0 & H1 & H2). split.
    + intros cInd rInd sInd.
      destruct (in_ellipsoid_ok (V3 r0 r1 r2) cInd rInd sInd) as [b Hb];
        cbn [v3_0 v3_1 v3_2]; try lia.
      by rewrite Hb.
    + apply for_each_from_lookup. intros cInd s0.
      apply for_each_from_lookup. intros rInd s1.
      apply for_each_from_lookup. intros sInd s2.
      unfold DensityMatrix.sphere_body.
      destruct (in_ellipsoid_ok (V3 r0 r1 r2) cInd rInd sInd) as [b Hb];
        cbn [v3_0 v3_1 v3_2]; try lia.
      rewrite Hb. cbn [mbind result_bind]. destruct b; [|left; eauto].
      destruct (meets_cutoff_from_lookup self densityCutoff
                  (V3 (v3_0 crsCoord + cInd) (v3_1 crsCoord + rInd)
                      (v3_2 crsCoord + sInd)))
        as [[b' Hb']|(crs' & e & Hl & He)];
        destruct (DensityMatrix.meets_cutoff _ _ _) as [[[|]|e'] c'];
        cbn [fst] in *; try discriminate.
      * left. eauto.
      * left. eauto.
      * right. exists crs', e'. split; [|reflexivity]. congruence.
Qed.

(** The hypotheses hold in the 2 x 2 x 2 map with spacing 1: around the
    origin the radius 0 has the cell radii 0, 0 and 0, and the call
    raises [ZeroDivisionError]. *)
Lemma getSphereCrsFromXyz_radius_witness :
  DensityMatrix.getSphereCrsFromXyz
    (Examples.cube2 4 [1; 2; 3; 4; 5; 6; 7; 8]%float)
    (V3 (PyFloat 0) (PyFloat 0) (PyFloat 0))%float (PyInt 0) (PyInt 0)
  = Raise ZeroDivisionError.
Proof.
  refine (proj1 (getSphereCrsFromXyz_radius
                   (Examples.cube2 4 [1; 2; 3; 4; 5; 6; 7; 8]%float)
                   (V3 (PyFloat 0) (PyFloat 0) (PyFloat 0))%float
                   (PyInt 0) (PyInt 0) (V3 0 0 0) (V3 0 0 0) _ _) _ _).
  - vm_compute. reflexivity.
  - vm_compute. reflexivity.
  - cbn. lia.
  - cbn. lia.
Defined.

(** ** The centroid of a blob of zero total density (C6) *)

Lemma Prim2SF_is_zero (t : float) :
  PrimFloat.is_zero t = true → ∃ s, Prim2SF t = S754_zero s.
Proof.
  unfold PrimFloat.is_zero. rewrite FloatAxioms.eqb_spec.
  replace (Prim2SF zero) with (S754_zero false) by reflexivity.
  destruct (Prim2SF t) as [s| [|] | |[|] m e]; cbn; try discriminate; eauto.
Qed.

(** A float divided by a zero is a NaN or an infinity, and [int] raises
    on both. *)
Lemma trunc_div_zero (w t : float) :
  PrimFloat.is_zero t = true → ∃ e, F64.trunc (w / t) = Raise e.
Proof.
  intros [s Hs]%Prim2SF_is_zero. unfold F64.trunc.
  rewrite FloatAxioms.div_spec, Hs. unfold SF64div.
  destruct (Prim2SF w) as [?| ? | |? ? ?]; cbn; eauto.
Qed.

Lemma getPointDensityFromCrs_kind (self : DensityMatrix.t) (crs : vec3 Z)
    (d : pynum float) :
  (DensityMatrix.getPointDensityFromCrs self crs).1 = Ok d →
  d = PyInt 0 ∨ ∃ x, d = NpFloat x.
Proof.
  unfold DensityMatrix.getPointDensityFromCrs.
  destruct (DensityMatrix.validCRS self crs) as [[[|]|e] c]; cbn.
  - destruct (DensityMatrix.density_at _ _ _ _); cbn; [|done].
    intros [= <-]. eauto.
  - intros [= <-]. eauto.
  - done.
Qed.

Lemma accumulate_kind (self : DensityMatrix.t) (point : vec3 Z)
    (st st' : pynum float * vec3 (pynum float)) :
  same_kind st → DensityMatrix.accumulate self point st = Ok st' →
  same_kind st'.
Proof.
  intros Hk. unfold DensityMatrix.accumulate.
  destruct st as [total weights].
  pose proof (getPointDensityFromCrs_kind self point) as Hd.
  destruct (DensityMatrix.getPointDensityFromCrs self point) as [[d|e] p];
    [|done].
  intros [= <-]. destruct (Hd d eq_refl) as [->|[x ->]];
    destruct Hk as [(t & a & b & c & [= -> ->])|(t & a & b & c & [= -> ->])];
    cbn; unfold same_kind; eauto 10.
Qed.

Lemma for_each_accumulate_kind (self : DensityMatrix.t)
    (points : list (vec3 Z)) (st st' : pynum float * vec3 (pynum float)) :
  same_kind st → for_each points (DensityMatrix.accumulate self) st = Ok st' →
  same_kind st'.
Proof.
  revert st. induction points as [|p points IH]; intros st Hk; cbn.
  - by intros [= <-].
  - destruct (DensityMatrix.accumulate self p st) as [st1|e] eqn:E; [|done].
    cbn. apply IH. by eapply accumulate_kind.
Qed.

Lemma mapM_raise {A B} (f : A → result B) (l : list A) (x : A) (e : exn) :
  x ∈ l → f x = Raise e → ∃ e', mapM f l = Raise e'.
Proof.
  intros Hx Hf. induction l as [|y l IH]; [by apply elem_of_nil in Hx|].
  cbn. apply elem_of_cons in Hx as [<-|Hx].
  - rewrite Hf. cbn. eauto.
  - destruct (f y); cbn; [|eauto].
    destruct (IH Hx) as [e' ->]. cbn. eauto.
Qed.

(** Dividing the weights by a zero total: the quotient of ints raises;
    the quotient of numpy floats is computed, and is a NaN or an
    infinity in each component. *)
Lemma centroidGrid_zero_total (total : pynum float)
    (weights : vec3 (pynum float)) :
  same_kind (total, weights) → py_is_zero total = true →
  DensityMatrix.centroidGrid weights total = Raise ZeroDivisionError
  ∨ ∃ g, DensityMatrix.centroidGrid weights total = Ok g
         ∧ (∃ e, py_int (v3_0 g) = Raise e)
         ∧ (∃ e, py_int (v3_1 g) = Raise e)
         ∧ (∃ e, py_int (v3_2 g) = Raise e).
Proof.
  intros [(t & a & b & c & [= -> ->])|(t & a & b & c & [= -> ->])] Hz.
  - left. unfold DensityMatrix.centroidGrid, py_truediv. cbn in *.
    by rewrite Hz.
  - right. eexists. split; [reflexivity|]. cbn in Hz.
    cbn; auto using trunc_div_zero.
Qed.

(** C6, the counterexample: in a 2 x 2 x 2 map whose densities are all
    0.0, the sphere of radius 1 around the origin holds the one
    coordinate [0, 0, 0], which makes one blob of total density 0.0.  The
    weights are divided by this total, silently: the quotient is
    [nan, nan, nan].  There is no flag; what ends the call is the
    [ValueError] of [int(nan)] inside [crs2xyzCoord]. *)
Lemma findAberrantBlubs_divides_by_zero_total :
  let dm := Examples.cube2 4 (replicate 8 0%float) in
  let origin := (V3 (PyFloat 0) (PyFloat 0) (PyFloat 0))%float in
  DensityMatrix.getSphereCrsFromXyz dm origin (PyInt 1) (PyInt 0)
    = Ok [V3 0 0 0]
  ∧ DensityMatrix.cluster [V3 0 0 0] = [{[0%nat]}]
  ∧ for_each [V3 0 0 0] (DensityMatrix.accumulate dm) blob_start
    = Ok (NpFloat 0, V3 (NpFloat 0) (NpFloat 0) (NpFloat 0))%float
  ∧ DensityMatrix.centroidGrid
      (V3 (NpFloat 0) (NpFloat 0) (NpFloat 0))%float (NpFloat 0%float)
    = Ok (V3 (NpFloat nan) (NpFloat nan) (NpFloat nan))
  ∧ ∀ rt, DensityMatrix.findAberrantBlubs rt dm origin (PyInt 1) (PyInt 0)
          = Raise ValueError.
Proof.
  intros dm origin.
  assert (Hs : DensityMatrix.getSphereCrsFromXyz dm origin (PyInt 1) (PyInt 0)
               = Ok [V3 0 0 0]) by (vm_compute; reflexivity).
  assert (Hc : DensityMatrix.cluster [V3 0 0 0] = [{[0%nat]}])
    by (vm_compute; reflexivity).
  split; [exact Hs|]. split; [exact Hc|].
  split; [vm_compute; reflexivity|]. split; [vm_compute; reflexivity|].
  intros rt. unfold DensityMatrix.findAberrantBlubs. rewrite Hs.
  cbn [mbind result_bind]. rewrite Hc.
  assert (Hi : set_iter rt {[0%nat]} = [0%nat]).
  { apply Permutation_singleton_r. rewrite (set_iter_perm rt).
    by rewrite elements_singleton. }
  cbn [mapM]. unfold DensityMatrix.blob_of, DensityMatrix.points_of.
  rewrite Hi. vm_compute. reflexivity.
Qed.

(** A blob of zero total density ends [blob_of] in an error. *)
Lemma blob_of_zero_total (rt : Runtime) (self : DensityMatrix.t)
    (crsCoordList points : list (vec3 Z)) (adjacentSet : gset nat)
    (totalDensity : pynum float) (weights : vec3 (pynum float)) :
  DensityMatrix.points_of rt crsCoordList adjacentSet = Ok points →
  for_each points (DensityMatrix.accumulate self) blob_start
    = Ok (totalDensity, weights) →
  py_is_zero totalDensity = true →
  ∃ e, DensityMatrix.blob_of rt self crsCoordList adjacentSet = Raise e.
Proof.
  intros Hp Hacc Hz. unfold DensityMatrix.blob_of.
  rewrite Hp. cbn [mbind result_bind]. fold blob_start. rewrite Hacc.
  cbn [mbind result_bind].
  assert (Hk : same_kind (totalDensity, weights)).
  { eapply for_each_accumulate_kind; [|exact Hacc].
    left. unfold blob_start. eauto 10. }
  destruct (centroidGrid_zero_total _ _ Hk Hz)
    as [->|(g & -> & [e0 H0] & [e1 H1] & [e2 H2])]; [cbn; eauto|].
  cbn [mbind result_bind].
  unfold DensityHeader.crs2xyzCoord, v3_tabulate.
  cbn [v3_getitem Z.eqb orb mbind result_bind].
  destruct (v3_getitem _ (v3_0 _)) as [p|e] eqn:Eg; [|cbn; eauto].
  cbn [mbind result_bind].
  assert (Hp0 : ∃ e, py_int p = Raise e).
  { revert Eg. unfold v3_getitem. cbn [v3_0 v3_1 v3_2].
    repeat destruct (_ || _); intros [= <-]; eauto. }
  destruct Hp0 as [e ->]. cbn. eauto.
Qed.

(** C6, as amended: for a blob whose total density is zero the centroid
    computation has no guard and divides the weights by the total.  With
    the int 0 as total the division raises [ZeroDivisionError]; with a
    numpy float zero it is carried out and gives a NaN or an infinity in
    each component, on which the conversion to Cartesian coordinates
    raises.  Either way the call ends in an error and returns no blob. *)
Theorem findAberrantBlubs_zero_total (rt : Runtime) (self : DensityMatrix.t)
    (xyzCoord : vec3 (pynum float)) (radius densityCutoff : pynum float)
    (crsCoordList points : list (vec3 Z)) (adjacentSet : gset nat)
    (totalDensity : pynum float) (weights : vec3 (pynum float)) :
  DensityMatrix.getSphereCrsFromXyz self xyzCoord radius densityCutoff
    = Ok crsCoordList →
  adjacentSet ∈ DensityMatrix.cluster crsCoordList →
  DensityMatrix.points_of rt crsCoordList adjacentSet = Ok points →
  for_each points (DensityMatrix.accumulate self) blob_start
    = Ok (totalDensity, weights) →
  py_is_zero totalDensity = true →
  (DensityMatrix.centroidGrid weights totalDensity = Raise ZeroDivisionError
   ∨ ∃ g, DensityMatrix.centroidGrid weights totalDensity = Ok g
          ∧ (∃ e, py_int (v3_0 g) = Raise e)
          ∧ (∃ e, py_int (v3_1 g) = Raise e)
          ∧ (∃ e, py_int (v3_2 g) = Raise e))
  ∧ ∃ e, DensityMatrix.findAberrantBlubs rt self xyzCoord radius
           densityCutoff = Raise e.
Proof.
  intros Hs Hin Hp Hacc Hz. split.
  - apply centroidGrid_zero_total; [|exact Hz].
    eapply for_each_accumulate_kind; [|exact Hacc].
    left. unfold blob_start. eauto 10.
  - unfold DensityMatrix.findAberrantBlubs. rewrite Hs.
    cbn [mbind result_bind].
    destruct (blob_of_zero_total rt self crsCoordList points adjacentSet
                totalDensity weights Hp Hacc Hz) as [e He].
    eapply mapM_raise; [exact Hin | exact He].
Qed.

(** The hypotheses hold in the 2 x 2 x 2 map with 4 intervals, around
    the point (0, 0, 3): the sphere of radius 1 holds the one coordinate
    [3, 0, 0], which has no data, so that the total of its blob is the
    int 0. *)
Lemma findAberrantBlubs_zero_total_witness :
  let dm := Examples.cube2 4 [1; 2; 3; 4; 5; 6; 7; 8]%float in
  let xyz := (V3 (PyFloat 0) (PyFloat 0) (PyFloat 3))%float in
  DensityMatrix.getSphereCrsFromXyz dm xyz (PyInt 1) (PyInt 0)
    = Ok [V3 3 0 0]
  ∧ ∀ rt, ∃ e, DensityMatrix.findAberrantBlubs rt dm xyz (PyInt 1) (PyInt 0)
               = Raise e.
Proof.
  intros dm xyz.
  assert (Hs : DensityMatrix.getSphereCrsFromXyz dm xyz (PyInt 1) (PyInt 0)
               = Ok [V3 3 0 0]) by (vm_compute; reflexivity).
  split; [exact Hs|]. intros rt.
  assert (Hi : set_iter rt {[0%nat]} = [0%nat]).
  { apply Permutation_singleton_r. rewrite (set_iter_perm rt).
    by rewrite elements_singleton. }
  refine (proj2 (findAberrantBlubs_zero_total rt dm xyz (PyInt 1) (PyInt 0)
                   [V3 3 0 0] [V3 3 0 0] {[0%nat]} (PyInt 0)
                   (V3 (PyInt 0) (PyInt 0) (PyInt 0)) Hs _ _ _ _)).
  - replace (DensityMatrix.cluster [V3 3 0 0]) with [({[0%nat]} : gset nat)]
      by (vm_compute; reflexivity).
    by apply list_elem_of_singleton.
  - unfold DensityMatrix.points_of. rewrite Hi. reflexivity.
  - vm_compute. reflexivity.
  - reflexivity.
Defined.

(** * Further properties *)

(** ** Density lookups *)

Lemma validCRS_axis_component (self : DensityMatrix.t)
    (get : vec3 Z → Z) (set : vec3 Z → Z → vec3 Z) (crsCoord : vec3 Z) :
  (∀ v, set v (get v) = v) →
  (∀ v y, get (set v y) = y) →
  DensityMatrix.validCRS_axis self get set crsCoord
  = (let r := validCRS_component (crsInterval self get)
                (get (DensityHeader.ncrs (DensityMatrix.header self)))
                (get crsCoord) in
     (r.1, set crsCoord r.2)).
Proof.
  intros Hid Hgs.
  unfold DensityMatrix.validCRS_axis, validCRS_component, crsInterval.
  destruct (v3_getitem _ _) as [i|e]; cbn [fst snd]; [|by rewrite Hid].
  destruct ((get crsCoord <? 0) || _); cbn [andb].
  - destruct (i =? 0); cbn [fst snd]; [by rewrite Hid|]. by rewrite Hgs.
  - cbn [fst snd]. by rewrite Hid.
Qed.

Lemma validCRS_components (self : DensityMatrix.t) (x y z : Z) :
  let n := DensityHeader.ncrs (DensityMatrix.header self) in
  DensityMatrix.validCRS self (V3 x y z)
  = match validCRS_component (crsInterval self v3_0) (v3_0 n) x with
    | (Ok true, x') =>
        match validCRS_component (crsInterval self v3_1) (v3_1 n) y with
        | (Ok true, y') =>
            let r := validCRS_component (crsInterval self v3_2) (v3_2 n) z in
            (r.1, V3 x' y' r.2)
        | (r, y') => (r, V3 x' y' z)
        end
    | (r, x') => (r, V3 x' y z)
    end.
Proof.
  intros n. unfold DensityMatrix.validCRS.
  rewrite (validCRS_axis_component self v3_0 DensityMatrix.set0)
    by (by intros []).
  fold n. cbn [v3_0 v3_1 v3_2 DensityMatrix.set0 DensityMatrix.set1 DensityMatrix.set2].
  destruct (validCRS_component (crsInterval self v3_0) _ x) as [[[|]|e] x'];
    cbn [fst snd]; try reflexivity.
  rewrite (validCRS_axis_component self v3_1 DensityMatrix.set1)
    by (by intros []).
  fold n. cbn [v3_0 v3_1 v3_2 DensityMatrix.set0 DensityMatrix.set1 DensityMatrix.set2].
  destruct (validCRS_component (crsInterval self v3_1) _ y) as [[[|]|e] y'];
    cbn [fst snd]; try reflexivity.
  rewrite (validCRS_axis_component self v3_2 DensityMatrix.set2)
    by (by intros []).
  fold n. cbn [v3_0 v3_1 v3_2 DensityMatrix.set0 DensityMatrix.set1 DensityMatrix.set2].
  reflexivity.
Qed.

Lemma residue_fixed (x i : Z) :
  i ≠ 0 → let x' := x - x / i * i in x' - x' / i * i = x'.
Proof.
  intros Hi x'. assert (Hx : x' = x mod i) by (unfold x'; rewrite Z.mod_eq; lia).
  assert (Hq : x' / i = 0).
  { rewrite Hx. apply Z.div_small_iff; [done|].
    destruct (Z.lt_ge_cases 0 i).
    - left. by apply Z.mod_pos_bound.
    - right. apply Z.mod_neg_bound. lia. }
  rewrite Hq. lia.
Qed.

Lemma validCRS_component_idem (interval : result Z) (n x : Z) :
  validCRS_component interval n (validCRS_component interval n x).2
  = validCRS_component interval n x.
Proof.
  unfold validCRS_component. destruct interval as [i|e]; [|reflexivity].
  destruct ((x <? 0) || (n <? x)) eqn:Hout; cbn [andb].
  - destruct (Z.eqb_spec i 0) as [->|Hi]; cbn [snd].
    + rewrite Hout. reflexivity.
    + set (x' := x - x / i * i).
      pose proof (residue_fixed x i Hi) as Hfix. cbn zeta in Hfix. fold x' in Hfix.
      destruct ((x' <? 0) || (n <? x')); cbn [andb]; [|reflexivity].
      destruct (Z.eqb_spec i 0); [done|]. by rewrite Hfix.
  - cbn [snd]. rewrite Hout. reflexivity.
Qed.

Lemma validCRS_component_again (interval : result Z) (n x x' : Z)
    (r : result bool) :
  validCRS_component interval n x = (r, x') →
  validCRS_component interval n x' = (r, x').
Proof.
  intros H. pose proof (validCRS_component_idem interval n x) as Hi.
  by rewrite H in Hi.
Qed.

Lemma validCRS_idempotent (self : DensityMatrix.t) (crsCoord : vec3 Z) :
  DensityMatrix.validCRS self (DensityMatrix.validCRS self crsCoord).2
  = DensityMatrix.validCRS self crsCoord.
Proof.
  destruct crsCoord as [x y z]. rewrite (validCRS_components self x y z).
  cbn zeta.
  destruct (validCRS_component (crsInterval self v3_0) _ x)
    as [r0 x'] eqn:E0.
  apply validCRS_component_again in E0.
  destruct r0 as [[|]|e0]; cbn [snd];
    try (rewrite validCRS_components; cbn zeta; by rewrite E0).
  destruct (validCRS_component (crsInterval self v3_1) _ y)
    as [r1 y'] eqn:E1.
  apply validCRS_component_again in E1.
  destruct r1 as [[|]|e1]; cbn [snd];
    try (rewrite validCRS_components; cbn zeta; by rewrite E0, E1).
  destruct (validCRS_component (crsInterval self v3_2) _ z)
    as [r2 z'] eqn:E2.
  apply validCRS_component_again in E2.
  cbn [fst snd]. rewrite validCRS_components. cbn zeta.
  by rewrite E0, E1, E2.
Qed.

Lemma lookup_twice (self : DensityMatrix.t) (crsCoord : vec3 Z) :
  DensityMatrix.getPointDensityFromCrs self
    (DensityMatrix.getPointDensityFromCrs self crsCoord).2
  = DensityMatrix.getPointDensityFromCrs self crsCoord.
Proof.
  pose proof (validCRS_idempotent self crsCoord) as Hv.
  unfold DensityMatrix.getPointDensityFromCrs.
  destruct (DensityMatrix.validCRS self crsCoord) as [[[|]|e] c] eqn:E;
    cbn [snd] in *; by rewrite Hv.
Qed.


Lemma validCRS_component_inside (i n x : Z) :
  0 ≤ x ≤ n → validCRS_component (Ok i) n x = (Ok true, x).
Proof.
  intros Hx. unfold validCRS_component.
  assert (Hn : (n <? x) = false) by (apply Z.ltb_ge; lia).
  rewrite (proj2 (Z.ltb_ge x 0)), Hn by lia. cbn [orb andb].
  by rewrite Hn.
Qed.

(** X2: a lookup at a coordinate inside the grid has no effect on the
    coordinate and never raises.  When every component lies in
    [0, ncrs] on its axis and below the extent of the array on the same
    position, the lookup returns the density stored at
    [density[c0, c1, c2]] (the element [(c0 * s1 + c1) * s2 + c2] of the
    flat array, the shape being [(s0, s1, s2)]) and leaves the
    coordinate list as it was passed; the interval counts are not
    consulted, so that a zero among them does no harm here. *)
Theorem getPointDensityFromCrs_interior (self : DensityMatrix.t)
    (x y z i0 i1 i2 s0 s1 s2 : Z) :
  let n := DensityHeader.ncrs (DensityMatrix.header self) in
  crsInterval self v3_0 = Ok i0 →
  crsInterval self v3_1 = Ok i1 →
  crsInterval self v3_2 = Ok i2 →
  DensityMatrix.shape self = V3 s0 s1 s2 →
  Z.of_nat (length (DensityMatrix.densityArray self)) = s0 * s1 * s2 →
  0 ≤ x ≤ v3_0 n → x < s0 →
  0 ≤ y ≤ v3_1 n → y < s1 →
  0 ≤ z ≤ v3_2 n → z < s2 →
  ∃ d, DensityMatrix.densityArray self !! Z.to_nat ((x * s1 + y) * s2 + z)
       = Some d
       ∧ DensityMatrix.getPointDensityFromCrs self (V3 x y z)
         = (Ok (NpFloat d), V3 x y z).
Proof.
  intros n H0 H1 H2 Hs Hlen Hx Hxs Hy Hys Hz Hzs.
  assert (Hidx : 0 ≤ (x * s1 + y) * s2 + z < s0 * s1 * s2).
  { assert (0 ≤ x * s1 + y ≤ (s0 - 1) * s1 + (s1 - 1)) by nia. nia. }
  destruct (lookup_lt_is_Some_2 (DensityMatrix.densityArray self)
              (Z.to_nat ((x * s1 + y) * s2 + z))) as [d Hd]; [lia|].
  exists d. split; [exact Hd|].
  unfold DensityMatrix.getPointDensityFromCrs.
  rewrite validCRS_components. cbn zeta. fold n.
  rewrite H0, H1, H2, !validCRS_component_inside by done. cbn [fst snd].
  unfold DensityMatrix.density_at. rewrite Hs. cbn [v3_0 v3_1 v3_2].
  unfold DensityMatrix.np_index.
  destruct (Z.leb_spec 0 x); [|lia]. destruct (Z.ltb_spec x s0); [|lia].
  destruct (Z.leb_spec 0 y); [|lia]. destruct (Z.ltb_spec y s1); [|lia].
  destruct (Z.leb_spec 0 z); [|lia]. destruct (Z.ltb_spec z s2); [|lia].
  cbn [andb mbind result_bind]. by rewrite Hd.
Qed.

(** In the 2 x 2 x 2 map with 4 intervals the lookup at [1, 0, 1] reads
    the sixth density. *)
Lemma getPointDensityFromCrs_interior_witness :
  ∃ d, [1; 2; 3; 4; 5; 6; 7; 8]%float !! 5%nat = Some d
       ∧ DensityMatrix.getPointDensityFromCrs
           (Examples.cube2 4 [1; 2; 3; 4; 5; 6; 7; 8]%float) (V3 1 0 1)
         = (Ok (NpFloat d), V3 1 0 1).
Proof.
  apply (getPointDensityFromCrs_interior
           (Examples.cube2 4 [1; 2; 3; 4; 5; 6; 7; 8]%float)
           1 0 1 4 4 4 2 2 2); try reflexivity; cbn; lia.
Defined.

Lemma validCRS_component_periodic (i n x k : Z) :
  k = 0 ∨ outside n x ∧ outside n (x + k * i) →
  validCRS_component (Ok i) n (x + k * i) = validCRS_component (Ok i) n x.
Proof.
  intros [->|[Hx Hk]]; [by rewrite Z.add_0_r|].
  unfold validCRS_component, outside in *.
  replace ((x + k * i <? 0) || (n <? x + k * i)) with true
    by (symmetry; apply orb_true_iff; lia).
  replace ((x <? 0) || (n <? x)) with true
    by (symmetry; apply orb_true_iff; lia).
  cbn [andb]. destruct (Z.eqb_spec i 0) as [->|Hi].
  - by rewrite Z.mul_0_r, Z.add_0_r.
  - rewrite Z.div_add by done.
    replace (x + k * i - (x / i + k) * i) with (x - x / i * i) by lia.
    reflexivity.
Qed.



(** ** The sphere enumeration *)

Lemma for_each_inv {A S} (P : S → Prop) (l : list A)
    (body : A → S → result S) (s s' : S) :
  (∀ x s s', P s → body x s = Ok s' → P s') →
  P s → for_each l body s = Ok s' → P s'.
Proof.
  intros Hb. revert s. induction l as [|x l IH]; intros s Hs; cbn.
  - by intros [= <-].
  - destruct (body x s) as [s1|e] eqn:E; [|done]. cbn.
    apply IH. by eapply Hb.
Qed.

Lemma for_each_agree {A B} (l : list A)
    (f g : A → list B → result (list B)) (s t : list B) :
  (∀ x s t, sublist s t → sublist_or_same_error (f x s) (g x t)) →
  sublist s t →
  sublist_or_same_error (for_each l f s) (for_each l g t).
Proof.
  intros Hb. revert s t. induction l as [|x l IH]; intros s t Hst; [done|].
  cbn. specialize (Hb x s t Hst).
  destruct (f x s) as [s1|e], (g x t) as [t1|e0]; cbn in *; try done.
  by apply IH.
Qed.

(** What [meets_cutoff] does with the default cutoff 0: one lookup, and
    the coordinate is kept unless the lookup raises. *)
Lemma meets_cutoff_default (self : DensityMatrix.t) (crs : vec3 Z) :
  DensityMatrix.meets_cutoff self (PyInt 0) crs
  = ((λ _, true) <$> (DensityMatrix.getPointDensityFromCrs self crs).1,
     (DensityMatrix.getPointDensityFromCrs self crs).2).
Proof.
  unfold DensityMatrix.meets_cutoff. cbn [F64.lt Z.ltb Z.compare].
  destruct (DensityMatrix.getPointDensityFromCrs self crs) as [[d|e] c];
    cbn; [|reflexivity].
  by rewrite orb_true_r.
Qed.

(** With any cutoff: the lookups raise or not as the first one does, and
    the coordinate handed on is the one the first lookup leaves. *)
Lemma meets_cutoff_lookup (self : DensityMatrix.t)
    (densityCutoff : pynum float) (crs : vec3 Z) :
  let r := DensityMatrix.getPointDensityFromCrs self crs in
  match r.1 with
  | Ok d => ∃ b, DensityMatrix.meets_cutoff self densityCutoff crs
                 = (Ok b, r.2)
  | Raise e => (DensityMatrix.meets_cutoff self densityCutoff crs).1
               = Raise e
  end.
Proof.
  intros r. subst r.
  pose proof (lookup_twice self crs) as Hi.
  unfold DensityMatrix.meets_cutoff.
  destruct (DensityMatrix.getPointDensityFromCrs self crs) as [[d|e] c] eqn:E;
    cbn [fst snd] in *.
  - destruct (F64.lt (PyInt 0) densityCutoff); cbn [fmap result_fmap].
    + destruct (F64.lt densityCutoff d); [eauto|].
      rewrite Hi. cbn. eauto.
    + rewrite E. cbn. eauto.
  - destruct (F64.lt (PyInt 0) densityCutoff); [reflexivity|].
    by rewrite E.
Qed.

Lemma sphere_body_agree (self : DensityMatrix.t) (crsCoord crsRadius : vec3 Z)
    (densityCutoff : pynum float) (cInd rInd sInd : Z) (s t : list (vec3 Z)) :
  sublist s t →
  sublist_or_same_error
    (DensityMatrix.sphere_body self crsCoord crsRadius densityCutoff
       cInd rInd sInd s)
    (DensityMatrix.sphere_body self crsCoord crsRadius (PyInt 0)
       cInd rInd sInd t).
Proof.
  intros Hst. unfold DensityMatrix.sphere_body.
  destruct (DensityMatrix.in_ellipsoid crsRadius cInd rInd sInd) as [[|]|e];
    cbn [mbind result_bind]; try done.
  set (crs := V3 _ _ _). rewrite meets_cutoff_default.
  pose proof (meets_cutoff_lookup self densityCutoff crs) as Hl.
  cbn zeta in Hl.
  destruct (DensityMatrix.getPointDensityFromCrs self crs) as [[d|e] c];
    cbn [fst snd fmap result_fmap] in *.
  - destruct Hl as [b ->]. destruct b; cbn.
    + by apply sublist_app.
    + by apply sublist_inserts_r.
  - destruct (DensityMatrix.meets_cutoff self densityCutoff crs)
      as [[b|e'] c']; cbn in *; [done|]. by injection Hl.
Qed.


Lemma meets_cutoff_settled (self : DensityMatrix.t)
    (densityCutoff : pynum float) (crs crs' : vec3 Z) :
  DensityMatrix.meets_cutoff self densityCutoff crs = (Ok true, crs') →
  settled self crs'.
Proof.
  intros Hm. pose proof (meets_cutoff_lookup self densityCutoff crs) as Hl.
  pose proof (lookup_twice self crs) as Hi.
  cbn zeta in Hl.
  destruct (DensityMatrix.getPointDensityFromCrs self crs) as [[d|e] c];
    cbn [fst snd] in *.
  - destruct Hl as [b Hb]. rewrite Hb in Hm. injection Hm as _ <-.
    by exists d.
  - by rewrite Hm in Hl.
Qed.

Lemma sphere_loops_settled (self : DensityMatrix.t)
    (crsCoord crsRadius : vec3 Z) (densityCutoff : pynum float)
    (crsCoordList : list (vec3 Z)) :
  DensityMatrix.sphere_loops self crsCoord crsRadius densityCutoff
    = Ok crsCoordList →
  Forall (settled self) crsCoordList.
Proof.
  unfold DensityMatrix.sphere_loops. destruct crsRadius as [r0 r1 r2].
  apply (for_each_inv (Forall (settled self))); [|constructor].
  intros cInd s0 s0' H0.
  apply (for_each_inv (Forall (settled self))); [|exact H0].
  intros rInd s1 s1' H1.
  apply (for_each_inv (Forall (settled self))); [|exact H1].
  intros sInd s2 s2' H2. unfold DensityMatrix.sphere_body.
  destruct (DensityMatrix.in_ellipsoid _ _ _ _) as [[|]|e];
    cbn [mbind result_bind]; [|by intros [= <-]|done].
  destruct (DensityMatrix.meets_cutoff _ _ _) as [[[|]|e] c] eqn:Em;
    [|by intros [= <-]|done].
  intros [= <-]. apply Forall_app. split; [exact H2|].
  apply Forall_singleton. by eapply meets_cutoff_settled.
Qed.

Lemma getSphereCrsFromXyz_settled (self : DensityMatrix.t)
    (xyzCoord : vec3 (pynum float)) (radius densityCutoff : pynum float)
    (crsCoordList : list (vec3 Z)) :
  DensityMatrix.getSphereCrsFromXyz self xyzCoord radius densityCutoff
    = Ok crsCoordList →
  Forall (settled self) crsCoordList.
Proof.
  unfold DensityMatrix.getSphereCrsFromXyz.
  destruct (DensityHeader.xyz2crsCoord _ _) as [crsCoord|e]; [|done].
  cbn [mbind result_bind].
  destruct (DensityMatrix.sphere_radius self radius) as [crsRadius|e];
    [|done].
  apply sphere_loops_settled.
Qed.



Lemma total_density_settled (self : DensityMatrix.t)
    (crsCoordList : list (vec3 Z)) (totalDensity : pynum float) :
  Forall (settled self) crsCoordList →
  ∃ total,
    for_each crsCoordList (λ crs totalDensity,
      d ← (DensityMatrix.getPointDensityFromCrs self crs).1;
      Ok (py_add totalDensity d)) totalDensity
    = Ok total.
Proof.
  intros Hl. revert totalDensity.
  induction Hl as [|crs l [d Hd] _ IH]; intros totalDensity; cbn; [eauto|].
  rewrite Hd. cbn. apply IH.
Qed.


(** X7: with the cell radius 1 on every axis the ellipsoid holds the
    centre alone: the test is strict, and every other offset of the
    3 x 3 x 3 box has a component of square 1.  The call returns the
    centre as its lookup leaves it, or nothing when the cutoff rejects
    it. *)
Theorem getSphereCrsFromXyz_unit_radius (self : DensityMatrix.t)
    (xyzCoord : vec3 (pynum float)) (radius densityCutoff : pynum float)
    (crsCoord : vec3 Z) :
  DensityHeader.xyz2crsCoord (DensityMatrix.header self) xyzCoord
    = Ok crsCoord →
  DensityMatrix.sphere_radius self radius = Ok (V3 1 1 1) →
  DensityMatrix.getSphereCrsFromXyz self xyzCoord radius densityCutoff
  = match DensityMatrix.meets_cutoff self densityCutoff crsCoord with
    | (Raise e, _) => Raise e
    | (Ok true, crs) => Ok [crs]
    | (Ok false, _) => Ok []
    end.
Proof.
  intros Hc Hr. unfold DensityMatrix.getSphereCrsFromXyz.
  rewrite Hc, Hr. cbn [mbind result_bind].
  destruct crsCoord as [x y z].
  replace (DensityMatrix.meets_cutoff self densityCutoff (V3 x y z))
    with (DensityMatrix.meets_cutoff self densityCutoff
            (V3 (x + 0) (y + 0) (z + 0)))
    by (by rewrite !Z.add_0_r).
  unfold DensityMatrix.sphere_loops, DensityMatrix.sphere_body.
  cbn [v3_0 v3_1 v3_2].
  generalize (DensityMatrix.meets_cutoff self densityCutoff). intros keep.
  vm_compute. destruct (keep _) as [[[|]|e] c]; reflexivity.
Qed.

(** In the 2 x 2 x 2 map with spacing 1, the radius 1 has the cell
    radius 1 on every axis. *)
Lemma getSphereCrsFromXyz_unit_radius_witness :
  let dm := Examples.cube2 4 [1; 2; 3; 4; 5; 6; 7; 8]%float in
  let origin := (V3 (PyFloat 0) (PyFloat 0) (PyFloat 0))%float in
  DensityMatrix.getSphereCrsFromXyz dm origin (PyInt 1) (PyFloat 2%float)
  = match DensityMatrix.meets_cutoff dm (PyFloat 2%float) (V3 0 0 0) with
    | (Raise e, _) => Raise e
    | (Ok true, crs) => Ok [crs]
    | (Ok false, _) => Ok []
    end.
Proof.
  apply (getSphereCrsFromXyz_unit_radius
           (Examples.cube2 4 [1; 2; 3; 4; 5; 6; 7; 8]%float)
           (V3 (PyFloat 0) (PyFloat 0) (PyFloat 0))%float
           (PyInt 1) (PyFloat 2%float) (V3 0 0 0));
    vm_compute; reflexivity.
Defined.

(** ** Blobs *)

Lemma mapM_Ok_Forall2 {A B} (f : A → result B) (l : list A) (k : list B) :
  mapM f l = Ok k → Forall2 (λ x y, f x = Ok y) l k.
Proof.
  revert k. induction l as [|x l IH]; intros k; cbn.
  - intros [= <-]. constructor.
  - destruct (f x) as [y|] eqn:E; cbn; [|done].
    destruct (mapM f l) as [k'|]; cbn; [|done].
    intros [= <-]. constructor; [done|]. by apply IH.
Qed.

Lemma blob_of_Ok (rt : Runtime) (self : DensityMatrix.t)
    (crsCoordList : list (vec3 Z)) (adjacentSet : gset nat)
    (b : DensityMatrix.blob) :
  DensityMatrix.blob_of rt self crsCoordList adjacentSet = Ok b →
  DensityMatrix.volume b
  = (DensityHeader.unitVolume (DensityMatrix.header self)
     * F64.of_Z (Z.of_nat (size adjacentSet)))%float
  ∧ py_is_zero (DensityMatrix.total_density b) = false.
Proof.
  intros Hb. pose proof Hb as Hb0.
  pose proof (blob_of_zero_total rt self crsCoordList) as Hz.
  unfold DensityMatrix.blob_of in Hb.
  destruct (DensityMatrix.points_of rt crsCoordList adjacentSet)
    as [points|] eqn:Hp; [|done].
  cbn [mbind result_bind] in Hb. fold blob_start in Hb.
  destruct (for_each points _ blob_start) as [[total weights]|] eqn:Ha;
    [|done].
  specialize (Hz points adjacentSet total weights Hp Ha).
  cbn [mbind result_bind] in Hb.
  destruct (DensityMatrix.centroidGrid weights total) as [g|]; [|done].
  cbn [mbind result_bind] in Hb.
  destruct (DensityHeader.crs2xyzCoord _ g) as [c|]; [|done].
  injection Hb as <-. cbn. split; [reflexivity|].
  destruct (py_is_zero total) eqn:E; [|done].
  destruct (Hz eq_refl) as [e He]. by rewrite Hb0 in He.
Qed.

(** X8: what [findAberrantBlubs] returns, when it returns.  The blobs
    are one for each set of the clustering of the coordinates of the
    sphere, in the order of the clustering; the volume of a blob is the
    volume of a voxel times the number of coordinates of its set; and no
    blob of the list has the total density zero. *)
Theorem findAberrantBlubs_returns (rt : Runtime) (self : DensityMatrix.t)
    (xyzCoord : vec3 (pynum float)) (radius densityCutoff : pynum float)
    (blobs : list DensityMatrix.blob) :
  DensityMatrix.findAberrantBlubs rt self xyzCoord radius densityCutoff
    = Ok blobs →
  ∃ crsCoordList,
    DensityMatrix.getSphereCrsFromXyz self xyzCoord radius densityCutoff
      = Ok crsCoordList
    ∧ Forall2
        (λ adjacentSet b,
           DensityMatrix.volume b
           = (DensityHeader.unitVolume (DensityMatrix.header self)
              * F64.of_Z (Z.of_nat (size adjacentSet)))%float
           ∧ py_is_zero (DensityMatrix.total_density b) = false)
        (DensityMatrix.cluster crsCoordList) blobs.
Proof.
  unfold DensityMatrix.findAberrantBlubs.
  destruct (DensityMatrix.getSphereCrsFromXyz _ _ _ _) as [l|]; [|done].
  cbn [mbind result_bind]. intros H%mapM_Ok_Forall2.
  exists l. split; [reflexivity|].
  eapply Forall2_impl; [exact H|]. intros S b Hb. cbn beta in Hb.
  exact (blob_of_Ok rt self l S b Hb).
Qed.

(** In the 2 x 2 x 2 map with 4 intervals the sphere of radius 1 around
    the origin holds the coordinate [0, 0, 0], of density 1.0: one blob,
    of one voxel. *)
Lemma findAberrantBlubs_returns_witness :
  DensityMatrix.cluster [V3 0 0 0] = [{[0%nat]}]
  ∧ ∀ rt : Runtime, ∃ crsCoordList,
      DensityMatrix.getSphereCrsFromXyz
        (Examples.cube2 4 [1; 2; 3; 4; 5; 6; 7; 8]%float)
        (V3 (PyFloat 0) (PyFloat 0) (PyFloat 0))%float (PyInt 1) (PyInt 0)
      = Ok crsCoordList
      ∧ Forall2
          (λ adjacentSet b,
             DensityMatrix.volume b
             = (DensityHeader.unitVolume
                  (DensityMatrix.header
                     (Examples.cube2 4 [1; 2; 3; 4; 5; 6; 7; 8]%float))
                * F64.of_Z (Z.of_nat (size adjacentSet)))%float
             ∧ py_is_zero (DensityMatrix.total_density b) = false)
          (DensityMatrix.cluster crsCoordList)
          [DensityMatrix.Blob (V3 (PyFloat 0) (PyFloat 0) (PyFloat 0))%float
             (NpFloat 1%float) 1%float].
Proof.
  assert (Hc : DensityMatrix.cluster [V3 0 0 0] = [{[0%nat]}])
    by (vm_compute; reflexivity).
  split; [exact Hc|]. intros rt.
  apply (findAberrantBlubs_returns rt).
  unfold DensityMatrix.findAberrantBlubs.
  replace (DensityMatrix.getSphereCrsFromXyz _ _ _ _)
    with (Ok [V3 0 0 0] : result (list (vec3 Z)))
    by (vm_compute; reflexivity).
  cbn [mbind result_bind]. rewrite Hc.
  assert (Hi : set_iter rt {[0%nat]} = [0%nat]).
  { apply Permutation_singleton_r. rewrite (set_iter_perm rt).
    by rewrite elements_singleton. }
  cbn [mapM]. unfold DensityMatrix.blob_of, DensityMatrix.points_of.
  rewrite Hi. vm_compute. reflexivity.
Defined.

Lemma size_union_pairwise_disjoint (sets : list (gset nat)) :
  (∀ i j S T, sets !! i = Some S → sets !! j = Some T → i ≠ j → S ## T) →
  size (⋃ sets) = sum_list (size <$> sets).
Proof.
  induction sets as [|S sets IH]; intros Hd; cbn; [apply size_empty|].
  rewrite size_union, IH; [reflexivity| |].
  - intros i j S' T Hi Hj Hne. apply (Hd (Datatypes.S i) (Datatypes.S j)); cbn; try done. lia.
  - intros x HxS [T [HT HxT]]%elem_of_union_list.
    apply list_elem_of_lookup_1 in HT as [j Hj].
    by apply (Hd 0%nat (Datatypes.S j) S T eq_refl Hj ltac:(lia) x).
Qed.

(** X9: the clustering loses no coordinate and invents none.  The sizes
    of the sets it returns add up to the length of the coordinate list,
    none of the sets is empty, and there are at most as many sets as
    coordinates. *)
Theorem cluster_sizes (crsCoordList : list (vec3 Z)) :
  let adjSetList := DensityMatrix.cluster crsCoordList in
  sum_list (size <$> adjSetList) = length crsCoordList
  ∧ Forall (λ S, (0 < size S)%nat) adjSetList
  ∧ (length adjSetList ≤ length crsCoordList)%nat.
Proof.
  intros adjSetList.
  pose proof (cluster_inv_loop crsCoordList (length crsCoordList) (le_n _))
    as (Hused & Hcomp & Hdisj & Hbelow).
  unfold adjSetList, DensityMatrix.cluster.
  set (st := foldl _ _ _) in *.
  assert (Hsum : sum_list (size <$> st.2) = length crsCoordList).
  { rewrite <- size_union_pairwise_disjoint by exact Hdisj.
    assert (Heq : ⋃ st.2 = DensityMatrix.indices crsCoordList).
    { apply set_eq. intros x. unfold DensityMatrix.indices.
      rewrite elem_of_union_list, elem_of_list_to_set, list_elem_of_In, in_seq.
      split.
      - intros (S & HS & Hx).
        destruct (Hcomp S HS) as (seed & Hlt & Hseed).
        apply Hseed in Hx. apply connected_lt in Hx; [lia|done].
      - intros [_ Hx]. apply Hused, Hbelow. lia. }
    rewrite Heq. unfold DensityMatrix.indices.
    rewrite size_list_to_set by apply NoDup_seq. apply length_seq. }
  assert (Hpos : Forall (λ S, (0 < size S)%nat) st.2).
  { apply Forall_forall. intros S HS.
    destruct (Hcomp S HS) as (seed & _ & Hseed).
    assert (seed ∈ S) by (apply Hseed, rtc_refl).
    destruct (decide (size S = 0%nat)) as [E|]; [|lia].
    apply size_empty_inv in E. set_solver. }
  split; [exact Hsum|]. split; [exact Hpos|].
  rewrite <- Hsum. clear -Hpos.
  induction Hpos as [|S l HS _ IH]; cbn; lia.
Qed.

(** ** The header object *)

Lemma v3_getitem_Ok {A} (v : vec3 A) (i : Z) :
  index3 i → ∃ x, v3_getitem v i = Ok x.
Proof.
  unfold index3, v3_getitem. intros Hi.
  assert (i = -3 ∨ i = -2 ∨ i = -1 ∨ i = 0 ∨ i = 1 ∨ i = 2)
    as [->|[->|[->|[->|[->| ->]]]]] by lia; cbn; eauto.
Qed.

Lemma v3_getitem_index {A} (v : vec3 A) (i : Z) (x : A) :
  v3_getitem v i = Ok x → index3 i.
Proof.
  unfold index3, v3_getitem.
  destruct (Z.eqb_spec i 0), (Z.eqb_spec i (-3)), (Z.eqb_spec i 1),
    (Z.eqb_spec i (-2)), (Z.eqb_spec i 2), (Z.eqb_spec i (-1));
    cbn; intros; try lia; discriminate.
Qed.

Lemma v3_setitem_Ok {A} (v : vec3 A) (i : Z) (x : A) :
  index3 i → ∃ v', v3_setitem v i x = Ok v'.
Proof.
  unfold index3, v3_setitem. intros Hi.
  assert (i = -3 ∨ i = -2 ∨ i = -1 ∨ i = 0 ∨ i = 1 ∨ i = 2)
    as [->|[->|[->|[->|[->| ->]]]]] by lia; cbn; eauto.
Qed.

Lemma v3_setitem_index (P : Z → Prop) (v v' : vec3 Z) (i x : Z) :
  v3_setitem v i x = Ok v' →
  P (v3_0 v) → P (v3_1 v) → P (v3_2 v) → P x →
  index3 i ∧ P (v3_0 v') ∧ P (v3_1 v') ∧ P (v3_2 v').
Proof.
  unfold index3, v3_setitem.
  destruct (Z.eqb_spec i 0), (Z.eqb_spec i (-3)), (Z.eqb_spec i 1),
    (Z.eqb_spec i (-2)), (Z.eqb_spec i 2), (Z.eqb_spec i (-1));
    cbn; intros [= <-]; cbn; intros; repeat split; try done; lia.
Qed.

Lemma axis_indices_Ok (col row sec : Z) (m : vec3 Z) :
  DensityHeader.axis_indices col row sec = Ok m →
  index3 (col - 1) ∧ index3 (row - 1) ∧ index3 (sec - 1)
  ∧ 0 ≤ v3_0 m ≤ 2 ∧ 0 ≤ v3_1 m ≤ 2 ∧ 0 ≤ v3_2 m ≤ 2.
Proof.
  unfold DensityHeader.axis_indices.
  destruct (v3_setitem (V3 0 0 0) (col - 1) 0) as [m0|] eqn:E0; [|done].
  cbn [mbind result_bind].
  destruct (v3_setitem m0 (row - 1) 1) as [m1|] eqn:E1; [|done].
  cbn [mbind result_bind].
  destruct (v3_setitem m1 (sec - 1) 2) as [m2|] eqn:E2; [|done].
  cbn [mbind result_bind]. intros [= <-].
  apply (v3_setitem_index (λ k, 0 ≤ k ≤ 2)) in E0 as (? & ? & ? & ?);
    cbn; try lia.
  apply (v3_setitem_index (λ k, 0 ≤ k ≤ 2)) in E1 as (? & ? & ? & ?);
    try lia.
  apply (v3_setitem_index (λ k, 0 ≤ k ≤ 2)) in E2 as (? & ? & ? & ?);
    try lia.
  done.
Qed.

Lemma axis_indices_index (col row sec : Z) :
  index3 (col - 1) → index3 (row - 1) → index3 (sec - 1) →
  ∃ m, DensityHeader.axis_indices col row sec = Ok m.
Proof.
  intros Hc Hr Hs. unfold DensityHeader.axis_indices.
  destruct (v3_setitem_Ok (V3 0 0 0) (col - 1) 0 Hc) as [m0 ->].
  cbn [mbind result_bind].
  destruct (v3_setitem_Ok m0 (row - 1) 1 Hr) as [m1 ->].
  cbn [mbind result_bind].
  destruct (v3_setitem_Ok m1 (sec - 1) 2 Hs) as [m2 ->].
  cbn [mbind result_bind]. eauto.
Qed.

Lemma float_div_int_Ok (x g : float) (n : Z) :
  DensityHeader.float_div_int x n = Ok g → n ≠ 0.
Proof.
  unfold DensityHeader.float_div_int, py_truediv. cbn.
  destruct (Z.eqb_spec n 0); [done|]. done.
Qed.

Lemma float_div_int_nonzero (x : float) (n : Z) :
  n ≠ 0 → DensityHeader.float_div_int x n = Ok (x / F64.of_Z n)%float.
Proof.
  intros Hn. unfold DensityHeader.float_div_int, py_truediv. cbn.
  destruct (Z.eqb_spec n 0); [done|]. reflexivity.
Qed.

Lemma float_div_int_zero (x : float) :
  DensityHeader.float_div_int x 0 = Raise ZeroDivisionError.
Proof. reflexivity. Qed.

Lemma init_constructed (rt : Runtime) (headerTuple : list hval)
    (labels : list byte) (endian : Struct.endian) (h : DensityHeader.t float) :
  DensityHeader.__init__ rt headerTuple labels endian = Ok h →
  constructed h
  ∧ DensityHeader.map2crs h
    = V3 (DensityHeader.col2xyz h - 1) (DensityHeader.row2xyz h - 1)
         (DensityHeader.sec2xyz h - 1)
  ∧ DensityHeader.axis_indices (DensityHeader.col2xyz h)
      (DensityHeader.row2xyz h) (DensityHeader.sec2xyz h)
    = Ok (DensityHeader.map2xyz h)
  ∧ DensityHeader.endian h = endian
  ∧ DensityHeader.labels h = labels
  ∧ DensityHeader.nintervaLZ h = None.
Proof.
  intros H. unfold DensityHeader.__init__ in H. bind_inv H.
  injection H as <-. unfold constructed. cbn.
  repeat match goal with
  | E : DensityHeader.float_div_int _ _ = Ok _ |- _ =>
      apply float_div_int_Ok in E
  end.
  match goal with
  | E : DensityHeader.axis_indices _ _ _ = Ok _ |- _ =>
      pose proof (axis_indices_Ok _ _ _ _ E) as (? & ? & ? & ? & ? & ?)
  end.
  unfold index3 in *. repeat split; try done; lia.
Qed.

Lemma unpack_fields_typed (e : Struct.endian) (f : list fmt) (bs : list byte) :
  Forall2 typed f (unpack_fields e f bs).
Proof.
  revert bs. induction f as [|c f IH]; intros bs; cbn; constructor.
  - by destruct c.
  - apply IH.
Qed.

Lemma getitem_Ok {A} (l : list A) (i : Z) :
  - Z.of_nat (length l) ≤ i < Z.of_nat (length l) →
  ∃ x, getitem l i = Ok x.
Proof.
  intros Hi. unfold getitem.
  set (j := if i <? 0 then i + Z.of_nat (length l) else i).
  assert (Hj : 0 ≤ j < Z.of_nat (length l))
    by (unfold j; destruct (Z.ltb_spec i 0); lia).
  destruct (Z.leb_spec 0 j); [|lia].
  destruct (Z.ltb_spec j (Z.of_nat (length l))); [|lia]. cbn.
  destruct (lookup_lt_is_Some_2 l (Z.to_nat j)) as [x ->]; [lia|]. eauto.
Qed.

Lemma calculateOrigin_Ok (rt : Runtime) (self : DensityHeader.t float) :
  (3 ≤ length (DensityHeader.futureUse self))%nat →
  0 ≤ v3_0 (DensityHeader.map2xyz self) ≤ 2 →
  0 ≤ v3_1 (DensityHeader.map2xyz self) ≤ 2 →
  0 ≤ v3_2 (DensityHeader.map2xyz self) ≤ 2 →
  DensityHeader.nintervalX self ≠ 0 →
  DensityHeader.nintervalY self ≠ 0 →
  DensityHeader.nintervalZ self ≠ 0 →
  ∃ o, DensityHeader._calculateOrigin rt self = Ok o.
Proof.
  intros Hlen H0 H1 H2 Hx Hy Hz. unfold DensityHeader._calculateOrigin.
  cbn zeta.
  destruct (getitem_Ok (DensityHeader.futureUse self) (-3)) as [f3 ->]; [lia|].
  destruct (getitem_Ok (DensityHeader.futureUse self) (-2)) as [f2 ->]; [lia|].
  destruct (getitem_Ok (DensityHeader.futureUse self) (-1)) as [f1 ->]; [lia|].
  cbn [mbind result_bind].
  assert (Hi : ∀ n m, m ≠ 0 → ∃ q, DensityHeader.int_div_int n m = Ok q).
  { intros n m Hm. unfold DensityHeader.int_div_int, py_truediv. cbn.
    destruct (Z.eqb_spec m 0); [done|]. cbn. eauto. }
  assert (Hg : ∀ k, 0 ≤ k ≤ 2 →
                 ∃ s, v3_getitem (DensityHeader.crsStart self) k = Ok s).
  { intros k Hk. apply v3_getitem_Ok. unfold index3. lia. }
  destruct (Hg _ H0) as [s0 E0], (Hg _ H1) as [s1 E1], (Hg _ H2) as [s2 E2].
  destruct (Hi s0 _ Hx) as [q0 Q0], (Hi s1 _ Hy) as [q1 Q1],
    (Hi s2 _ Hz) as [q2 Q2].
  destruct (negb (f3 =? 0)%float); cbn [mbind result_bind]; [eauto|].
  destruct (negb (f2 =? 0)%float); cbn [mbind result_bind]; [eauto|].
  destruct (f1 =? 0)%float; [|eauto].
  rewrite E0. cbn [mbind result_bind]. rewrite Q0. cbn [mbind result_bind].
  rewrite E1. cbn [mbind result_bind]. rewrite Q1. cbn [mbind result_bind].
  rewrite E2. cbn [mbind result_bind]. rewrite Q2. cbn [mbind result_bind].
  eauto.
Qed.

Lemma v3_setitem_error {A} (v : vec3 A) (i : Z) (x : A) (e : exn) :
  v3_setitem v i x = Raise e → e = IndexError.
Proof.
  unfold v3_setitem. repeat destruct (_ || _); try done. by intros [= <-].
Qed.

Lemma axis_indices_error (col row sec : Z) (e : exn) :
  DensityHeader.axis_indices col row sec = Raise e → e = IndexError.
Proof.
  unfold DensityHeader.axis_indices.
  destruct (v3_setitem (V3 0 0 0) (col - 1) 0) as [m0|e0] eqn:E0;
    cbn [mbind result_bind];
    [|intros [= <-]; by eapply v3_setitem_error].
  destruct (v3_setitem m0 (row - 1) 1) as [m1|e1] eqn:E1;
    cbn [mbind result_bind];
    [|intros [= <-]; by eapply v3_setitem_error].
  destruct (v3_setitem m1 (sec - 1) 2) as [m2|e2] eqn:E2;
    cbn [mbind result_bind]; [done|].
  intros [= <-]. by eapply v3_setitem_error.
Qed.

Lemma init_outcome (rt : Runtime) (headerTuple : list hval)
    (labels : list byte) (endian : Struct.endian)
    (nx ny nz col row sec : Z) :
  Forall2 typed DensityHeader.headerFormat headerTuple →
  get_int headerTuple 7 = Ok nx →
  get_int headerTuple 8 = Ok ny →
  get_int headerTuple 9 = Ok nz →
  get_int headerTuple 16 = Ok col →
  get_int headerTuple 17 = Ok row →
  get_int headerTuple 18 = Ok sec →
  let call := DensityHeader.__init__ rt headerTuple labels endian in
  (nx = 0 ∨ ny = 0 ∨ nz = 0 → call = Raise ZeroDivisionError)
  ∧ (nx ≠ 0 → ny ≠ 0 → nz ≠ 0 →
     (index3 (col - 1) ∧ index3 (row - 1) ∧ index3 (sec - 1) →
      ∃ h, call = Ok h)
     ∧ (¬ (index3 (col - 1) ∧ index3 (row - 1) ∧ index3 (sec - 1)) →
        call = Raise IndexError)).
Proof.
  intros Ht. unfold DensityHeader.headerFormat in Ht.
  cbn [replicate app] in Ht. tuple_skeleton Ht.
  intros Hnx Hny Hnz Hcol Hrow Hsec.
  vm_compute in Hnx, Hny, Hnz, Hcol, Hrow, Hsec.
  injection Hnx as <-. injection Hny as <-. injection Hnz as <-.
  injection Hcol as <-. injection Hrow as <-. injection Hsec as <-.
  intros call. subst call. unfold DensityHeader.__init__. read_tuple.
  cbn [mbind result_bind]. split.
  - intros Hz. destruct (Z.eq_dec z6 0) as [->|H6]; [reflexivity|].
    rewrite (float_div_int_nonzero x z6) by done. cbn [mbind result_bind].
    destruct (Z.eq_dec z7 0) as [->|H7]; [reflexivity|].
    rewrite (float_div_int_nonzero x0 z7) by done. cbn [mbind result_bind].
    destruct (Z.eq_dec z8 0) as [->|H8]; [reflexivity|]. lia.
  - intros H6 H7 H8.
    rewrite (float_div_int_nonzero x z6) by done. cbn [mbind result_bind].
    rewrite (float_div_int_nonzero x0 z7) by done. cbn [mbind result_bind].
    rewrite (float_div_int_nonzero x1 z8) by done. cbn [mbind result_bind].
    split.
    + intros (Hc & Hr & Hs).
      destruct (axis_indices_index _ _ _ Hc Hr Hs) as [m Hm]. rewrite Hm.
      cbn [mbind result_bind].
      apply axis_indices_Ok in Hm as (_ & _ & _ & ? & ? & ?).
      repeat (rewrite float_div_int_nonzero by done;
              cbn [mbind result_bind]).
      match goal with
      | |- context [DensityHeader._calculateOrigin rt ?s] =>
          destruct (calculateOrigin_Ok rt s) as [o ->]; cbn; try done; try lia
      end.
      cbn [mbind result_bind]. eauto.
    + intros Hn.
      destruct (DensityHeader.axis_indices z9 z10 z11) as [m|e] eqn:Hm.
      * apply axis_indices_Ok in Hm as (? & ? & ? & _). tauto.
      * apply axis_indices_error in Hm as ->. reflexivity.
Qed.

Lemma fromFileHeader_init (rt : Runtime) (fileHeader : list byte) :
  (224 ≤ length fileHeader)%nat →
  DensityHeader.fromFileHeader rt fileHeader
  = DensityHeader.__init__ rt
      (unpack_fields (DensityHeader.detect_endian fileHeader)
         DensityHeader.headerFormat (take 224 fileHeader))
      (DensityHeader.header_labels fileHeader)
      (DensityHeader.detect_endian fileHeader).
Proof.
  intros Hlen. unfold DensityHeader.fromFileHeader, unpack.
  rewrite slice_0_224, calcsize_headerFormat.
  replace (Z.to_nat (Z.min 224 (Z.of_nat (length fileHeader))))
    with 224%nat by lia.
  destruct (decide _) as [_|Hne]; [reflexivity|].
  rewrite length_take in Hne. lia.
Qed.

Lemma fromFileHeader_Ok_length (rt : Runtime) (fileHeader : list byte)
    (h : DensityHeader.t float) :
  DensityHeader.fromFileHeader rt fileHeader = Ok h →
  (224 ≤ length fileHeader)%nat.
Proof.
  unfold DensityHeader.fromFileHeader, unpack.
  rewrite slice_0_224, calcsize_headerFormat.
  destruct (decide _) as [Heq|_]; [|done]. intros _.
  rewrite length_take in Heq. lia.
Qed.

(** X10: how the decoding of a header ends, given 224 bytes or more.
    With a zero among the three interval counts it raises
    [ZeroDivisionError], from the division of a cell edge by the count.
    Otherwise, with an axis number outside -2..3 it raises [IndexError],
    from the assignment to [indices]; and with the three axis numbers in
    -2..3 it returns a header object: the numbers need not be 1, 2 and 3
    nor differ from one another. *)
Theorem fromFileHeader_outcome (rt : Runtime) (fileHeader : list byte)
    (nx ny nz col row sec : Z) :
  (224 ≤ length fileHeader)%nat →
  let headerTuple :=
    unpack_fields (DensityHeader.detect_endian fileHeader)
      DensityHeader.headerFormat (take 224 fileHeader) in
  get_int headerTuple 7 = Ok nx →
  get_int headerTuple 8 = Ok ny →
  get_int headerTuple 9 = Ok nz →
  get_int headerTuple 16 = Ok col →
  get_int headerTuple 17 = Ok row →
  get_int headerTuple 18 = Ok sec →
  let call := DensityHeader.fromFileHeader rt fileHeader in
  (nx = 0 ∨ ny = 0 ∨ nz = 0 → call = Raise ZeroDivisionError)
  ∧ (nx ≠ 0 → ny ≠ 0 → nz ≠ 0 →
     (-2 ≤ col ≤ 3 ∧ -2 ≤ row ≤ 3 ∧ -2 ≤ sec ≤ 3 → ∃ h, call = Ok h)
     ∧ (¬ (-2 ≤ col ≤ 3 ∧ -2 ≤ row ≤ 3 ∧ -2 ≤ sec ≤ 3) →
        call = Raise IndexError)).
Proof.
  intros Hlen headerTuple Hnx Hny Hnz Hcol Hrow Hsec call.
  unfold call. rewrite (fromFileHeader_init rt fileHeader Hlen).
  fold headerTuple.
  destruct (init_outcome rt headerTuple
              (DensityHeader.header_labels fileHeader)
              (DensityHeader.detect_endian fileHeader)
              nx ny nz col row sec) as [Hzero Hrest]; try done.
  { apply unpack_fields_typed. }
  split; [exact Hzero|]. intros Hx Hy Hz.
  destruct (Hrest Hx Hy Hz) as [Hok Hraise]. unfold index3 in *. split.
  - intros (? & ? & ?). apply Hok. lia.
  - intros Hn. apply Hraise. lia.
Qed.

(** A header of 1024 bytes whose axis numbers are 5, 2 and 3: the
    interval counts are 4, 4 and 4, and the decoding raises
    [IndexError]. *)
Lemma fromFileHeader_outcome_witness :
  let fileHeader :=
    Examples.header_bytes (V3 2 2 2) (V3 4 4 4)
      (V3 Examples.f32_1 Examples.f32_1 Examples.f32_1) (V3 5 2 3) 0 in
  length fileHeader = 1024%nat
  ∧ ∀ rt, DensityHeader.fromFileHeader rt fileHeader = Raise IndexError.
Proof.
  intros fileHeader.
  assert (Hlen : length fileHeader = 1024%nat) by (vm_compute; reflexivity).
  split; [exact Hlen|]. intros rt.
  refine (proj2 (proj2 (fromFileHeader_outcome rt fileHeader 4 4 4 5 2 3
                          _ _ _ _ _ _ _) _ _ _) _);
    try (vm_compute; reflexivity); try lia.
Defined.

(** X11: what holds of every header object decoded from a file.  At
    least 224 bytes were supplied; the byte order recorded is the one the
    test on the mode word chose; the labels hold no space; the interval
    counts are not zero and [xyzInterval] lists them; [map2crs] is the
    axis triple less one, each of its elements an index that a list of
    three elements accepts; [map2xyz] is the list of the three
    assignments, each of its elements 0, 1 or 2; and [mapSize] is four
    times the number of grid points. *)
Theorem fromFileHeader_constructed (rt : Runtime) (fileHeader : list byte)
    (h : DensityHeader.t float) :
  DensityHeader.fromFileHeader rt fileHeader = Ok h →
  (224 ≤ length fileHeader)%nat
  ∧ DensityHeader.endian h = DensityHeader.detect_endian fileHeader
  ∧ ¬ In " "%byte (DensityHeader.labels h)
  ∧ constructed h
  ∧ DensityHeader.map2crs h
    = V3 (DensityHeader.col2xyz h - 1) (DensityHeader.row2xyz h - 1)
         (DensityHeader.sec2xyz h - 1)
  ∧ DensityHeader.axis_indices (DensityHeader.col2xyz h)
      (DensityHeader.row2xyz h) (DensityHeader.sec2xyz h)
    = Ok (DensityHeader.map2xyz h).
Proof.
  intros H. pose proof (fromFileHeader_Ok_length rt fileHeader h H) as Hlen.
  rewrite (fromFileHeader_init rt fileHeader Hlen) in H.
  apply init_constructed in H as (Hc & Hcrs & Hxyz & He & Hl & _).
  split; [exact Hlen|]. split; [exact He|].
  split; [|split; [exact Hc|split; [exact Hcrs|exact Hxyz]]].
  rewrite Hl. unfold DensityHeader.header_labels.
  rewrite filter_In. intros [_ Hb]. done.
Qed.

(** The hypothesis holds for the header of the 16 x 16 x 16 map. *)
Lemma fromFileHeader_constructed_witness :
  let fileHeader :=
    Examples.header_bytes (V3 16 16 16) (V3 15 15 15)
      (V3 Examples.f32_10 Examples.f32_10 Examples.f32_10)
      (V3 1 2 3) Examples.f32_1 in
  length fileHeader = 1024%nat
  ∧ ∀ rt, ∃ h,
      DensityHeader.fromFileHeader rt fileHeader = Ok h
      ∧ constructed h
      ∧ DensityHeader.map2crs h = V3 0 1 2.
Proof.
  intros fileHeader. split; [vm_compute; reflexivity|]. intros rt.
  assert (Hok : is_ok (DensityHeader.fromFileHeader rt fileHeader) = true)
    by (vm_compute; reflexivity).
  assert (Hax : axis_triple <$> DensityHeader.fromFileHeader rt fileHeader
                = Ok (1, 2, 3)) by (vm_compute; reflexivity).
  destruct (DensityHeader.fromFileHeader rt fileHeader) as [h|e] eqn:E;
    [|discriminate Hok].
  exists h. split; [reflexivity|].
  destruct (fromFileHeader_constructed rt fileHeader h E)
    as (_ & _ & _ & Hc & Hcrs & _).
  split; [exact Hc|]. rewrite Hcrs.
  injection Hax as -> -> ->. reflexivity.
Defined.

(** ** [parse] *)

(** The four assertions of the size check cannot hold together: the
    third asks for more data than the header announces and the fourth for
    less. *)
Lemma size_asserts_raise (len symmetryBytes mapSize : Z) :
  (_ ← py_assert ((symmetryBytes =? Z.lor 0 len)
                  && negb (Z.lor 0 len =? mapSize));
   _ ← py_assert ((mapSize =? Z.lor 0 len)
                  && negb (Z.lor 0 len =? symmetryBytes));
   _ ← py_assert (symmetryBytes + mapSize <? len);
   py_assert (len <? symmetryBytes + mapSize))
  = Raise AssertionError.
Proof.
  destruct ((symmetryBytes =? Z.lor 0 len) && _); [|reflexivity].
  destruct ((mapSize =? Z.lor 0 len) && _); [|reflexivity].
  cbn [py_assert mbind result_bind].
  destruct (Z.ltb_spec (symmetryBytes + mapSize) len); [|reflexivity].
  destruct (Z.ltb_spec len (symmetryBytes + mapSize)); [lia|reflexivity].
Qed.

(** X12: [parse] accepts no file whose data section has another length
    than the header announces.  When the bytes after the first 1024 are
    not [symmetryBytes + mapSize] in number, the call raises
    [AssertionError], whichever way the lengths differ. *)
Theorem parse_size_mismatch (rt : Runtime) (handle : list byte)
    (header : DensityHeader.t float) :
  DensityHeader.fromFileHeader rt (take 1024 handle) = Ok header →
  Z.of_nat (length (drop 1024 handle))
  ≠ DensityHeader.symmetryBytes header + DensityHeader.mapSize header →
  parse rt handle = Raise AssertionError.
Proof.
  intros Hh Hlen. unfold parse. rewrite Hh. cbn [mbind result_bind].
  destruct (Z.eqb_spec (Z.of_nat (length (drop 1024 handle)))
              (DensityHeader.symmetryBytes header
               + DensityHeader.mapSize header)) as [|_]; [done|].
  cbn [negb]. by rewrite size_asserts_raise.
Qed.

(** A header announcing 2 x 2 x 2 densities, followed by four bytes. *)
Lemma parse_size_mismatch_witness :
  let handle :=
    Examples.header_bytes (V3 2 2 2) (V3 4 4 4)
      (V3 Examples.f32_1 Examples.f32_1 Examples.f32_1) (V3 1 2 3) 0
    ++ replicate 4 x00 in
  length (drop 1024 handle) = 4%nat
  ∧ ∀ rt, parse rt handle = Raise AssertionError.
Proof.
  intros handle. split; [vm_compute; reflexivity|]. intros rt.
  assert (Hs : (λ h, DensityHeader.symmetryBytes h + DensityHeader.mapSize h)
                 <$> DensityHeader.fromFileHeader rt (take 1024 handle)
               = Ok 32) by (vm_compute; reflexivity).
  destruct (DensityHeader.fromFileHeader rt (take 1024 handle))
    as [h|e] eqn:E; [|discriminate Hs].
  injection Hs as Hs.
  apply (parse_size_mismatch rt handle h E). rewrite Hs.
  vm_compute. discriminate.
Defined.
(** X13: [parse] accepts no file whose three cell edges are all zero.
    When the lengths agree and [xlength], [ylength] and [zlength] all
    compare equal to 0.0, the call raises [AssertionError]; one edge
    that is not zero is enough to pass. *)
Theorem parse_zero_cell (rt : Runtime) (handle : list byte)
    (header : DensityHeader.t float) :
  DensityHeader.fromFileHeader rt (take 1024 handle) = Ok header →
  (DensityHeader.xlength header =? 0)%float = true →
  (DensityHeader.ylength header =? 0)%float = true →
  (DensityHeader.zlength header =? 0)%float = true →
  parse rt handle = Raise AssertionError.
Proof.
  intros Hh Hx Hy Hz. unfold parse. rewrite Hh. cbn [mbind result_bind].
  rewrite Hx, Hy, Hz. cbn [negb orb py_assert].
  destruct (Z.eqb_spec (Z.of_nat (length (drop 1024 handle)))
              (DensityHeader.symmetryBytes header
               + DensityHeader.mapSize header)) as [_|_]; cbn [negb].
  - reflexivity.
  - by rewrite size_asserts_raise.
Qed.

(** A map of one voxel whose cell has no extent. *)
Lemma parse_zero_cell_witness :
  let handle :=
    Examples.header_bytes (V3 1 1 1) (V3 1 1 1) (V3 0 0 0) (V3 1 2 3) 0
    ++ replicate 4 x00 in
  length handle = 1028%nat
  ∧ ∀ rt, parse rt handle = Raise AssertionError.
Proof.
  intros handle. split; [vm_compute; reflexivity|]. intros rt.
  assert (Hs : (λ h, ((DensityHeader.xlength h =? 0)%float,
                      (DensityHeader.ylength h =? 0)%float,
                      (DensityHeader.zlength h =? 0)%float))
                 <$> DensityHeader.fromFileHeader rt (take 1024 handle)
               = Ok (true, true, true)) by (vm_compute; reflexivity).
  destruct (DensityHeader.fromFileHeader rt (take 1024 handle))
    as [h|e] eqn:E; [|discriminate Hs].
  injection Hs as Hx Hy Hz.
  exact (parse_zero_cell rt handle h E Hx Hy Hz).
Defined.

Lemma np_reshape_Ok (size : Z) (d s : vec3 Z) :
  0 ≤ size →
  DensityMatrix.np_reshape size d = Ok s →
  0 ≤ v3_0 s ∧ 0 ≤ v3_1 s ∧ 0 ≤ v3_2 s
  ∧ v3_0 s * v3_1 s * v3_2 s = size
  ∧ (v3_0 d = v3_0 s ∨ v3_0 d = -1)
  ∧ (v3_1 d = v3_1 s ∨ v3_1 d = -1)
  ∧ (v3_2 d = v3_2 s ∨ v3_2 d = -1).
Proof.
  intros Hsize. destruct d as [d0 d1 d2]. unfold DensityMatrix.np_reshape.
  assert (Hinf : ∀ rest k,
            (if (0 <? rest) && (size mod rest =? 0) then Some (size / rest)
             else None) = Some k →
            0 ≤ k ∧ k * rest = size).
  { intros rest k. destruct (Z.ltb_spec 0 rest); [|done].
    destruct (Z.eqb_spec (size mod rest) 0) as [Hm|]; [|done].
    cbn. intros [= <-]. split; [apply Z.div_pos; lia|].
    apply Z.div_exact in Hm; lia. }
  destruct (Z.leb_spec 0 d0), (Z.leb_spec 0 d1), (Z.leb_spec 0 d2);
    cbn [andb].
  - destruct (Z.eqb_spec (d0 * d1 * d2) size); [|done].
    intros [= <-]. cbn. lia.
  - destruct (Z.eqb_spec d0 (-1)); [lia|]. cbn [andb].
    destruct (Z.eqb_spec d1 (-1)); [lia|]. cbn [andb].
    destruct (Z.eqb_spec d2 (-1)) as [->|]; [|done].
    match goal with
    | |- context [match ?x with Some _ => _ | None => _ end] =>
        destruct x as [k|] eqn:Ek; [|done]
    end.
    intros [= <-]. apply Hinf in Ek. cbn. lia.
  - destruct (Z.eqb_spec d0 (-1)); [lia|]. cbn [andb].
    destruct (Z.eqb_spec d1 (-1)) as [->|]; [|done].
    match goal with
    | |- context [match ?x with Some _ => _ | None => _ end] =>
        destruct x as [k|] eqn:Ek; [|done]
    end.
    intros [= <-]. apply Hinf in Ek. cbn. lia.
  - destruct (Z.eqb_spec d0 (-1)); [lia|]. cbn [andb].
    destruct (Z.eqb_spec d1 (-1)); done.
  - destruct (Z.eqb_spec d0 (-1)) as [->|]; [|done]. cbn [andb].
    match goal with
    | |- context [match ?x with Some _ => _ | None => _ end] =>
        destruct x as [k|] eqn:Ek; [|done]
    end.
    intros [= <-]. apply Hinf in Ek. cbn. lia.
  - destruct (Z.eqb_spec d0 (-1)); done.
  - destruct (Z.eqb_spec d0 (-1)); done.
  - destruct (Z.eqb_spec d0 (-1)); done.
Qed.

Lemma np_reshape_mismatch (size : Z) (d : vec3 Z) :
  0 ≤ v3_0 d → 0 ≤ v3_1 d → 0 ≤ v3_2 d →
  v3_0 d * v3_1 d * v3_2 d ≠ size →
  DensityMatrix.np_reshape size d = Raise ValueError.
Proof.
  destruct d as [d0 d1 d2]. cbn [v3_0 v3_1 v3_2]. intros H0 H1 H2 Hne.
  unfold DensityMatrix.np_reshape.
  destruct (Z.leb_spec 0 d0); [|lia]. destruct (Z.leb_spec 0 d1); [|lia].
  destruct (Z.leb_spec 0 d2); [|lia]. cbn [andb].
  destruct (Z.eqb_spec (d0 * d1 * d2) size); done.
Qed.

Lemma calcsize_replicate_Ff (n : nat) :
  calcsize (replicate n Ff) = (4 * n)%nat.
Proof.
  induction n as [|n IH]; [done|].
  cbn [replicate calcsize foldr fmt_size]. fold (calcsize (replicate n Ff)).
  rewrite IH. lia.
Qed.

Lemma unpack_floats_Ok (e : Struct.endian) (n : nat) (bs : list byte)
    (l : list float) :
  unpack_floats e n bs = Ok l → length l = n ∧ length bs = (4 * n)%nat.
Proof.
  unfold unpack_floats, unpack. rewrite calcsize_replicate_Ff.
  destruct (decide _) as [Hl|]; [|done]. cbn [mbind result_bind].
  intros Hm%mapM_Ok_length.
  by rewrite Hm, unpack_fields_length, length_replicate.
Qed.

Lemma constructed_set_2xyz (h : DensityHeader.t float) (col row sec : Z) :
  constructed h → constructed (DensityHeader.set_2xyz h col row sec).
Proof. unfold constructed. cbn. done. Qed.

(** X14: what [parse] returns, when it returns.  The first 1024 bytes
    decoded to a header; the bytes after them are [symmetryBytes +
    mapSize] in number; the header of the result is the decoded one, but
    for the axis triple, which is (1, 2, 3) when the column number read
    was 0, while [map2xyz] and [map2crs] stay as the constructor computed
    them from the numbers read; the interval counts are those of the file
    and none is zero; the densities are one for every four bytes after
    the symmetry records; and the shape of the array has no negative
    extent and as many cells as there are densities. *)
Theorem parse_returns (rt : Runtime) (handle : list byte)
    (dm : DensityMatrix.t) :
  parse rt handle = Ok dm →
  ∃ h,
    DensityHeader.fromFileHeader rt (take 1024 handle) = Ok h
    ∧ Z.of_nat (length (drop 1024 handle))
      = DensityHeader.symmetryBytes h + DensityHeader.mapSize h
    ∧ DensityMatrix.header dm
      = (if DensityHeader.col2xyz h =? 0
         then DensityHeader.set_2xyz h 1 2 3 else h)
    ∧ DensityMatrix.origin dm = DensityHeader.origin h
    ∧ constructed (DensityMatrix.header dm)
    ∧ DensityHeader.map2crs (DensityMatrix.header dm)
      = V3 (DensityHeader.col2xyz h - 1) (DensityHeader.row2xyz h - 1)
           (DensityHeader.sec2xyz h - 1)
    ∧ (length (DensityMatrix.densityArray dm) * 4)%nat
      = length (slice (drop 1024 handle) (DensityHeader.symmetryBytes h)
                  (Z.of_nat (length (drop 1024 handle))))
    ∧ 0 ≤ v3_0 (DensityMatrix.shape dm)
    ∧ 0 ≤ v3_1 (DensityMatrix.shape dm)
    ∧ 0 ≤ v3_2 (DensityMatrix.shape dm)
    ∧ v3_0 (DensityMatrix.shape dm) * v3_1 (DensityMatrix.shape dm)
      * v3_2 (DensityMatrix.shape dm)
      = Z.of_nat (length (DensityMatrix.densityArray dm)).
Proof.
  intros H. unfold parse in H.
  destruct (DensityHeader.fromFileHeader rt (take 1024 handle)) as [h|]
    eqn:Hh; [|done].
  exists h. split; [reflexivity|].
  cbn [mbind result_bind] in H.
  destruct (Z.eqb_spec (Z.of_nat (length (drop 1024 handle)))
              (DensityHeader.symmetryBytes h + DensityHeader.mapSize h))
    as [Hlen|_]; cbn [negb] in H;
    [|by rewrite size_asserts_raise in H].
  split; [exact Hlen|].
  cbn [mbind result_bind] in H.
  destruct (negb _ || _ || _); cbn [py_assert mbind result_bind] in H;
    [|done].
  rewrite ?interval_test_never_holds, !axis_test_is_col2xyz in H.
  destruct (unpack_floats _ _ _) as [densities|] eqn:Hd; [|done].
  cbn [mbind result_bind] in H. unfold DensityMatrix.__init__ in H.
  destruct (DensityMatrix.np_reshape _ _) as [shape|] eqn:Hs; [|done].
  cbn [mbind result_bind] in H. injection H as <-.
  cbn [DensityMatrix.header DensityMatrix.origin DensityMatrix.densityArray
       DensityMatrix.shape].
  apply unpack_floats_Ok in Hd as [Hn Hb].
  apply np_reshape_Ok in Hs as (? & ? & ? & ? & _); [|lia].
  pose proof (fromFileHeader_Ok_length rt _ h Hh) as Hl.
  rewrite (fromFileHeader_init rt _ Hl) in Hh.
  apply init_constructed in Hh as (Hc & Hcrs & _).
  split; [reflexivity|].
  split; [by destruct (DensityHeader.col2xyz h =? 0)|].
  split; [destruct (DensityHeader.col2xyz h =? 0);
          [by apply constructed_set_2xyz|done]|].
  split; [by destruct (DensityHeader.col2xyz h =? 0)|].
  split; [rewrite Hb; lia|]. done.
Qed.

(** The map of one voxel whose axis triple is (0, 1, 2) is parsed; the
    header of the result holds the triple (1, 2, 3) beside the
    [map2crs] of the triple read, [-1, 0, 1]. *)
Lemma parse_returns_witness :
  length file_axes_012 = 1028%nat
  ∧ ∀ rt, ∃ dm h,
      parse rt file_axes_012 = Ok dm
      ∧ DensityHeader.fromFileHeader rt (take 1024 file_axes_012) = Ok h
      ∧ DensityMatrix.header dm = DensityHeader.set_2xyz h 1 2 3
      ∧ DensityHeader.map2crs (DensityMatrix.header dm) = V3 (-1) 0 1.
Proof.
  split; [vm_compute; reflexivity|]. intros rt.
  assert (Hok : is_ok (parse rt file_axes_012) = true)
    by (vm_compute; reflexivity).
  assert (Hax : axis_triple
                  <$> DensityHeader.fromFileHeader rt (take 1024 file_axes_012)
                = Ok (0, 1, 2)) by (vm_compute; reflexivity).
  destruct (parse rt file_axes_012) as [dm|e] eqn:E; [|discriminate Hok].
  destruct (parse_returns rt file_axes_012 dm E)
    as (h & Hh & _ & Hhd & _ & _ & Hcrs & _).
  exists dm, h. split; [reflexivity|]. split; [exact Hh|].
  rewrite Hh in Hax. injection Hax as Hc Hr Hs.
  rewrite Hcrs, Hhd, Hc, Hr, Hs. split; reflexivity.
Defined.

(** ** Lookups on a constructed header, and the array *)

Lemma crsInterval_constructed (self : DensityMatrix.t) (get : vec3 Z → Z) :
  constructed (DensityMatrix.header self) →
  (get = v3_0 ∨ get = v3_1 ∨ get = v3_2) →
  ∃ i, crsInterval self get = Ok i ∧ i ≠ 0.
Proof.
  intros (Hxyz & Hx & Hy & Hz & H0 & H1 & H2 & _) Hget.
  assert (Hi : index3 (get (DensityHeader.map2crs (DensityMatrix.header self))))
    by (by destruct Hget as [->|[->| ->]]).
  unfold crsInterval. rewrite Hxyz. unfold index3, v3_getitem in *.
  set (k := get _) in *.
  assert (k = -3 ∨ k = -2 ∨ k = -1 ∨ k = 0 ∨ k = 1 ∨ k = 2)
    as [->|[->|[->|[->|[->| ->]]]]] by lia; cbn; eauto.
Qed.

Lemma validCRS_component_nonzero (i n x : Z) :
  i ≠ 0 → ∃ b x', validCRS_component (Ok i) n x = (Ok b, x').
Proof.
  intros Hi. unfold validCRS_component.
  destruct (Z.eqb_spec i 0); [done|]. rewrite andb_false_r. eauto.
Qed.

Lemma density_at_error (self : DensityMatrix.t) (i0 i1 i2 : Z) (e : exn) :
  DensityMatrix.density_at self i0 i1 i2 = Raise e → e = IndexError.
Proof.
  unfold DensityMatrix.density_at, DensityMatrix.np_index.
  destruct (DensityMatrix.shape self) as [s0 s1 s2].
  repeat (destruct (_ && _); cbn [mbind result_bind];
          try (by intros [= <-])).
  all: destruct (_ !! _); by intros [= <-].
Qed.



(** X16: the density object is built exactly when the number of
    densities is the number of grid points.  For a header without a
    negative extent, [DensityMatrix(header, origin, density)] returns
    the object whose array has the shape
    [(ncrs[2], ncrs[1], ncrs[0])] when [len(density)] is
    [ncrs[0] * ncrs[1] * ncrs[2]], and raises the [ValueError] of
    [reshape] otherwise. *)
Theorem DensityMatrix_init_size (header : DensityHeader.t float)
    (origin : vec3 (pynum float)) (density : list float) :
  let n := DensityHeader.ncrs header in
  0 ≤ v3_0 n → 0 ≤ v3_1 n → 0 ≤ v3_2 n →
  DensityMatrix.__init__ header origin density
  = if decide (v3_0 n * v3_1 n * v3_2 n = Z.of_nat (length density))
    then Ok {| DensityMatrix.header := header;
               DensityMatrix.origin := origin;
               DensityMatrix.densityArray := density;
               DensityMatrix.shape := V3 (v3_2 n) (v3_1 n) (v3_0 n) |}
    else Raise ValueError.
Proof.
  intros n H0 H1 H2. unfold DensityMatrix.__init__, DensityMatrix.np_reshape.
  fold n.
  destruct (Z.leb_spec 0 (v3_2 n)); [|lia].
  destruct (Z.leb_spec 0 (v3_1 n)); [|lia].
  destruct (Z.leb_spec 0 (v3_0 n)); [|lia]. cbn [andb].
  destruct (decide _) as [Heq|Hne];
    destruct (Z.eqb_spec (v3_2 n * v3_1 n * v3_0 n)
                (Z.of_nat (length density))); try lia; reflexivity.
Qed.

(** Seven densities do not fill the 2 x 2 x 2 grid. *)
Lemma DensityMatrix_init_size_witness :
  DensityMatrix.__init__
    (Examples.grid_header (V3 2 2 2) (V3 4 4 4) (V3 4 4 4)%float
       (V3 0 0 0)%float)
    (V3 (PyFloat 0) (PyFloat 0) (PyFloat 0))%float
    [1; 2; 3; 4; 5; 6; 7]%float
  = Raise ValueError.
Proof.
  apply (DensityMatrix_init_size
           (Examples.grid_header (V3 2 2 2) (V3 4 4 4) (V3 4 4 4)%float
              (V3 0 0 0)%float)
           (V3 (PyFloat 0) (PyFloat 0) (PyFloat 0))%float
           [1; 2; 3; 4; 5; 6; 7]%float); cbn; lia.
Defined.
(** ** Byte order and axis order *)

Lemma slice_12_16 (pre w post : list byte) :
  length pre = 12%nat → length w = 4%nat →
  slice (pre ++ w ++ post) 12 16 = w.
Proof.
  intros Hp Hw. unfold slice. cbv zeta beta.
  assert (Hn : 16 ≤ Z.of_nat (length (pre ++ w ++ post)))
    by (rewrite !length_app; lia).
  change (12 <? 0) with false. change (16 <? 0) with false. cbv iota.
  rewrite (Z.min_l 12), (Z.min_l 16) by lia.
  change (Z.to_nat (16 - 12)) with 4%nat.
  change (Z.to_nat 12) with 12%nat.
  rewrite <- Hp, drop_app_length, <- Hw. apply take_app_length.
Qed.

(** X17: the test for the byte order reads the mode word as a
    little-endian number and takes the file for little-endian when that
    number is in 0..6.  A little-endian header of mode 0 to 6 is
    recognised; a big-endian header of mode 1 to 6 is recognised as well,
    its mode word being at least 2^24 when read the other way; a
    big-endian header of mode 0 has four zero bytes there and is taken
    for little-endian. *)
Theorem detect_endian_mode (pre post : list byte) (mode : Z) :
  length pre = 12%nat → 0 ≤ mode ≤ 6 →
  DensityHeader.detect_endian (pre ++ Examples.le32 mode ++ post) = Little
  ∧ DensityHeader.detect_endian (pre ++ be32 mode ++ post)
    = (if mode =? 0 then Little else Big)
  ∧ int32 (word Little (Examples.le32 mode)) = mode
  ∧ int32 (word Big (be32 mode)) = mode.
Proof.
  intros Hp Hm. unfold DensityHeader.detect_endian.
  rewrite !slice_12_16 by done.
  assert (mode = 0 ∨ mode = 1 ∨ mode = 2 ∨ mode = 3 ∨ mode = 4
          ∨ mode = 5 ∨ mode = 6) as [->|[->|[->|[->|[->|[->| ->]]]]]] by lia;
    repeat split; vm_compute; reflexivity.
Qed.

(** A header that starts with twelve zero bytes, of mode 2. *)
Lemma detect_endian_mode_witness :
  DensityHeader.detect_endian (replicate 12 x00 ++ Examples.le32 2 ++ [])
  = Little
  ∧ DensityHeader.detect_endian (replicate 12 x00 ++ be32 2 ++ []) = Big
  ∧ int32 (word Little (Examples.le32 2)) = 2
  ∧ int32 (word Big (be32 2)) = 2.
Proof.
  apply (detect_endian_mode (replicate 12 x00) [] 2); [reflexivity|lia].
Defined.

(** X18: for an axis triple that is a permutation of (1, 2, 3), the two
    index lists of the header are inverse to each other:
    [map2xyz[map2crs[k]]] and [map2crs[map2xyz[k]]] are [k] for [k] in
    0, 1 and 2. *)
Theorem axis_indices_inverse (col row sec k : Z) :
  [col; row; sec] ≡ₚ [1; 2; 3] → 0 ≤ k ≤ 2 →
  ∃ map2xyz,
    DensityHeader.axis_indices col row sec = Ok map2xyz
    ∧ let map2crs := V3 (col - 1) (row - 1) (sec - 1) in
      (i ← v3_getitem map2crs k; v3_getitem map2xyz i) = Ok k
      ∧ (i ← v3_getitem map2xyz k; v3_getitem map2crs i) = Ok k.
Proof.
  intros Hperm Hk. pose proof (axis_triple_cases col row sec Hperm) as Hc.
  rewrite !elem_of_cons in Hc.
  assert (k = 0 ∨ k = 1 ∨ k = 2) as Hk3 by lia.
  destruct Hc as [E|[E|[E|[E|[E|[E|E]]]]]]; [..|by inversion E];
    injection E as -> -> ->; eexists; (split; [reflexivity|]);
    destruct Hk3 as [->|[->| ->]]; split; reflexivity.
Qed.

(** The triple (2, 3, 1): [map2xyz] is [2, 0, 1] and [map2crs] is
    [1, 2, 0]. *)
Lemma axis_indices_inverse_witness :
  ∃ map2xyz,
    DensityHeader.axis_indices 2 3 1 = Ok map2xyz
    ∧ (i ← v3_getitem (V3 1 2 0) 0; v3_getitem map2xyz i) = Ok 0
      ∧ (i ← v3_getitem map2xyz 0; v3_getitem (V3 1 2 0) i) = Ok 0.
Proof.
  apply (axis_indices_inverse 2 3 1 0); [|lia].
  change [2; 3; 1] with ([2; 3] ++ [1]).
  rewrite <- Permutation_cons_append. reflexivity.
Defined.
(** ** Coordinate conversions *)

Lemma axis_zero_spacing (x o : pynum float) (g : float) :
  PrimFloat.is_zero g = true →
  ∃ e, (q ← py_truediv (py_sub x o) (PyFloat g); py_int q) = Raise e.
Proof.
  intros Hg. unfold py_truediv. cbn [py_is_zero f_is_zero F64.arith].
  rewrite Hg. destruct (is_np (py_sub x o) || is_np (PyFloat g)).
  - cbn [mbind result_bind py_int f_trunc F64.arith to_float to_float_with
         f_div].
    by apply trunc_div_zero.
  - cbn. eauto.
Qed.

Lemma xyz2crsCoord_zero_spacing (h : DensityHeader.t float)
    (xyzCoord : vec3 (pynum float)) :
  PrimFloat.is_zero (v3_0 (DensityHeader.gridLength h)) = true
  ∨ PrimFloat.is_zero (v3_1 (DensityHeader.gridLength h)) = true
  ∨ PrimFloat.is_zero (v3_2 (DensityHeader.gridLength h)) = true →
  ∃ e, DensityHeader.xyz2crsCoord h xyzCoord = Raise e.
Proof.
  intros Hz. unfold DensityHeader.xyz2crsCoord, v3_tabulate.
  cbn [v3_getitem Z.eqb Pos.eqb orb mbind result_bind].
  set (r0 := q ← py_truediv (py_sub (v3_0 xyzCoord)
                               (v3_0 (DensityHeader.origin h)))
                    (PyFloat (v3_0 (DensityHeader.gridLength h)));
             py_int q).
  set (r1 := q ← py_truediv (py_sub (v3_1 xyzCoord)
                               (v3_1 (DensityHeader.origin h)))
                    (PyFloat (v3_1 (DensityHeader.gridLength h)));
             py_int q).
  set (r2 := q ← py_truediv (py_sub (v3_2 xyzCoord)
                               (v3_2 (DensityHeader.origin h)))
                    (PyFloat (v3_2 (DensityHeader.gridLength h)));
             py_int q).
  pose proof (axis_zero_spacing (v3_0 xyzCoord) (v3_0 (DensityHeader.origin h))
                (v3_0 (DensityHeader.gridLength h))) as A0.
  pose proof (axis_zero_spacing (v3_1 xyzCoord) (v3_1 (DensityHeader.origin h))
                (v3_1 (DensityHeader.gridLength h))) as A1.
  pose proof (axis_zero_spacing (v3_2 xyzCoord) (v3_2 (DensityHeader.origin h))
                (v3_2 (DensityHeader.gridLength h))) as A2.
  fold r0 in A0. fold r1 in A1. fold r2 in A2. clearbody r0 r1 r2.
  destruct r0 as [a|e0]; [|cbn; eauto]. cbn [mbind result_bind].
  destruct r1 as [b|e1]; [|cbn; eauto]. cbn [mbind result_bind].
  destruct r2 as [c|e2]; [|cbn; eauto].
  exfalso. destruct Hz as [Hz|[Hz|Hz]].
  - by destruct (A0 Hz).
  - by destruct (A1 Hz).
  - by destruct (A2 Hz).
Qed.

(** X19: with a zero among the grid spacings no Cartesian coordinate can
    be looked up.  (The spacing of an axis is zero when its cell edge is;
    [parse] rejects a file only when the three cell edges are all zero.)
    The conversion to crs divides by the spacing: between Python numbers
    the division raises [ZeroDivisionError]; with a numpy origin it gives
    a NaN or an infinity, on which [int] raises.  So
    [getPointDensityFromXyz] and [getSphereCrsFromXyz] raise at every
    point, whatever the radius and the cutoff. *)
Theorem xyz_queries_zero_spacing (self : DensityMatrix.t)
    (xyzCoord : vec3 (pynum float)) (radius densityCutoff : pynum float) :
  let g := DensityHeader.gridLength (DensityMatrix.header self) in
  PrimFloat.is_zero (v3_0 g) = true
  ∨ PrimFloat.is_zero (v3_1 g) = true
  ∨ PrimFloat.is_zero (v3_2 g) = true →
  (∃ e, DensityHeader.xyz2crsCoord (DensityMatrix.header self) xyzCoord
        = Raise e)
  ∧ (∃ e, DensityMatrix.getPointDensityFromXyz self xyzCoord = Raise e)
  ∧ (∃ e, DensityMatrix.getSphereCrsFromXyz self xyzCoord radius
            densityCutoff = Raise e).
Proof.
  intros g Hz.
  destruct (xyz2crsCoord_zero_spacing (DensityMatrix.header self) xyzCoord Hz)
    as [e He].
  unfold DensityMatrix.getPointDensityFromXyz,
    DensityMatrix.getSphereCrsFromXyz.
  rewrite He. cbn [mbind result_bind]. repeat split; by eexists.
Qed.

(** A 2 x 2 x 2 map whose cell has the edge 0 along X. *)
Lemma xyz_queries_zero_spacing_witness :
  let dm := Examples.grid (V3 2 2 2) (V3 4 4 4) (V3 0 4 4)%float
              (V3 0 0 0)%float [1; 2; 3; 4; 5; 6; 7; 8]%float in
  let xyz := (V3 (PyFloat 1) (PyFloat 1) (PyFloat 1))%float in
  (∃ e, DensityHeader.xyz2crsCoord (DensityMatrix.header dm) xyz = Raise e)
  ∧ (∃ e, DensityMatrix.getPointDensityFromXyz dm xyz = Raise e)
  ∧ (∃ e, DensityMatrix.getSphereCrsFromXyz dm xyz (PyInt 1) (PyInt 0)
          = Raise e).
Proof.
  apply (xyz_queries_zero_spacing
           (Examples.grid (V3 2 2 2) (V3 4 4 4) (V3 0 4 4)%float
              (V3 0 0 0)%float [1; 2; 3; 4; 5; 6; 7; 8]%float)
           (V3 (PyFloat 1) (PyFloat 1) (PyFloat 1))%float (PyInt 1) (PyInt 0)).
  left. vm_compute. reflexivity.
Defined.


(** ** Symmetry atoms *)

Lemma insert_sorted_length (x : float) (l : list float) :
  length (DensityAnalysis.insert_sorted x l) = S (length l).
Proof.
  induction l as [|y l IH]; cbn; [done|].
  destruct (x <? y)%float; cbn; [done|]. by rewrite IH.
Qed.

Lemma sorted_length (l : list float) :
  length (DensityAnalysis.sorted l) = length l.
Proof.
  unfold DensityAnalysis.sorted.
  assert (H : ∀ acc, length (foldl (λ acc x,
                                      DensityAnalysis.insert_sorted x acc)
                               acc l)
                     = (length acc + length l)%nat).
  { induction l as [|x l IH]; intros acc; cbn; [lia|].
    rewrite IH, insert_sorted_length. lia. }
  apply H.
Qed.

(** X21: the bounding box never fails on its own.  When the eight
    corners of the grid convert to Cartesian coordinates, the three
    sorted lists hold eight numbers each, their first and last elements
    exist, and [_calcSymmetryAtoms] returns the atoms its loops collect,
    whatever the operators and the atoms. *)
Theorem calcSymmetryAtoms_total (rt : Runtime) (h : DensityAnalysis.header)
    (rotationMats : list DensityAnalysis.rotationMat)
    (atoms : list (vec3 float)) (orginalDensityBox : list (vec3 float)) :
  let n := DensityAnalysis.ncrs h in
  mapM (DensityAnalysis.crs2xyzCoord h)
    (c ← [0; v3_0 n - 1]; r ← [0; v3_1 n - 1]; s ← [0; v3_2 n - 1];
     [V3 c r s])
  = Ok orginalDensityBox →
  ∃ lo hi,
    DensityAnalysis.box_ends h = Ok (lo, hi)
    ∧ DensityAnalysis._calcSymmetryAtoms rt h rotationMats atoms
      = Ok (DensityAnalysis.allCells rt h lo hi rotationMats atoms).
Proof.
  intros n Hbox. unfold DensityAnalysis._calcSymmetryAtoms,
    DensityAnalysis.box_ends, DensityAnalysis.densityBox.
  fold n. rewrite Hbox. cbn [mbind result_bind].
  apply mapM_Ok_length in Hbox. cbn in Hbox.
  assert (Hg : ∀ (f : vec3 float → float) i, -8 ≤ i < 8 →
            ∃ x, getitem (DensityAnalysis.sorted (f <$> orginalDensityBox)) i
                 = Ok x).
  { intros f i Hi. apply getitem_Ok.
    rewrite sorted_length, length_fmap, Hbox. lia. }
  destruct (Hg v3_0 0) as [x0 ->]; [lia|].
  destruct (Hg v3_0 (-1)) as [x1 ->]; [lia|].
  destruct (Hg v3_1 0) as [y0 ->]; [lia|].
  destruct (Hg v3_1 (-1)) as [y1 ->]; [lia|].
  destruct (Hg v3_2 0) as [z0 ->]; [lia|].
  destruct (Hg v3_2 (-1)) as [z1 ->]; [lia|].
  cbn [mbind result_bind]. eauto.
Qed.

(** On the unit grid the eight corners convert. *)
Lemma calcSymmetryAtoms_total_witness :
  DensityAnalysis.box_ends Examples.unit_grid
    = Ok (V3 0 0 0, V3 1 1 1)%float
  ∧ ∀ rt, ∃ lo hi,
      DensityAnalysis.box_ends Examples.unit_grid = Ok (lo, hi)
      ∧ DensityAnalysis._calcSymmetryAtoms rt Examples.unit_grid
          [Examples.identityMat] [(V3 100 100 100)%float]
        = Ok (DensityAnalysis.allCells rt Examples.unit_grid lo hi
                [Examples.identityMat] [(V3 100 100 100)%float]).
Proof.
  split; [vm_compute; reflexivity|]. intros rt.
  eapply (calcSymmetryAtoms_total rt Examples.unit_grid).
  vm_compute. reflexivity.
Defined.

Lemma cellAtoms_source (rt : Runtime) (h : DensityAnalysis.header)
    (lo hi : vec3 float) (atoms : list (vec3 float)) (i j k : Z) (r : nat)
    (rMat : DensityAnalysis.rotationMat) (a : DensityAnalysis.symAtom) :
  a ∈ DensityAnalysis.cellAtoms rt h lo hi atoms i j k r rMat →
  ∃ x, atoms !! DensityAnalysis.atom a = Some x
       ∧ DensityAnalysis.coord a
         = if (i =? 0) && (j =? 0) && (k =? 0) && (Z.of_nat r =? 0) then x
           else DensityAnalysis.transform rt rMat
                  (np_dot rt (DensityAnalysis.orthoMat h)
                     (v3_map F64.of_Z (V3 i j k))) x.
Proof.
  unfold DensityAnalysis.cellAtoms.
  destruct ((i =? 0) && (j =? 0) && (k =? 0) && (Z.of_nat r =? 0)).
  - intros (n & x & -> & Hx)%elem_of_lookup_imap. cbn. eauto.
  - intros [(n & x & -> & Hx)%list_elem_of_In%elem_of_lookup_imap _]
      %list_elem_of_In%filter_In.
    cbn. eauto.
Qed.

(** X22: every atom of the result comes from an atom of the model.  Its
    provenance is a cell offset with components in -1, 0 and 1 and the
    index of an operator of the list; its coordinate is that of the
    model atom it wraps, taken as it is under (0, 0, 0, 0) and otherwise
    rotated, translated and moved by the offset of the cell. *)
Theorem calcSymmetryAtoms_provenance (rt : Runtime)
    (h : DensityAnalysis.header)
    (rotationMats : list DensityAnalysis.rotationMat)
    (atoms : list (vec3 float)) (allAtoms : list DensityAnalysis.symAtom)
    (a : DensityAnalysis.symAtom) :
  DensityAnalysis._calcSymmetryAtoms rt h rotationMats atoms = Ok allAtoms →
  a ∈ allAtoms →
  ∃ i j k r rMat x,
    DensityAnalysis.symmetry a = [i; j; k; Z.of_nat r]
    ∧ -1 ≤ i ≤ 1 ∧ -1 ≤ j ≤ 1 ∧ -1 ≤ k ≤ 1
    ∧ rotationMats !! r = Some rMat
    ∧ atoms !! DensityAnalysis.atom a = Some x
    ∧ DensityAnalysis.coord a
      = if bool_decide (DensityAnalysis.symmetry a = [0; 0; 0; 0]) then x
        else DensityAnalysis.transform rt rMat
               (np_dot rt (DensityAnalysis.orthoMat h)
                  (v3_map F64.of_Z (V3 i j k))) x.
Proof.
  unfold DensityAnalysis._calcSymmetryAtoms.
  destruct (DensityAnalysis.box_ends h) as [[lo hi]|]; [|done].
  cbn [mbind result_bind]. intros [= <-] Ha.
  unfold DensityAnalysis.allCells in Ha.
  apply list_elem_of_bind in Ha as (i & Ha & Hi).
  apply list_elem_of_bind in Ha as (j & Ha & Hj).
  apply list_elem_of_bind in Ha as (k & Ha & Hk).
  apply list_elem_of_bind in Ha as ([r rMat] & Ha & Hr).
  apply elem_of_lookup_imap in Hr as (r' & rMat' & [= -> ->] & Hr).
  destruct (cellAtoms_symmetry _ _ _ _ _ _ _ _ _ _ _ Ha) as [Hsym _].
  destruct (cellAtoms_source _ _ _ _ _ _ _ _ _ _ _ Ha) as (x & Hx & Hc).
  exists i, j, k, r', rMat', x.
  assert (Hin : ∀ z, z ∈ [-1; 0; 1] → -1 ≤ z ≤ 1).
  { intros z. rewrite !elem_of_cons, elem_of_nil. lia. }
  repeat split; try done; try (by apply Hin).
  rewrite Hc, Hsym.
  destruct ((i =? 0) && (j =? 0) && (k =? 0) && (Z.of_nat r' =? 0)) eqn:Hid.
  - rewrite !andb_true_iff, !Z.eqb_eq in Hid.
    destruct Hid as [[[-> ->] ->] ->]. by rewrite bool_decide_eq_true_2.
  - rewrite bool_decide_eq_false_2; [done|]. intros [= -> -> -> Hz].
    rewrite Hz in Hid. done.
Qed.

(** On the unit grid, with the identity as only operator, the atom at
    (100, 100, 100) is in the result under (0, 0, 0, 0). *)
Lemma calcSymmetryAtoms_provenance_witness :
  let far := (V3 100 100 100)%float in
  let a := DensityAnalysis.SymAtom 0 far [0; 0; 0; 0] in
  DensityAnalysis.box_ends Examples.unit_grid
    = Ok (V3 0 0 0, V3 1 1 1)%float
  ∧ ∀ rt : Runtime, ∃ i j k r rMat x,
      DensityAnalysis.symmetry a = [i; j; k; Z.of_nat r]
      ∧ -1 ≤ i ≤ 1 ∧ -1 ≤ j ≤ 1 ∧ -1 ≤ k ≤ 1
      ∧ [Examples.identityMat] !! r = Some rMat
      ∧ [far] !! DensityAnalysis.atom a = Some x
      ∧ DensityAnalysis.coord a
        = if bool_decide (DensityAnalysis.symmetry a = [0; 0; 0; 0]) then x
          else DensityAnalysis.transform rt rMat
                 (np_dot rt (DensityAnalysis.orthoMat Examples.unit_grid)
                    (v3_map F64.of_Z (V3 i j k))) x.
Proof.
  intros far a.
  assert (Hbox : DensityAnalysis.box_ends Examples.unit_grid
                 = Ok (V3 0 0 0, V3 1 1 1)%float)
    by (vm_compute; reflexivity).
  split; [exact Hbox|]. intros rt.
  apply (calcSymmetryAtoms_provenance rt Examples.unit_grid
           [Examples.identityMat] [far]
           (DensityAnalysis.allCells rt Examples.unit_grid
              (V3 0 0 0)%float (V3 1 1 1)%float [Examples.identityMat] [far])).
  - unfold DensityAnalysis._calcSymmetryAtoms. rewrite Hbox. reflexivity.
  - unfold DensityAnalysis.allCells.
    apply list_elem_of_bind. exists 0. split; [|set_solver].
    apply list_elem_of_bind. exists 0. split; [|set_solver].
    apply list_elem_of_bind. exists 0. split; [|set_solver].
    apply list_elem_of_bind. exists (0%nat, Examples.identityMat).
    split; [|set_solver]. cbn. set_solver.
Defined.

Lemma filter_bind {A B} (p : B → bool) (f : A → list B) (l : list A) :
  List.filter p (l ≫= f) = l ≫= (λ x, List.filter p (f x)).
Proof.
  induction l as [|x l IH]; cbn; [done|].
  by rewrite List.filter_app, IH.
Qed.

Lemma bind_all_nil {A B} (f : A → list B) (l : list A) :
  (∀ x, x ∈ l → f x = []) → l ≫= f = [].
Proof.
  induction l as [|x l IH]; intros Hf; cbn; [done|].
  rewrite (Hf x) by (by left). cbn. apply IH. intros y Hy. apply Hf. by right.
Qed.

Lemma filter_all {A} (p : A → bool) (l : list A) :
  (∀ x, x ∈ l → p x = true) → List.filter p l = l.
Proof.
  induction l as [|x l IH]; intros Hp; cbn; [done|].
  rewrite (Hp x) by (by left). f_equal. apply IH. intros y Hy. apply Hp.
  by right.
Qed.

Lemma filter_none {A} (p : A → bool) (l : list A) :
  (∀ x, x ∈ l → p x = false) → List.filter p l = [].
Proof.
  induction l as [|x l IH]; intros Hp; cbn; [done|].
  rewrite (Hp x) by (by left). apply IH. intros y Hy. apply Hp. by right.
Qed.

Lemma cellAtoms_identity (rt : Runtime) (h : DensityAnalysis.header)
    (lo hi : vec3 float) (atoms : list (vec3 float)) (i j k : Z) (r : nat)
    (rMat : DensityAnalysis.rotationMat) :
  List.filter (λ a, bool_decide (DensityAnalysis.symmetry a = [0; 0; 0; 0]))
    (DensityAnalysis.cellAtoms rt h lo hi atoms i j k r rMat)
  = if (i =? 0) && (j =? 0) && (k =? 0) && (Z.of_nat r =? 0)
    then imap (λ n x, DensityAnalysis.SymAtom n x [0; 0; 0; 0]) atoms
    else [].
Proof.
  pose proof (cellAtoms_symmetry rt h lo hi atoms i j k r rMat) as Hs.
  destruct ((i =? 0) && (j =? 0) && (k =? 0) && (Z.of_nat r =? 0)) eqn:Hid.
  - rewrite filter_all.
    + unfold DensityAnalysis.cellAtoms. rewrite Hid.
      rewrite !andb_true_iff, !Z.eqb_eq in Hid.
      by destruct Hid as [[[-> ->] ->] ->].
    + intros a [Ha _]%Hs. apply bool_decide_eq_true_2. rewrite Ha.
      rewrite !andb_true_iff, !Z.eqb_eq in Hid.
      by destruct Hid as [[[-> ->] ->] ->].
  - apply filter_none. intros a [Ha _]%Hs. apply bool_decide_eq_false_2.
    rewrite Ha. intros [= -> -> -> Hz]. rewrite Hz in Hid. done.
Qed.

Lemma bind_three {A B} (f : A → list B) (a b c : A) :
  [a; b; c] ≫= f = f a ++ f b ++ f c.
Proof. cbn. by rewrite app_nil_r. Qed.

Lemma identity_atoms (rt : Runtime) (h : DensityAnalysis.header)
    (lo hi : vec3 float) (rotationMats : list DensityAnalysis.rotationMat)
    (atoms : list (vec3 float)) :
  rotationMats ≠ [] →
  List.filter (λ a, bool_decide (DensityAnalysis.symmetry a = [0; 0; 0; 0]))
    (DensityAnalysis.allCells rt h lo hi rotationMats atoms)
  = imap (λ n x, DensityAnalysis.SymAtom n x [0; 0; 0; 0]) atoms.
Proof.
  intros Hne. destruct rotationMats as [|rMat rest]; [done|].
  unfold DensityAnalysis.allCells.
  set (p := λ a, bool_decide (DensityAnalysis.symmetry a = [0; 0; 0; 0])).
  set (own := imap (λ n x, DensityAnalysis.SymAtom n x [0; 0; 0; 0]) atoms).
  assert (Hr : ∀ i j k,
            List.filter p
              ('(r, rMat) ← imap pair (rMat :: rest);
               DensityAnalysis.cellAtoms rt h lo hi atoms i j k r rMat)
            = if (i =? 0) && (j =? 0) && (k =? 0) then own else []).
  { intros i j k. rewrite filter_bind. cbn [imap]. rewrite bind_cons.
    unfold p at 1. rewrite cellAtoms_identity. cbn [Z.of_nat Z.eqb].
    rewrite andb_true_r, bind_all_nil; [by rewrite app_nil_r|].
    intros [r rMat'] (n & m & [= -> ->] & _)%elem_of_lookup_imap.
    unfold p. rewrite cellAtoms_identity. cbn. by rewrite andb_false_r. }
  assert (Hk : ∀ i j,
            List.filter p
              (k ← [-1; 0; 1];
               '(r, rMat) ← imap pair (rMat :: rest);
               DensityAnalysis.cellAtoms rt h lo hi atoms i j k r rMat)
            = if (i =? 0) && (j =? 0) then own else []).
  { intros i j. rewrite filter_bind, bind_three.
    rewrite !Hr. cbn [Z.eqb]. rewrite !andb_false_r, andb_true_r.
    destruct ((i =? 0) && (j =? 0)); [|done].
    by rewrite app_nil_r. }
  assert (Hj : ∀ i,
            List.filter p
              (j ← [-1; 0; 1]; k ← [-1; 0; 1];
               '(r, rMat) ← imap pair (rMat :: rest);
               DensityAnalysis.cellAtoms rt h lo hi atoms i j k r rMat)
            = if i =? 0 then own else []).
  { intros i. rewrite filter_bind, bind_three.
    rewrite !Hk. cbn [Z.eqb]. rewrite !andb_false_r, andb_true_r.
    destruct (i =? 0); [|done].
    by rewrite app_nil_r. }
  rewrite filter_bind, bind_three. rewrite !Hj.
  cbn [Z.eqb app]. by rewrite app_nil_r.
Qed.

(** X23: the atoms of the model are in the result once each, and they
    are what [symmetryOnlyAtoms] leaves out.  With an empty list of
    operators the loops never run, and the result is empty: not even the
    atoms of the model are in it.  Otherwise the atoms that carry the
    provenance (0, 0, 0, 0) are the atoms of the model, in their order
    and with their own coordinates, and [symmetryOnlyAtoms] holds all the
    others. *)
Theorem calcSymmetryAtoms_own_atoms (rt : Runtime)
    (h : DensityAnalysis.header)
    (rotationMats : list DensityAnalysis.rotationMat)
    (atoms : list (vec3 float)) (allAtoms : list DensityAnalysis.symAtom) :
  DensityAnalysis._calcSymmetryAtoms rt h rotationMats atoms = Ok allAtoms →
  (rotationMats = [] → allAtoms = [])
  ∧ (rotationMats ≠ [] →
     List.filter
       (λ a, bool_decide (DensityAnalysis.symmetry a = [0; 0; 0; 0]))
       allAtoms
     = imap (λ n x, DensityAnalysis.SymAtom n x [0; 0; 0; 0]) atoms
     ∧ (length (DensityAnalysis.symmetryOnlyAtoms allAtoms) + length atoms
        = length allAtoms)%nat).
Proof.
  unfold DensityAnalysis._calcSymmetryAtoms.
  destruct (DensityAnalysis.box_ends h) as [[lo hi]|]; [|done].
  cbn [mbind result_bind]. intros [= <-]. split.
  - intros ->. reflexivity.
  - intros Hne.
    pose proof (identity_atoms rt h lo hi rotationMats atoms Hne) as Hown.
    split; [exact Hown|].
    pose proof (List.filter_length
                  (λ a, bool_decide
                          (DensityAnalysis.symmetry a = [0; 0; 0; 0]))
                  (DensityAnalysis.allCells rt h lo hi rotationMats atoms))
      as Hlen.
    rewrite Hown, length_imap in Hlen.
    unfold DensityAnalysis.symmetryOnlyAtoms. lia.
Qed.

(** On the unit grid, with the identity as only operator and one atom:
    all atoms of the result but one are symmetry atoms. *)
Lemma calcSymmetryAtoms_own_atoms_witness :
  DensityAnalysis.box_ends Examples.unit_grid
    = Ok (V3 0 0 0, V3 1 1 1)%float
  ∧ ∀ rt : Runtime,
      let allAtoms :=
        DensityAnalysis.allCells rt Examples.unit_grid
          (V3 0 0 0)%float (V3 1 1 1)%float
          [Examples.identityMat] [(V3 100 100 100)%float] in
      (length (DensityAnalysis.symmetryOnlyAtoms allAtoms) + 1
       = length allAtoms)%nat.
Proof.
  assert (Hbox : DensityAnalysis.box_ends Examples.unit_grid
                 = Ok (V3 0 0 0, V3 1 1 1)%float)
    by (vm_compute; reflexivity).
  split; [exact Hbox|]. intros rt allAtoms.
  refine (proj2 (proj2 (calcSymmetryAtoms_own_atoms rt Examples.unit_grid
                          [Examples.identityMat] [(V3 100 100 100)%float]
                          allAtoms _) _)).
  - unfold DensityAnalysis._calcSymmetryAtoms. rewrite Hbox. reflexivity.
  - discriminate.
Defined.

(** ** The grouping loops of [aggregateCloud] *)

Section Grouping.
Variable n : nat.
Variable testOverlap : nat → nat → float.

Lemma elem_of_row_set (row : list float) (index : nat) :
  index ∈ AggregateCloud.row_set row
  ↔ ∃ o, row !! index = Some o ∧ AggregateCloud.truthy o = true.
Proof.
  unfold AggregateCloud.row_set.
  rewrite elem_of_list_to_set, list_elem_of_In, filter_In, in_seq. split.
  - intros [_ H]. destruct (row !! index) as [o|]; [eauto|done].
  - intros (o & Ho & Ht). split; [|by rewrite Ho].
    apply lookup_lt_Some in Ho. lia.
Qed.

Lemma overlapMatrix_lookup (i j : nat) :
  (i < n)%nat → (j < n)%nat →
  ∃ row, AggregateCloud.overlapMatrix n testOverlap !! i = Some row
         ∧ row !! j
           = Some (if (i <? j)%nat then testOverlap i j
                   else if (j <? i)%nat then testOverlap j i
                   else 0%float).
Proof.
  intros Hi Hj. unfold AggregateCloud.overlapMatrix.
  eexists. split.
  - rewrite list_lookup_fmap, lookup_seq_lt by done. reflexivity.
  - rewrite list_lookup_fmap, lookup_seq_lt by done. reflexivity.
Qed.

Lemma overlapMatrix_lookup_Some (i j : nat) (row : list float) (o : float) :
  AggregateCloud.overlapMatrix n testOverlap !! i = Some row →
  row !! j = Some o →
  (i < n)%nat ∧ (j < n)%nat.
Proof.
  unfold AggregateCloud.overlapMatrix. intros Hrow Ho.
  apply list_lookup_fmap_Some in Hrow as (i' & -> & Hi).
  apply lookup_seq in Hi as [-> Hi].
  apply list_lookup_fmap_Some in Ho as (j' & _ & Hj).
  apply lookup_seq in Hj as [-> Hj]. done.
Qed.

Lemma elem_of_row_of (i j : nat) :
  j ∈ AggregateCloud.row_of (AggregateCloud.overlapMatrix n testOverlap) i
  ↔ overlapping n testOverlap i j.
Proof.
  unfold AggregateCloud.row_of, overlapping. rewrite elem_of_row_set. split.
  - intros (o & Ho & Ht).
    destruct (AggregateCloud.overlapMatrix n testOverlap !! i)
      as [row|] eqn:Hrow; cbn [default from_option id] in Ho; [|done].
    destruct (overlapMatrix_lookup_Some i j row o Hrow Ho) as [Hi Hj].
    destruct (overlapMatrix_lookup i j Hi Hj) as (row' & Hrow' & Ho').
    rewrite Hrow in Hrow'. injection Hrow' as <-.
    rewrite Ho in Ho'. injection Ho' as ->.
    split; [done|]. split; [done|].
    destruct (Nat.ltb_spec i j) as [Hij|Hij].
    + rewrite Nat.min_l, Nat.max_r by lia. split; [lia|done].
    + destruct (Nat.ltb_spec j i) as [Hji|Hji].
      * rewrite Nat.min_r, Nat.max_l by lia. split; [lia|done].
      * done.
  - intros (Hi & Hj & Hne & Ht).
    destruct (overlapMatrix_lookup i j Hi Hj) as (row & -> & Ho).
    cbn [default from_option id]. eexists. split; [exact Ho|].
    destruct (Nat.ltb_spec i j) as [Hij|Hij].
    + by rewrite Nat.min_l, Nat.max_r in Ht by lia.
    + destruct (Nat.ltb_spec j i) as [Hji|Hji]; [|lia].
      by rewrite Nat.min_r, Nat.max_l in Ht by lia.
Qed.

Lemma overlapping_sym (i j : nat) :
  overlapping n testOverlap i j → overlapping n testOverlap j i.
Proof.
  unfold overlapping. intros (Hi & Hj & Hne & Ht).
  rewrite Nat.min_comm, Nat.max_comm. done.
Qed.

Lemma linked_sym (i j : nat) :
  linked n testOverlap i j → linked n testOverlap j i.
Proof.
  induction 1 as [|x y z Hxy _ IH]; [apply rtc_refl|].
  eapply rtc_r; [exact IH|]. by apply overlapping_sym.
Qed.

Lemma linked_lt (i j : nat) :
  linked n testOverlap i j → (i < n)%nat → (j < n)%nat.
Proof.
  induction 1 as [|x y z Hxy _ IH]; [done|]. intros _.
  apply IH. by destruct Hxy as (_ & ? & _).
Qed.

Lemma elem_of_frontier (newCluster currCluster : gset nat) (x : nat) :
  x ∈ AggregateCloud.frontier (AggregateCloud.overlapMatrix n testOverlap)
        newCluster currCluster
  ↔ (∃ y, y ∈ newCluster ∧ overlapping n testOverlap y x) ∧ x ∉ currCluster.
Proof.
  unfold AggregateCloud.frontier.
  rewrite elem_of_difference, elem_of_union_list. split.
  - intros [(S & HS & Hx) Hn]. split; [|done].
    apply list_elem_of_fmap in HS as (y & -> & Hy).
    exists y. split; [by apply elem_of_elements|]. by apply elem_of_row_of.
  - intros [(y & Hy & Hxy) Hn]. split; [|done].
    exists (AggregateCloud.row_of
              (AggregateCloud.overlapMatrix n testOverlap) y).
    split; [|by apply elem_of_row_of].
    apply list_elem_of_fmap. exists y. split; [done|].
    by apply elem_of_elements.
Qed.

Lemma expand_inv_step (start : nat) (newCluster currCluster : gset nat) :
  expand_inv n testOverlap start newCluster currCluster →
  newCluster ⊆ currCluster →
  let new := AggregateCloud.frontier
               (AggregateCloud.overlapMatrix n testOverlap)
               newCluster currCluster in
  expand_inv n testOverlap start new (currCluster ∪ new)
  ∧ new ⊆ currCluster ∪ new.
Proof.
  intros (Hstart & Hlink & Hclosed) Hsub new. split; [|set_solver].
  repeat split.
  - set_solver.
  - intros x [Hx|Hx]%elem_of_union; [by apply Hlink|].
    apply elem_of_frontier in Hx as [(y & Hy & Hyx) _].
    apply (rtc_r start y x); [apply Hlink; set_solver | exact Hyx].
  - intros x y [Hx|Hx]%elem_of_union Hnew Hxy; [|done].
    destruct (decide (y ∈ currCluster)) as [|Hy]; [set_solver|].
    destruct (decide (x ∈ newCluster)) as [Hxn|Hxn].
    + apply elem_of_union_r, elem_of_frontier. split; [|done]. eauto.
    + apply elem_of_union_l. by eapply Hclosed.
Qed.

(** The loop ends with the positions linked to the one it started
    from. *)
Lemma expand_component (overlap : list (list float)) (start : nat)
    (newCluster currCluster : gset nat) :
  overlap = AggregateCloud.overlapMatrix n testOverlap →
  expand_inv n testOverlap start newCluster currCluster →
  newCluster ⊆ currCluster →
  ∀ y, y ∈ AggregateCloud.expand overlap newCluster currCluster
       ↔ linked n testOverlap start y.
Proof.
  funelim (AggregateCloud.expand overlap newCluster currCluster);
    intros HM Hinv Hsub y.
  - destruct Hinv as (Hstart & Hlink & Hclosed).
    pose proof (size_empty_inv _ e) as He. split; [apply Hlink|].
    revert y. apply rtc_ind_r; [exact Hstart|].
    intros y z _ Hyz Hy. apply (Hclosed y z); [done|set_solver|done].
  - subst overlap.
    destruct (expand_inv_step start newCluster currCluster Hinv Hsub)
      as [Hinv' Hsub'].
    by apply H.
Qed.

Lemma expand_start_component (start : nat) :
  let newCluster :=
    AggregateCloud.row_of (AggregateCloud.overlapMatrix n testOverlap)
      start in
  ∀ y, y ∈ AggregateCloud.expand
             (AggregateCloud.overlapMatrix n testOverlap)
             newCluster ({[start]} ∪ newCluster)
       ↔ linked n testOverlap start y.
Proof.
  intros newCluster. apply expand_component; [done| |set_solver].
  repeat split.
  - set_solver.
  - intros x [->%elem_of_singleton|Hx]%elem_of_union; [apply rtc_refl|].
    apply rtc_once. by apply elem_of_row_of.
  - intros x y [->%elem_of_singleton|Hx]%elem_of_union Hn Hxy; [|done].
    apply elem_of_union_r. by apply elem_of_row_of.
Qed.

Lemma grouping_inv_step (k : nat) (st : gset nat * list (gset nat)) :
  (k < n)%nat →
  grouping_inv n testOverlap k st →
  grouping_inv n testOverlap (S k)
    (AggregateCloud.cluster_step
       (AggregateCloud.overlapMatrix n testOverlap) st k).
Proof.
  destruct st as [used acc]. intros Hk (Hused & Hcomp & Hdisj & Hbelow).
  cbn [fst snd] in *. unfold AggregateCloud.cluster_step.
  destruct (decide (k ∈ used)) as [Hin|Hout].
  - repeat split; cbn [fst snd]; try done; try apply Hused.
    intros x Hx. destruct (decide (x = k)) as [->|]; [done|].
    apply Hbelow. lia.
  - pose proof (expand_start_component k) as Hnew. cbn zeta in Hnew.
    set (currCluster := AggregateCloud.expand _ _ _) in *.
    assert (Hfresh : ∀ S, S ∈ acc → S ## currCluster).
    { intros S HS x HxS Hxn.
      destruct (Hcomp S HS) as (start & _ & Hstart).
      apply Hout, Hused. exists S. split; [done|].
      apply Hstart. unfold linked. transitivity x; [by apply Hstart|].
      by apply linked_sym, Hnew. }
    repeat split; cbn [fst snd].
    + intros [Hx|Hx]%elem_of_union.
      * apply Hused in Hx as (S & HS & HxS). exists S. set_solver.
      * exists currCluster. set_solver.
    + intros (S & [HS| ->%list_elem_of_singleton]%elem_of_app & HxS).
      * apply elem_of_union_l, Hused. by exists S.
      * by apply elem_of_union_r.
    + intros S [HS| ->%list_elem_of_singleton]%elem_of_app.
      * by apply Hcomp.
      * by exists k.
    + intros i j S T Hi Hj Hij.
      apply lookup_snoc_Some in Hi as [[Hi1 Hi2]|[Hi1 <-]],
            Hj as [[Hj1 Hj2]|[Hj1 <-]].
      * by eapply Hdisj.
      * apply Hfresh. by eapply list_elem_of_lookup_2.
      * symmetry. apply Hfresh. by eapply list_elem_of_lookup_2.
      * lia.
    + intros x Hx. destruct (decide (x = k)) as [->|].
      * apply elem_of_union_r, Hnew, rtc_refl.
      * apply elem_of_union_l, Hbelow. lia.
Qed.

Lemma grouping_inv_loop (k : nat) :
  (k ≤ n)%nat →
  grouping_inv n testOverlap k
    (foldl (AggregateCloud.cluster_step
              (AggregateCloud.overlapMatrix n testOverlap))
       (∅, []) (seq 0 k)).
Proof.
  induction k as [|k IH]; intros Hk.
  - cbn. repeat split; cbn; try set_solver; lia.
  - rewrite seq_S, foldl_app. cbn [foldl Nat.add].
    apply grouping_inv_step; [lia|]. apply IH. lia.
Qed.

(** X24: the grouping loops of [aggregateCloud] end for every pool,
    whatever [testOverlap] answers, and merge the clouds by the
    connected components of the overlap relation.  Every position of the
    pool is merged into exactly one cloud of the result; and the
    positions merged into a cloud are, with any one of them, exactly the
    positions linked to it by a chain of overlaps. *)
Theorem aggregateCloud_groups_components :
  let merged := AggregateCloud.clusters n testOverlap in
  (∀ x, (x < n)%nat →
     ∃ k S, merged !! k = Some S ∧ x ∈ S
            ∧ ∀ k' S', merged !! k' = Some S' → x ∈ S' → k' = k)
  ∧ (∀ k S, merged !! k = Some S →
       (∃ x, x ∈ S)
       ∧ ∀ x, x ∈ S →
           (x < n)%nat ∧ ∀ y, y ∈ S ↔ linked n testOverlap x y).
Proof.
  intros merged.
  pose proof (grouping_inv_loop n (le_n _))
    as (Hused & Hcomp & Hdisj & Hbelow).
  unfold merged, AggregateCloud.clusters.
  set (st := foldl _ _ _) in *. split.
  - intros x Hx. apply Hbelow, Hused in Hx as (S & HS & HxS).
    apply list_elem_of_lookup_1 in HS as [k Hk].
    exists k, S. repeat split; try done.
    intros k' S' Hk' HxS'. destruct (decide (k' = k)) as [|Hne]; [done|].
    exfalso. by apply (Hdisj k' k S' S Hk' Hk Hne x).
  - intros k S Hk.
    destruct (Hcomp S (list_elem_of_lookup_2 _ _ _ Hk))
      as (start & Hlt & Hstart).
    split; [exists start; apply Hstart, rtc_refl|].
    intros x Hx. apply Hstart in Hx. split.
    + by eapply linked_lt.
    + intros y. rewrite Hstart. split; intros Hy.
      * unfold linked. transitivity start; [by apply linked_sym|done].
      * unfold linked. by transitivity x.
Qed.

End Grouping.

(** Three clouds of which the first and the last overlap: two clouds
    are left, the first merged from the positions 0 and 2. *)
Example aggregateCloud_groups_example :
  AggregateCloud.clusters 3
    (λ i j, if ((i =? 0) && (j =? 2))%nat then 1%float else 0%float)
  = [{[0%nat; 2%nat]}; {[1%nat]}].
Proof. vm_compute. reflexivity. Qed.
